(** * Hiring manager: candidate scoring, list filtering and sorting

    A shallow embedding of the scoring and list logic of the candidate
    service ([calculateOverallScore], [getCandidates],
    [uploadCandidateDocument]), of the client-side status filter of the
    dashboard page, and of the result validation of the two
    analyze-document routes.

    JavaScript numbers are IEEE 754 binary64 values; they are modelled by
    the Standard Library's executable specification of binary floating
    point ([SpecFloat], precision 53, maximal exponent 1024), so every
    sum, product, quotient and comparison below rounds exactly as the
    program's does. *)

From Stdlib Require Import ZArith QArith Floats.SpecFloat Ascii Lia.
From stdpp Require Import gmap strings list pretty.

Local Open Scope Z_scope.

#[local] Set Warnings "-register-all".

(** ** Numbers *)

Module Number.

Definition prec : Z := 53.
Definition emax : Z := 1024.

Abbreviation number := spec_float.

Definition NaN : number := S754_nan.
Definition POSITIVE_INFINITY : number := S754_infinity false.
Definition NEGATIVE_INFINITY : number := S754_infinity true.
Definition zero : number := S754_zero false.

Definition add : number -> number -> number := SFadd prec emax.
Definition mul : number -> number -> number := SFmul prec emax.
Definition div : number -> number -> number := SFdiv prec emax.

(** [x === y], [x < y], [x > y], [x >= y], [x <= y] on numbers: every
    comparison with NaN is false, and the two zeros are equal. *)
Definition strictEq (x y : number) : bool := SFeqb x y.
Definition lt (x y : number) : bool := SFltb x y.
Definition gt (x y : number) : bool := SFltb y x.
Definition le (x y : number) : bool := SFleb x y.
Definition ge (x y : number) : bool := SFleb y x.

(** Truthiness of a number: everything but NaN and the two zeros. *)
Definition truthy (x : number) : bool :=
  match x with
  | S754_zero _ | S754_nan => false
  | _ => true
  end.

(** The number denoted by an integer literal. *)
Definition ofZ (z : Z) : number := binary_normalize prec emax z 0 false.

(** The number nearest to the fraction [p / q] (ties to even), negated
    when [neg] is set: what a decimal literal such as [0.25] denotes. *)
Definition ofRatio (neg : bool) (p q : positive) : number :=
  SFdiv prec emax (S754_finite neg p 0) (S754_finite false q 0).

(** The exact value of a number, as a fraction; NaN and the infinities
    have none. *)
Definition exact (x : number) : option Q :=
  match x with
  | S754_zero _ => Some 0%Q
  | S754_finite s m e =>
      let v := match e with
               | Zneg k => Qmake (Zpos m) (2 ^ k)
               | _ => inject_Z (Zpos m * 2 ^ e)
               end in
      Some (if s then Qopp v else v)
  | _ => None
  end.

(** *** [Number.prototype.toFixed(1)] and [parseFloat]

    [toFixed(1)] prints a finite number below 10^21 in magnitude as the
    integer [n] for which [n / 10] is nearest to the exact value, the
    larger [n] on a tie, with the decimal point before the last digit
    and a minus sign when the value is below zero; NaN and the
    infinities print as their names; from 10^21 on it prints the
    number's ordinary round-trip notation. *)
Inductive fixedString : Type :=
| FixedNaN
| FixedInfinity (neg : bool)
| FixedDecimal (neg : bool) (tenths : N)
| FixedLarge (x : number).

(** Whether [m * 2^e] reaches 10^21. *)
Definition atLeast1e21 (m : positive) (e : Z) : bool :=
  match e with
  | Zneg k => 10 ^ 21 * 2 ^ Zpos k <=? Zpos m
  | _ => 10 ^ 21 <=? Zpos m * 2 ^ e
  end.

(** The integer nearest to [10 * m * 2^e], the larger one on a tie. *)
Definition nearestTenths (m : positive) (e : Z) : N :=
  match e with
  | Zneg k => Z.to_N ((20 * Zpos m + 2 ^ Zpos k) / 2 ^ (Zpos k + 1))
  | _ => Z.to_N (10 * Zpos m * 2 ^ e)
  end.

Definition toFixed1 (x : number) : fixedString :=
  match x with
  | S754_nan => FixedNaN
  | S754_infinity s => FixedInfinity s
  | S754_zero _ => FixedDecimal false 0
  | S754_finite s m e =>
      if atLeast1e21 m e then FixedLarge x
      else FixedDecimal s (nearestTenths m e)
  end.

(** The characters printed, short of the round-trip notation. *)
Definition printed (s : fixedString) : option string :=
  match s with
  | FixedNaN => Some "NaN"
  | FixedInfinity neg => Some (if neg then "-Infinity" else "Infinity")
  | FixedDecimal neg tenths =>
      Some ((if neg then "-" else "") +:+
            pretty (tenths / 10)%N +:+ "." +:+ pretty (tenths mod 10)%N)
  | FixedLarge _ => None
  end.

(** [parseFloat] on what [toFixed1] printed: the number nearest to the
    printed decimal. *)
Definition parseFloat (s : fixedString) : number :=
  match s with
  | FixedNaN => S754_nan
  | FixedInfinity neg => S754_infinity neg
  | FixedDecimal neg N0 => S754_zero neg
  | FixedDecimal neg (Npos n) => ofRatio neg n 10
  | FixedLarge x => x
  end.

End Number.

Import Number.

Declare Scope number_scope.
Delimit Scope number_scope with num.
Infix "+" := Number.add : number_scope.
Infix "*" := Number.mul : number_scope.
Infix "/" := Number.div : number_scope.
Infix "===" := Number.strictEq (at level 70) : number_scope.

(** ** Category scores and weights *)

(** A [CategoryScores] object, as the list of its own properties in
    enumeration order (the order [for ... in] visits them); property
    names are distinct. *)
Definition CategoryScores : Type := list (string * number).

(** A [CategoryWeights] object, as its own properties. It is a plain
    object (an object literal, parsed JSON), so a name it does not hold
    itself is looked up in [Object.prototype]. *)
Abbreviation CategoryWeights := (gmap string number).

Definition DEFAULT_WEIGHTS : CategoryWeights :=
  <["technicalSkills" := ofRatio false 4 10]>
  (<["communicationSkills" := ofRatio false 25 100]>
  (<["experience" := ofRatio false 25 100]>
  (<["culturalFit" := ofRatio false 1 10]> ∅))).

(** The members of [Object.prototype]: functions, and [__proto__],
    which reads as the prototype object itself. *)
Definition objectPrototypeMembers : list string :=
  ["constructor"; "hasOwnProperty"; "isPrototypeOf"; "propertyIsEnumerable";
   "toLocaleString"; "toString"; "valueOf"; "__proto__";
   "__defineGetter__"; "__defineSetter__";
   "__lookupGetter__"; "__lookupSetter__"].

(** What [weights[category]] reads: the object's own number, an
    inherited member, or [undefined]. *)
Inductive Weight : Type :=
| OwnWeight (w : number)
| InheritedMember
| NoWeight.

Definition weightAt (weights : CategoryWeights) (category : string) : Weight :=
  match weights !! category with
  | Some w => OwnWeight w
  | None =>
      if bool_decide (category ∈ objectPrototypeMembers)
      then InheritedMember else NoWeight
  end.

(** Truthiness of what was read: a function or an object is truthy,
    [undefined] is not. *)
Definition weightTruthy (w : Weight) : bool :=
  match w with
  | OwnWeight x => truthy x
  | InheritedMember => true
  | NoWeight => false
  end.

(** What was read, as an operand of [*]: a function prints as its
    source text and the prototype object as [[object Object]], neither
    of which is a numeric literal; [undefined] is NaN as well. *)
Definition weightToNumber (w : Weight) : number :=
  match w with
  | OwnWeight x => x
  | InheritedMember | NoWeight => NaN
  end.

(** The variable [totalWeight]: a number, or once an inherited member
    has been added to it a string, which holds the text of that
    member. *)
Inductive Total : Type :=
| TotalNumber (x : number)
| TotalText.

(** [totalWeight += w]: [+] adds two numbers and concatenates as soon
    as one side is a string or prints as one. *)
Definition addWeight (total : Total) (w : Weight) : Total :=
  match total, w with
  | TotalNumber x, OwnWeight y => TotalNumber (x + y)%num
  | TotalNumber x, NoWeight => TotalNumber (x + NaN)%num
  | _, _ => TotalText
  end.

(** [totalWeight === 0]: a string is not strictly equal to a number. *)
Definition totalIsZero (total : Total) : bool :=
  match total with
  | TotalNumber x => (x === zero)%num
  | TotalText => false
  end.

(** [totalWeight] as the divisor: the text of a member is no numeric
    literal. *)
Definition totalToNumber (total : Total) : number :=
  match total with
  | TotalNumber x => x
  | TotalText => NaN
  end.

(** One iteration of the loop of [calculateOverallScore]: the pair is
    [(weightedScore, totalWeight)]. *)
Definition accumulate (weights : CategoryWeights)
    (acc : number * Total) (entry : string * number) : number * Total :=
  let '(weightedScore, totalWeight) := acc in
  let '(category, score) := entry in
  if weightTruthy (weightAt weights category)
  then ((weightedScore + score * weightToNumber (weightAt weights category))%num,
        addWeight totalWeight (weightAt weights category))
  else acc.

Definition calculateOverallScore (scores : CategoryScores)
    (weights : CategoryWeights) : number :=
  let '(weightedScore, totalWeight) :=
    fold_left (accumulate weights) scores (zero, TotalNumber zero) in
  if totalIsZero totalWeight then zero
  else parseFloat (toFixed1 (weightedScore / totalToNumber totalWeight)%num).

Definition exampleScores : CategoryScores :=
  [("technicalSkills", ofZ 8); ("communicationSkills", ofZ 6);
   ("experience", ofZ 7); ("culturalFit", ofZ 9)]%string.

(** *** The weighted mean, as the data model words it

    The pairs (score, weight) of the categories that have an entry in
    both objects, in the enumeration order of the scores. *)
Definition applied (scores : CategoryScores) (weights : CategoryWeights)
    : list (number * number) :=
  omap (fun entry : string * number =>
          match weights !! entry.1 with
          | Some w => Some (entry.2, w)
          | None => None
          end) scores.

Definition weightedSum (pairs : list (number * number)) : number :=
  fold_left (fun sum p => (sum + p.1 * p.2)%num) pairs zero.

Definition totalWeight (pairs : list (number * number)) : number :=
  fold_left (fun total p => (total + p.2)%num) pairs zero.

Definition weightedMean (scores : CategoryScores) (weights : CategoryWeights)
    : number :=
  let pairs := applied scores weights in
  if (totalWeight pairs === zero)%num then zero
  else parseFloat (toFixed1 (weightedSum pairs / totalWeight pairs)%num).

(** [weights[category]] is a member the weights object inherits. *)
Definition readsInherited (weights : CategoryWeights) (category : string)
    : bool :=
  match weightAt weights category with
  | InheritedMember => true
  | _ => false
  end.

(** The data model's wording for one pair of objects: the overall
    score is the weighted mean over the categories present in both, and
    0 when the weights applied sum to zero. *)
Definition returnsWeightedMean (scores : CategoryScores)
    (weights : CategoryWeights) : Prop :=
  calculateOverallScore scores weights = weightedMean scores weights /\
  ((totalWeight (applied scores weights) === zero)%num = true ->
   calculateOverallScore scores weights = zero).

(** A finite number that is not below zero: what the data model allows
    as a category score and as a weight. *)
Definition nonNegative (x : number) : bool :=
  match x with
  | S754_zero false | S754_finite false _ _ => true
  | _ => false
  end.

(** Numbers whose sign bit is clear, NaN included: the accumulators of
    the loop stay among them when scores and weights are not below
    zero. *)
Definition unsigned (x : number) : bool :=
  match x with
  | S754_zero s | S754_infinity s | S754_finite s _ _ => negb s
  | S754_nan => true
  end.

(** *** The division site, instrumented

    JavaScript's [/] never throws; to state that the division of
    [calculateOverallScore] is never reached with a zero divisor, the
    checked variant below fails where the divisor is a zero. *)
Definition checkedDiv (x y : number) : option number :=
  if (y === zero)%num then None else Some (x / y)%num.

Definition calculateOverallScoreChecked (scores : CategoryScores)
    (weights : CategoryWeights) : option number :=
  let '(weightedScore, totalWeight) :=
    fold_left (accumulate weights) scores (zero, TotalNumber zero) in
  if totalIsZero totalWeight then Some zero
  else match checkedDiv weightedScore (totalToNumber totalWeight) with
       | Some q => Some (parseFloat (toFixed1 q))
       | None => None
       end.

(** ** Strings

    A string is its sequence of code units; the model covers the code
    units below 256. *)

Module JSString.

Definition codeUnit (c : ascii) : N := N_of_ascii c.

Definition inRange (lo hi : N) (c : ascii) : bool :=
  ((lo <=? codeUnit c) && (codeUnit c <=? hi))%N.

(** [String.prototype.toLowerCase]: the capital letters A-Z and the
    accented capitals from 192 to 222 (the sign 215 apart) move 32 up. *)
Definition lowerUnit (c : ascii) : ascii :=
  if inRange 65 90 c || (inRange 192 222 c && negb (codeUnit c =? 215)%N)
  then ascii_of_N (codeUnit c + 32)
  else c.

Fixpoint toLowerCase (s : string) : string :=
  match s with
  | EmptyString => EmptyString
  | String c rest => String (lowerUnit c) (toLowerCase rest)
  end.

Fixpoint startsWith (s prefix : string) {struct prefix} : bool :=
  match prefix, s with
  | EmptyString, _ => true
  | String p prefix', String c s' => Ascii.eqb p c && startsWith s' prefix'
  | String _ _, EmptyString => false
  end.

(** [String.prototype.includes]: the keyword occurs at some position. *)
Fixpoint includes (s keyword : string) : bool :=
  startsWith s keyword ||
  match s with
  | EmptyString => false
  | String _ rest => includes rest keyword
  end.

(** [String.prototype.split] on a one-unit separator. *)
Fixpoint split (sep : ascii) (s : string) : list string :=
  match s with
  | EmptyString => [EmptyString]
  | String c rest =>
      if Ascii.eqb c sep then EmptyString :: split sep rest
      else match split sep rest with
           | first :: others => String c first :: others
           | [] => [String c EmptyString]
           end
  end.

(** [s < t] on two strings: the order of the code units. *)
Definition lt (s t : string) : bool := String.ltb s t.

(** *** Conversion of a string to a number (the [StringToNumber]
    operation behind [<] and [>] when one operand is not a string) *)

Definition isWhiteSpace (c : ascii) : bool :=
  inRange 9 13 c || (codeUnit c =? 32)%N || (codeUnit c =? 160)%N.

Fixpoint trimStart (s : string) : string :=
  match s with
  | String c rest => if isWhiteSpace c then trimStart rest else s
  | EmptyString => s
  end.

Definition trim (s : string) : string :=
  String.rev (trimStart (String.rev (trimStart s))).

Definition digitOf (radix : N) (c : ascii) : option N :=
  let d :=
    if inRange 48 57 c then Some (codeUnit c - 48)%N
    else if inRange 97 122 c then Some (codeUnit c - 87)%N
    else if inRange 65 90 c then Some (codeUnit c - 55)%N
    else None in
  match d with
  | Some n => if (n <? radix)%N then Some n else None
  | None => None
  end.

(** The longest run of digits at the head of [s]: the value they add
    to [acc], how many there are, and the rest of the string. *)
Fixpoint readDigits (radix : N) (s : string) (acc : N) (count : nat)
    : N * nat * string :=
  match s with
  | String c rest =>
      match digitOf radix c with
      | Some d => readDigits radix rest (radix * acc + d)%N (S count)
      | None => (acc, count, s)
      end
  | EmptyString => (acc, count, s)
  end.

(** The number nearest to [m * 10^e]. *)
Definition ofDecimal (neg : bool) (m : N) (e : Z) : number :=
  match m with
  | N0 => S754_zero neg
  | Npos p =>
      match e with
      | Zneg k => ofRatio neg p (10 ^ k)
      | _ => binary_round prec emax neg (p * Z.to_pos (10 ^ e)) 0
      end
  end.

(** A literal in radix 2, 8 or 16: digits only, at least one. *)
Definition nonDecimalLiteral (radix : N) (digits : string) : number :=
  match readDigits radix digits 0 0 with
  | (v, S _, EmptyString) => ofZ (Z.of_N v)
  | _ => NaN
  end.

(** The exponent part: nothing, or [e] or [E], an optional sign and at
    least one digit, up to the end of the string. *)
Definition exponentPart (s : string) : option Z :=
  match s with
  | EmptyString => Some 0
  | String c rest =>
      if (codeUnit c =? 101)%N || (codeUnit c =? 69)%N then
        let '(neg, digits) :=
          match rest with
          | String "-"%char r => (true, r)
          | String "+"%char r => (false, r)
          | _ => (false, rest)
          end in
        match readDigits 10 digits 0 0 with
        | (v, S _, EmptyString) =>
            Some (if neg then - Z.of_N v else Z.of_N v)
        | _ => None
        end
      else None
  end.

(** An unsigned decimal literal: [Infinity], or digits with an
    optional point and fraction (a digit on at least one side of the
    point) and an optional exponent part. *)
Definition unsignedDecimalLiteral (neg : bool) (s : string) : number :=
  if String.eqb s "Infinity" then S754_infinity neg
  else
    let '(whole, nWhole, afterWhole) := readDigits 10 s 0 0 in
    let '(mantissa, nFraction, afterFraction) :=
      match afterWhole with
      | String "."%char r => readDigits 10 r whole 0
      | _ => (whole, O, afterWhole)
      end in
    match (nWhole + nFraction)%nat, exponentPart afterFraction with
    | S _, Some e => ofDecimal neg mantissa (e - Z.of_nat nFraction)
    | _, _ => NaN
    end.

Definition StringToNumber (s : string) : number :=
  match trim s with
  | EmptyString => zero
  | String "0"%char (String "x"%char digits) | String "0"%char (String "X"%char digits) =>
      nonDecimalLiteral 16 digits
  | String "0"%char (String "o"%char digits) | String "0"%char (String "O"%char digits) =>
      nonDecimalLiteral 8 digits
  | String "0"%char (String "b"%char digits) | String "0"%char (String "B"%char digits) =>
      nonDecimalLiteral 2 digits
  | String "-"%char rest => unsignedDecimalLiteral true rest
  | String "+"%char rest => unsignedDecimalLiteral false rest
  | literal => unsignedDecimalLiteral false literal
  end.

End JSString.

(** ** The data model ([types.ts]) *)

Inductive AIModel : Type := openai | gemini.

Inductive Status : Type := Active | Inactive.

Module AIAnalysis.
Record t : Type := {
  summary : option string;
  extractedSkills : option (list string);
  extractedEducation : option (list string);
  extractedExperience : option (list string);
  suggestedScores : option CategoryScores;
  model : AIModel;
  generatedAt : number
}.
End AIAnalysis.

Module DocumentInfo.
Record t : Type := {
  id : string;
  name : string;
  url : string;
  type : string;
  uploadedAt : number;
  aiAnalysis : option AIAnalysis.t
}.
End DocumentInfo.

Module CandidateDocuments.
Record t : Type := {
  resume : option DocumentInfo.t;
  coverLetter : option DocumentInfo.t;
  notes : option (list DocumentInfo.t);
  transcripts : option (list DocumentInfo.t)
}.
End CandidateDocuments.

(** An optional property is [None] when the stored record has no such
    property or holds [null] there; the code treats both alike. The
    [documents] property is declared required but read defensively
    ([candidate.documents?.notes], [candidateData.documents || {}]), so
    it is optional here. *)
Module Candidate.
Record t : Type := {
  id : string;
  name : string;
  email : string;
  phone : option string;
  linkedin : option string;
  github : option string;
  pictureUrl : option string;
  starRating : number;
  status : Status;
  createdAt : number;
  updatedAt : number;
  scores : CategoryScores;
  overallScore : number;
  documents : option CandidateDocuments.t
}.
End Candidate.

Inductive Direction : Type := asc | desc.

Module SortOption.
Record t : Type := { field : string; direction : Direction }.
End SortOption.

Inductive StatusFilter : Type := OnlyActive | OnlyInactive | All.

Module FilterOptions.
Record t : Type := {
  status : option StatusFilter;
  minScore : option number;
  maxScore : option number;
  searchTerm : option string
}.
End FilterOptions.

Definition statusName (s : Status) : string :=
  match s with Active => "Active" | Inactive => "Inactive" end.

Definition modelName (m : AIModel) : string :=
  match m with openai => "openai" | gemini => "gemini" end.

Definition statusEqb (s t : Status) : bool :=
  match s, t with
  | Active, Active | Inactive, Inactive => true
  | _, _ => false
  end.

(** ** Values met while walking a record by property names

    The comparison function of the client-side sort reads a candidate
    dynamically ([fieldA = fieldA[part]]); these are the values such a
    walk can reach in a record of the data model. *)
Inductive jsval : Type :=
| Undefined
| Null
| Num (x : number)
| Str (s : string)
| ObjCandidate (c : Candidate.t)
| ObjScores (s : CategoryScores)
| ObjDocuments (d : CandidateDocuments.t)
| ObjDocument (d : DocumentInfo.t)
| ObjAnalysis (a : AIAnalysis.t)
| ArrDocuments (l : list DocumentInfo.t)
| ArrStrings (l : list string).

Definition optional {A : Type} (inj : A -> jsval) (o : option A) : jsval :=
  match o with Some a => inj a | None => Undefined end.

(** The elements of an array under their indices, then its [length]. *)
Definition arrayProperties {A : Type} (inj : A -> jsval) (l : list A)
    : list (string * jsval) :=
  imap (fun i a => (pretty i, inj a)) l ++
  [("length", Num (ofZ (Z.of_nat (length l))))].

(** The own properties of a value. What every object inherits
    ([constructor], [toString], the methods of arrays, ...) is outside
    the model: a path is taken to name data. *)
Definition properties (v : jsval) : list (string * jsval) :=
  match v with
  | ObjCandidate c =>
      [("id", Str (Candidate.id c));
       ("name", Str (Candidate.name c));
       ("email", Str (Candidate.email c));
       ("phone", optional Str (Candidate.phone c));
       ("linkedin", optional Str (Candidate.linkedin c));
       ("github", optional Str (Candidate.github c));
       ("pictureUrl", optional Str (Candidate.pictureUrl c));
       ("starRating", Num (Candidate.starRating c));
       ("status", Str (statusName (Candidate.status c)));
       ("createdAt", Num (Candidate.createdAt c));
       ("updatedAt", Num (Candidate.updatedAt c));
       ("scores", ObjScores (Candidate.scores c));
       ("overallScore", Num (Candidate.overallScore c));
       ("documents", optional ObjDocuments (Candidate.documents c))]
  | ObjScores s => map (fun entry => (entry.1, Num entry.2)) s
  | ObjDocuments d =>
      [("resume", optional ObjDocument (CandidateDocuments.resume d));
       ("coverLetter", optional ObjDocument (CandidateDocuments.coverLetter d));
       ("notes", optional ArrDocuments (CandidateDocuments.notes d));
       ("transcripts", optional ArrDocuments (CandidateDocuments.transcripts d))]
  | ObjDocument d =>
      [("id", Str (DocumentInfo.id d));
       ("name", Str (DocumentInfo.name d));
       ("url", Str (DocumentInfo.url d));
       ("type", Str (DocumentInfo.type d));
       ("uploadedAt", Num (DocumentInfo.uploadedAt d));
       ("aiAnalysis", optional ObjAnalysis (DocumentInfo.aiAnalysis d))]
  | ObjAnalysis a =>
      [("summary", optional Str (AIAnalysis.summary a));
       ("extractedSkills", optional ArrStrings (AIAnalysis.extractedSkills a));
       ("extractedEducation", optional ArrStrings (AIAnalysis.extractedEducation a));
       ("extractedExperience", optional ArrStrings (AIAnalysis.extractedExperience a));
       ("suggestedScores", optional ObjScores (AIAnalysis.suggestedScores a));
       ("model", Str (modelName (AIAnalysis.model a)));
       ("generatedAt", Num (AIAnalysis.generatedAt a))]
  | ArrDocuments l => arrayProperties ObjDocument l
  | ArrStrings l => arrayProperties Str l
  | Undefined | Null | Num _ | Str _ => []
  end.

Fixpoint lookupProperty (part : string) (props : list (string * jsval))
    : jsval :=
  match props with
  | [] => Undefined
  | (key, v) :: rest =>
      if String.eqb key part then v else lookupProperty part rest
  end.

(** [v[part]]: reading a property of [undefined] or [null] throws a
    TypeError ([None]); a property that is not there reads as
    [undefined]. *)
Definition getProperty (v : jsval) (part : string) : option jsval :=
  match v with
  | Undefined | Null => None
  | _ => Some (lookupProperty part (properties v))
  end.

(** [v && typeof v === 'object']. *)
Definition isObject (v : jsval) : bool :=
  match v with
  | Undefined | Null | Num _ | Str _ => false
  | _ => true
  end.

(** [v === undefined || v === null]. *)
Definition isMissing (v : jsval) : bool :=
  match v with
  | Undefined | Null => true
  | _ => false
  end.

(** *** The relational operators [<] and [>]

    Both operands are first turned into primitives: an array prints as
    its elements joined by commas, any other object as
    [[object Object]]. Two strings compare as strings; otherwise both
    sides are converted to numbers. *)
Inductive primitive : Type :=
| PUndefined
| PNull
| PNumber (x : number)
| PString (s : string).

Definition ToPrimitive (v : jsval) : primitive :=
  match v with
  | Undefined => PUndefined
  | Null => PNull
  | Num x => PNumber x
  | Str s => PString s
  | ArrDocuments l =>
      PString (String.concat "," (map (fun _ => "[object Object]") l))
  | ArrStrings l => PString (String.concat "," l)
  | _ => PString "[object Object]"
  end.

Definition ToNumber (p : primitive) : number :=
  match p with
  | PUndefined => NaN
  | PNull => zero
  | PNumber x => x
  | PString s => JSString.StringToNumber s
  end.

Definition lessThan (a b : jsval) : bool :=
  match ToPrimitive a, ToPrimitive b with
  | PString s, PString t => JSString.lt s t
  | pa, pb => Number.lt (ToNumber pa) (ToNumber pb)
  end.

Definition greaterThan (a b : jsval) : bool := lessThan b a.

(** ** The candidate service ([candidateUtils.ts]): [getCandidates] *)

(** The query constraints the service sends to the hosted store. *)
Inductive QueryConstraint : Type :=
| whereStatus (value : Status)
| orderBy (field : string) (direction : Direction).

Definition simpleSortFields : list string :=
  ["name"; "email"; "createdAt"; "updatedAt"].

(** [simpleSortFields.includes(field)]. *)
Definition isSimpleSortField (field : string) : bool :=
  existsb (String.eqb field) simpleSortFields.

Definition statusConstraint (filterOptions : option FilterOptions.t)
    : list QueryConstraint :=
  match filterOptions with
  | Some options =>
      match FilterOptions.status options with
      | Some OnlyActive => [whereStatus Active]
      | Some OnlyInactive => [whereStatus Inactive]
      | Some All | None => []
      end
  | None => []
  end.

Definition sortConstraint (sortOption : option SortOption.t)
    : list QueryConstraint :=
  match sortOption with
  | Some by_ =>
      if isSimpleSortField (SortOption.field by_)
      then [orderBy (SortOption.field by_) (SortOption.direction by_)]
      else []
  | None => [orderBy "updatedAt" desc]
  end.

(** [snapshot.docs.map(...)]: a falsy time stamp is replaced by the
    current time. *)
Definition toCandidate (now : number) (data : Candidate.t) : Candidate.t :=
  {| Candidate.id := Candidate.id data;
     Candidate.name := Candidate.name data;
     Candidate.email := Candidate.email data;
     Candidate.phone := Candidate.phone data;
     Candidate.linkedin := Candidate.linkedin data;
     Candidate.github := Candidate.github data;
     Candidate.pictureUrl := Candidate.pictureUrl data;
     Candidate.starRating := Candidate.starRating data;
     Candidate.status := Candidate.status data;
     Candidate.createdAt :=
       if truthy (Candidate.createdAt data) then Candidate.createdAt data
       else now;
     Candidate.updatedAt :=
       if truthy (Candidate.updatedAt data) then Candidate.updatedAt data
       else now;
     Candidate.scores := Candidate.scores data;
     Candidate.overallScore := Candidate.overallScore data;
     Candidate.documents := Candidate.documents data |}.

(** *** Keyword search *)

(** [candidate.documents?.notes || []]. *)
Definition notesOf (candidate : Candidate.t) : list DocumentInfo.t :=
  match Candidate.documents candidate with
  | Some docs => default [] (CandidateDocuments.notes docs)
  | None => []
  end.

(** [Boolean(field)] on an optional string: absent and empty strings
    are dropped. *)
Definition truthyString (field : option string) : option string :=
  match field with
  | Some EmptyString | None => None
  | Some s => Some s
  end.

Definition searchableFields (candidate : Candidate.t) : list string :=
  omap truthyString
    ([Some (Candidate.name candidate);
      Some (Candidate.email candidate);
      Candidate.phone candidate;
      Candidate.linkedin candidate;
      Candidate.github candidate] ++
     map (fun note => Some (DocumentInfo.name note)) (notesOf candidate)).

Definition matchesKeyword (keyword : string) (candidate : Candidate.t) : bool :=
  existsb (fun field => JSString.includes (JSString.toLowerCase field) keyword)
    (searchableFields candidate).

(** [filterOptions?.searchTerm], when truthy. *)
Definition searchTermOf (filterOptions : option FilterOptions.t)
    : option string :=
  match filterOptions with
  | Some options => truthyString (FilterOptions.searchTerm options)
  | None => None
  end.

Definition searchFilter (filterOptions : option FilterOptions.t)
    (candidates : list Candidate.t) : list Candidate.t :=
  match searchTermOf filterOptions with
  | Some searchTerm =>
      let keyword := JSString.toLowerCase searchTerm in
      List.filter (matchesKeyword keyword) candidates
  | None => candidates
  end.

(** *** Score bounds *)

Definition minScoreOf (filterOptions : option FilterOptions.t)
    : option number :=
  match filterOptions with
  | Some options => FilterOptions.minScore options
  | None => None
  end.

Definition maxScoreOf (filterOptions : option FilterOptions.t)
    : option number :=
  match filterOptions with
  | Some options => FilterOptions.maxScore options
  | None => None
  end.

Definition minScoreFilter (filterOptions : option FilterOptions.t)
    (candidates : list Candidate.t) : list Candidate.t :=
  match minScoreOf filterOptions with
  | Some minScore =>
      List.filter (fun c => Number.ge (Candidate.overallScore c) minScore)
        candidates
  | None => candidates
  end.

Definition maxScoreFilter (filterOptions : option FilterOptions.t)
    (candidates : list Candidate.t) : list Candidate.t :=
  match maxScoreOf filterOptions with
  | Some maxScore =>
      List.filter (fun c => Number.le (Candidate.overallScore c) maxScore)
        candidates
  | None => candidates
  end.

(** *** Client-side sort *)

(** One turn of the loop over the parts of the field path. *)
Definition walkStep (field : jsval) (part : string) : option jsval :=
  if isObject field then getProperty field part else Some field.

Fixpoint walk (field : jsval) (fieldParts : list string) : option jsval :=
  match fieldParts with
  | [] => Some field
  | part :: rest => walkStep field part ≫= fun next => walk next rest
  end.

Definition sentinel (direction : Direction) : number :=
  match direction with
  | asc => NEGATIVE_INFINITY
  | desc => POSITIVE_INFINITY
  end.

(** The "safety check": a missing value is replaced by the sentinel. *)
Definition orSentinel (direction : Direction) (field : jsval) : jsval :=
  if isMissing field then Num (sentinel direction) else field.

(** The value the comparison function compares a candidate by. *)
Definition sortKey (sortOption : SortOption.t) (candidate : Candidate.t)
    : option jsval :=
  orSentinel (SortOption.direction sortOption) <$>
    walk (ObjCandidate candidate)
      (JSString.split "." (SortOption.field sortOption)).

Definition compareKeys (direction : Direction) (fieldA fieldB : jsval) : Z :=
  match direction with
  | asc =>
      if lessThan fieldA fieldB then -1
      else if greaterThan fieldA fieldB then 1 else 0
  | desc =>
      if greaterThan fieldA fieldB then -1
      else if lessThan fieldA fieldB then 1 else 0
  end.

(** The comparison function handed to [candidates.sort]; [None] when it
    throws. *)
Definition compareCandidates (sortOption : SortOption.t)
    (a b : Candidate.t) : option Z :=
  fieldA ← sortKey sortOption a;
  fieldB ← sortKey sortOption b;
  Some (compareKeys (SortOption.direction sortOption) fieldA fieldB).

(** [Array.prototype.sort] is a stable sort; with a comparison function
    that orders the elements consistently every stable sort gives the
    same result, computed here by insertion from the right. *)
Fixpoint insertSorted {A : Type} (compareFn : A -> A -> option Z)
    (x : A) (sorted : list A) : option (list A) :=
  match sorted with
  | [] => Some [x]
  | y :: rest =>
      c ← compareFn x y;
      if c <=? 0 then Some (x :: sorted)
      else cons y <$> insertSorted compareFn x rest
  end.

Fixpoint sortWith {A : Type} (compareFn : A -> A -> option Z)
    (l : list A) : option (list A) :=
  match l with
  | [] => Some []
  | x :: rest => sortWith compareFn rest ≫= insertSorted compareFn x
  end.

Definition clientSort (sortOption : option SortOption.t)
    (candidates : list Candidate.t) : option (list Candidate.t) :=
  match sortOption with
  | Some by_ =>
      if isSimpleSortField (SortOption.field by_) then Some candidates
      else sortWith (compareCandidates by_) candidates
  | None => Some candidates
  end.

(** *** The whole function

    The hosted store keeps the collection and runs the query: a
    [whereStatus] clause keeps the documents with that status; how an
    [orderBy] clause orders the result is the store's business and left
    open ([orderDocuments]). [None] is a rejected promise; the store's
    own failures (no connection, a missing index) are outside the
    model. *)
Section GetCandidates.

Variable orderDocuments :
  string -> Direction -> list Candidate.t -> list Candidate.t.

Definition applyConstraint (docs : list Candidate.t)
    (constraint : QueryConstraint) : list Candidate.t :=
  match constraint with
  | whereStatus value =>
      List.filter (fun c => statusEqb (Candidate.status c) value) docs
  | orderBy field direction => orderDocuments field direction docs
  end.

Definition getDocs (collection : list Candidate.t)
    (constraints : list QueryConstraint) : list Candidate.t :=
  fold_left applyConstraint constraints collection.

Definition getCandidates (collection : list Candidate.t) (now : number)
    (filterOptions : option FilterOptions.t)
    (sortOption : option SortOption.t) : option (list Candidate.t) :=
  let constraints :=
    statusConstraint filterOptions ++ sortConstraint sortOption in
  let candidates := map (toCandidate now) (getDocs collection constraints) in
  let candidates := searchFilter filterOptions candidates in
  let candidates := minScoreFilter filterOptions candidates in
  let candidates := maxScoreFilter filterOptions candidates in
  clientSort sortOption candidates.

End GetCandidates.

(** ** The candidate service: [uploadCandidateDocument] *)

Inductive DocumentType : Type := resume | coverLetter | notes | transcripts.

Definition documentTypeName (documentType : DocumentType) : string :=
  match documentType with
  | resume => "resume"
  | coverLetter => "coverLetter"
  | notes => "notes"
  | transcripts => "transcripts"
  end.

Module File.
Record t : Type := { name : string; type : string }.
End File.

(** [{}]: a documents object without any property. *)
Definition emptyDocuments : CandidateDocuments.t :=
  {| CandidateDocuments.resume := None;
     CandidateDocuments.coverLetter := None;
     CandidateDocuments.notes := None;
     CandidateDocuments.transcripts := None |}.

(** The update of the documents object: a resume or cover letter is
    assigned to its property, a note or transcript is pushed onto the
    array of its property, created empty when it is not there. *)
Definition putDocument (documents : CandidateDocuments.t)
    (documentType : DocumentType) (documentInfo : DocumentInfo.t)
    : CandidateDocuments.t :=
  match documentType with
  | resume =>
      {| CandidateDocuments.resume := Some documentInfo;
         CandidateDocuments.coverLetter := CandidateDocuments.coverLetter documents;
         CandidateDocuments.notes := CandidateDocuments.notes documents;
         CandidateDocuments.transcripts := CandidateDocuments.transcripts documents |}
  | coverLetter =>
      {| CandidateDocuments.resume := CandidateDocuments.resume documents;
         CandidateDocuments.coverLetter := Some documentInfo;
         CandidateDocuments.notes := CandidateDocuments.notes documents;
         CandidateDocuments.transcripts := CandidateDocuments.transcripts documents |}
  | notes =>
      {| CandidateDocuments.resume := CandidateDocuments.resume documents;
         CandidateDocuments.coverLetter := CandidateDocuments.coverLetter documents;
         CandidateDocuments.notes :=
           Some (default [] (CandidateDocuments.notes documents) ++ [documentInfo]);
         CandidateDocuments.transcripts := CandidateDocuments.transcripts documents |}
  | transcripts =>
      {| CandidateDocuments.resume := CandidateDocuments.resume documents;
         CandidateDocuments.coverLetter := CandidateDocuments.coverLetter documents;
         CandidateDocuments.notes := CandidateDocuments.notes documents;
         CandidateDocuments.transcripts :=
           Some (default [] (CandidateDocuments.transcripts documents) ++ [documentInfo]) |}
  end.

(** [updateDoc(candidateRef, { documents })]. *)
Definition withDocuments (data : Candidate.t) (documents : CandidateDocuments.t)
    : Candidate.t :=
  {| Candidate.id := Candidate.id data;
     Candidate.name := Candidate.name data;
     Candidate.email := Candidate.email data;
     Candidate.phone := Candidate.phone data;
     Candidate.linkedin := Candidate.linkedin data;
     Candidate.github := Candidate.github data;
     Candidate.pictureUrl := Candidate.pictureUrl data;
     Candidate.starRating := Candidate.starRating data;
     Candidate.status := Candidate.status data;
     Candidate.createdAt := Candidate.createdAt data;
     Candidate.updatedAt := Candidate.updatedAt data;
     Candidate.scores := Candidate.scores data;
     Candidate.overallScore := Candidate.overallScore data;
     Candidate.documents := Some documents |}.

(** The stored collection maps a candidate id to its record. The two
    readings of the clock ([Date.now()], whole milliseconds) and the
    download URL handed back by the file store are inputs; [None] is the
    error thrown when the candidate is not there. *)
Definition uploadCandidateDocument (db : gmap string Candidate.t)
    (candidateId : string) (file : File.t) (documentType : DocumentType)
    (nameTime uploadTime : Z) (downloadURL : string)
    : option (DocumentInfo.t * gmap string Candidate.t) :=
  let fileExtension := default "" (last (JSString.split "." (File.name file))) in
  let fileName :=
    candidateId +:+ "_" +:+ documentTypeName documentType +:+ "_" +:+
    pretty nameTime +:+ "." +:+ fileExtension in
  let documentInfo :=
    {| DocumentInfo.id := fileName;
       DocumentInfo.name := File.name file;
       DocumentInfo.url := downloadURL;
       DocumentInfo.type := File.type file;
       DocumentInfo.uploadedAt := ofZ uploadTime;
       DocumentInfo.aiAnalysis := None |} in
  match db !! candidateId with
  | None => None
  | Some candidateData =>
      let documents := default emptyDocuments (Candidate.documents candidateData) in
      let documents := putDocument documents documentType documentInfo in
      Some (documentInfo, <[candidateId := withDocuments candidateData documents]> db)
  end.

(** Every document a documents object holds, with the kind of its slot. *)
Definition allDocuments (documents : CandidateDocuments.t)
    : list (DocumentType * DocumentInfo.t) :=
  map (pair resume) (option_list (CandidateDocuments.resume documents)) ++
  map (pair coverLetter) (option_list (CandidateDocuments.coverLetter documents)) ++
  map (pair notes) (default [] (CandidateDocuments.notes documents)) ++
  map (pair transcripts) (default [] (CandidateDocuments.transcripts documents)).

Definition documentTypeEqb (s t : DocumentType) : bool :=
  match s, t with
  | resume, resume | coverLetter, coverLetter
  | notes, notes | transcripts, transcripts => true
  | _, _ => false
  end.

(** How many documents of one kind a documents object holds. *)
Definition countOf (documentType : DocumentType)
    (documents : CandidateDocuments.t) : nat :=
  length (List.filter (fun d => documentTypeEqb d.1 documentType)
            (allDocuments documents)).

(** ** The dashboard page: the client-side status filter of
    [loadCandidates] *)

Definition isActive (c : Candidate.t) : bool :=
  statusEqb (Candidate.status c) Active.

Definition activeOnly (data : list Candidate.t) : list Candidate.t :=
  if (0 <? length data)%nat && existsb (fun c => negb (isActive c)) data
  then List.filter isActive data
  else data.

Definition activeFilter : FilterOptions.t :=
  {| FilterOptions.status := Some OnlyActive;
     FilterOptions.minScore := None;
     FilterOptions.maxScore := None;
     FilterOptions.searchTerm := None |}.

(** [loadCandidates], for a signed-in user: the default query, on
    failure the query for the Active candidates, then the filter above;
    the result is what [setCandidates] receives, [None] the error
    state. *)
Definition loadCandidates
    (orderDocuments : string -> Direction -> list Candidate.t -> list Candidate.t)
    (collection : list Candidate.t) (now : number)
    : option (list Candidate.t) :=
  let data :=
    match getCandidates orderDocuments collection now None None with
    | Some data => Some data
    | None =>
        getCandidates orderDocuments collection now (Some activeFilter) None
    end in
  activeOnly <$> data.

(** ** The analyze-document routes: validation of the parsed response *)

Module Json.

(** What [JSON.parse] returns. *)
Inductive t : Type :=
| null
| boolean (b : bool)
| number (x : Number.number)
| string (s : String.string)
| array (items : list t)
| object (fields : list (String.string * t)).

Definition truthy (v : t) : bool :=
  match v with
  | null => false
  | boolean b => b
  | number x => Number.truthy x
  | string s => negb (String.eqb s "")
  | array _ | object _ => true
  end.

Fixpoint lookup (key : String.string) (fields : list (String.string * t))
    : option t :=
  match fields with
  | [] => None
  | (k, v) :: rest => if String.eqb k key then Some v else lookup key rest
  end.

(** [v.key] for a value other than [null], for the property names the
    routes read (none of them a built-in property of strings or
    arrays); [None] is [undefined]. Property names of an object are
    distinct. *)
Definition property (v : t) (key : String.string) : option t :=
  match v with
  | object fields => lookup key fields
  | _ => None
  end.

(** [value || fallback]. *)
Definition orElse (value : option t) (fallback : t) : t :=
  match value with
  | Some v => if truthy v then v else fallback
  | None => fallback
  end.

End Json.

Module ValidatedResult.
Record t : Type := {
  summary : Json.t;
  extractedSkills : Json.t;
  extractedEducation : Json.t;
  extractedExperience : Json.t;
  suggestedScores : Json.t
}.
End ValidatedResult.

Definition neutralScores : Json.t :=
  Json.object
    [("technicalSkills", Json.number (ofZ 5));
     ("communicationSkills", Json.number (ofZ 5));
     ("experience", Json.number (ofZ 5));
     ("culturalFit", Json.number (ofZ 5))].

(** [src/app/api/openai/analyze-document/route.ts]; [None] when reading
    a property of the parsed value throws (it is [null]) and the route
    answers with status 500. *)
Module OpenAIRoute.
Definition validatedResult (result : Json.t) : option ValidatedResult.t :=
  match result with
  | Json.null => None
  | _ =>
      Some {|
        ValidatedResult.summary :=
          Json.orElse (Json.property result "summary") (Json.string "");
        ValidatedResult.extractedSkills :=
          Json.orElse (Json.property result "extractedSkills") (Json.array []);
        ValidatedResult.extractedEducation :=
          Json.orElse (Json.property result "extractedEducation") (Json.array []);
        ValidatedResult.extractedExperience :=
          Json.orElse (Json.property result "extractedExperience") (Json.array []);
        ValidatedResult.suggestedScores :=
          Json.orElse (Json.property result "suggestedScores") neutralScores
      |}
  end.
End OpenAIRoute.

(** The Gemini analyze-document route. *)
Module GeminiRoute.
Definition validatedResult (resultObj : Json.t) : option ValidatedResult.t :=
  match resultObj with
  | Json.null => None
  | _ =>
      Some {|
        ValidatedResult.summary :=
          Json.orElse (Json.property resultObj "summary") (Json.string "");
        ValidatedResult.extractedSkills :=
          Json.orElse (Json.property resultObj "extractedSkills") (Json.array []);
        ValidatedResult.extractedEducation :=
          Json.orElse (Json.property resultObj "extractedEducation") (Json.array []);
        ValidatedResult.extractedExperience :=
          Json.orElse (Json.property resultObj "extractedExperience") (Json.array []);
        ValidatedResult.suggestedScores :=
          Json.orElse (Json.property resultObj "suggestedScores") neutralScores
      |}
  end.
End GeminiRoute.

(** The [CategoryScores] shape: an object whose four standard
    categories are numbers. *)
Definition isNumber (v : option Json.t) : bool :=
  match v with
  | Some (Json.number _) => true
  | _ => false
  end.

Definition hasCategoryScoresShape (v : Json.t) : bool :=
  match v with
  | Json.object _ =>
      isNumber (Json.property v "technicalSkills") &&
      isNumber (Json.property v "communicationSkills") &&
      isNumber (Json.property v "experience") &&
      isNumber (Json.property v "culturalFit")
  | _ => false
  end.

(** ** Sample records *)

Definition sampleCandidate (id : string) (status : Status)
    (overallScore : number) (scores : CategoryScores)
    (documents : option CandidateDocuments.t) : Candidate.t :=
  {| Candidate.id := id;
     Candidate.name := "Candidate " +:+ id;
     Candidate.email := id +:+ "@example.com";
     Candidate.phone := None;
     Candidate.linkedin := None;
     Candidate.github := None;
     Candidate.pictureUrl := None;
     Candidate.starRating := ofZ 3;
     Candidate.status := status;
     Candidate.createdAt := ofZ 1700000000000;
     Candidate.updatedAt := ofZ 1700000000000;
     Candidate.scores := scores;
     Candidate.overallScore := overallScore;
     Candidate.documents := documents |}.

Definition scored (id : string) (overallScore : Z) : Candidate.t :=
  sampleCandidate id Active (ofZ overallScore) exampleScores None.

Definition boundsExample : FilterOptions.t :=
  {| FilterOptions.status := None;
     FilterOptions.minScore := Some (ofZ 70);
     FilterOptions.maxScore := Some (ofZ 89);
     FilterOptions.searchTerm := None |}.

Definition screenNote : DocumentInfo.t :=
  {| DocumentInfo.id := "a1_notes_1700000000000.pdf";
     DocumentInfo.name := "Phone Screen.pdf";
     DocumentInfo.url := "https://files.example.com/a1/notes/1";
     DocumentInfo.type := "application/pdf";
     DocumentInfo.uploadedAt := ofZ 1700000000000;
     DocumentInfo.aiAnalysis := None |}.

Definition withNote : Candidate.t :=
  sampleCandidate "a1" Active (ofZ 7) exampleScores
    (Some {| CandidateDocuments.resume := None;
             CandidateDocuments.coverLetter := None;
             CandidateDocuments.notes := Some [screenNote];
             CandidateDocuments.transcripts := Some [] |}).

Definition searchExample : FilterOptions.t :=
  {| FilterOptions.status := None;
     FilterOptions.minScore := None;
     FilterOptions.maxScore := None;
     FilterOptions.searchTerm := Some "SCREEN" |}.

(** ** The wording of the search filter

    The keyword occurs in the string. *)
Definition occursIn (keyword s : string) : Prop :=
  exists before after : string, s = before +:+ keyword +:+ after.

(** One of the name, the e-mail address, the phone number, the LinkedIn
    URL, the GitHub URL or the name of a note, each where the candidate
    has it, satisfies [P]. *)
Definition someSearchField (P : string -> Prop) (c : Candidate.t) : Prop :=
  P (Candidate.name c) \/
  P (Candidate.email c) \/
  (exists s, Candidate.phone c = Some s /\ P s) \/
  (exists s, Candidate.linkedin c = Some s /\ P s) \/
  (exists s, Candidate.github c = Some s /\ P s) \/
  (exists note, In note (notesOf c) /\ P (DocumentInfo.name note)).

(** ** The client-side sort without its failure cases

    The walk and the comparison function never throw (shown below), so
    the sort is also this plain insertion sort by the compared values. *)
Definition resolveStep (field : jsval) (part : string) : jsval :=
  if isObject field then lookupProperty part (properties field) else field.

Definition resolve (field : jsval) (fieldParts : list string) : jsval :=
  fold_left resolveStep fieldParts field.

(** What the path of the sort option leads to in a candidate. *)
Definition resolved (sortOption : SortOption.t) (candidate : Candidate.t)
    : jsval :=
  resolve (ObjCandidate candidate)
    (JSString.split "." (SortOption.field sortOption)).

Definition compared (sortOption : SortOption.t) (a b : Candidate.t) : Z :=
  compareKeys (SortOption.direction sortOption)
    (orSentinel (SortOption.direction sortOption) (resolved sortOption a))
    (orSentinel (SortOption.direction sortOption) (resolved sortOption b)).

Fixpoint insertBy {A : Type} (compareFn : A -> A -> Z) (x : A)
    (sorted : list A) : list A :=
  match sorted with
  | [] => [x]
  | y :: rest =>
      if compareFn x y <=? 0 then x :: sorted
      else y :: insertBy compareFn x rest
  end.

Fixpoint sortBy {A : Type} (compareFn : A -> A -> Z) (l : list A) : list A :=
  match l with
  | [] => []
  | x :: rest => insertBy compareFn x (sortBy compareFn rest)
  end.

(** A value that is a number other than NaN and the infinities. *)
Definition isFiniteNumber (v : jsval) : bool :=
  match v with
  | Num (S754_zero _) | Num (S754_finite _ _ _) => true
  | _ => false
  end.

(** The path of the sort option leads to nothing in the candidate, or
    to a finite number. *)
Definition missingIn (sortOption : SortOption.t) (c : Candidate.t) : bool :=
  isMissing (resolved sortOption c).

Definition valuedIn (sortOption : SortOption.t) (c : Candidate.t) : bool :=
  isFiniteNumber (resolved sortOption c).

(** Sample records for the sort: one candidate rated in the custom
    category "leadership", one without it. *)
Definition rated : Candidate.t :=
  sampleCandidate "r" Active (ofZ 7)
    (exampleScores ++ [("leadership", ofZ 5)]) None.

Definition unrated : Candidate.t :=
  sampleCandidate "u" Active (ofZ 7) exampleScores None.

Definition byLeadership (direction : Direction) : SortOption.t :=
  {| SortOption.field := "scores.leadership";
     SortOption.direction := direction |}.

Definition byScoreValue : SortOption.t :=
  {| SortOption.field := "overallScore.value";
     SortOption.direction := asc |}.

Definition partialResponse : Json.t :=
  Json.object
    [("summary", Json.string "Solid profile");
     ("suggestedScores",
      Json.object [("technicalSkills", Json.number (ofZ 8))])].

(** ** Three sentences of the specification, as it words them

    In the sorted list every candidate without a value comes after
    every candidate with one. *)
Definition missingPlacedLast (sortOption : SortOption.t)
    (candidates : list Candidate.t) : Prop :=
  forall sorted : list Candidate.t,
    clientSort (Some sortOption) candidates = Some sorted ->
    forall (i j : nat) (a b : Candidate.t),
      sorted !! i = Some a -> sorted !! j = Some b ->
      missingIn sortOption a = true -> missingIn sortOption b = false ->
      (j < i)%nat.

(** In the sorted list every candidate without a value comes before
    every candidate with a finite number. *)
Definition missingPlacedFirst (sortOption : SortOption.t)
    (sorted : list Candidate.t) : Prop :=
  forall (i j : nat) (a b : Candidate.t),
    sorted !! i = Some a -> sorted !! j = Some b ->
    missingIn sortOption a = true -> valuedIn sortOption b = true ->
    (i < j)%nat.

(** A path with further parts after something that is not an object
    leads to the sentinel. *)
Definition malformedPathMissing (sortOption : SortOption.t)
    (c : Candidate.t) : Prop :=
  forall before after : list string,
    JSString.split "." (SortOption.field sortOption) = before ++ after ->
    after <> [] ->
    isObject (resolve (ObjCandidate c) before) = false ->
    sortKey sortOption c =
      Some (Num (sentinel (SortOption.direction sortOption))).

Definition standardCategories : list string :=
  ["technicalSkills"; "communicationSkills"; "experience"; "culturalFit"].

(** The validated result has the shape of category scores, a category
    missing from the response standing at 5. *)
Definition scoresValidated (route : Json.t -> option ValidatedResult.t)
    (response : Json.t) : Prop :=
  forall v : ValidatedResult.t,
    route response = Some v ->
    hasCategoryScoresShape (ValidatedResult.suggestedScores v) = true /\
    Forall (fun category =>
              (Json.property response "suggestedScores" ≫=
                 fun given => Json.property given category) = None ->
              Json.property (ValidatedResult.suggestedScores v) category =
                Some (Json.number (ofZ 5)))
      standardCategories.

(** ** The candidate service: [removeDeeplyUndefined]

    The values the function takes: what a form hands to the service,
    [undefined] included. Dates and time stamps are objects the
    function hands back as they are. *)
Module Data.

Inductive t : Type :=
| undefined
| null
| boolean (b : bool)
| number (x : Number.number)
| string (s : String.string)
| date (time : Number.number)
| timestamp (seconds nanoseconds : Number.number)
| array (items : list t)
| object (fields : list (String.string * t)).

(** [value !== undefined]. *)
Definition isDefined (value : t) : bool :=
  match value with
  | undefined => false
  | _ => true
  end.

Definition truthy (v : t) : bool :=
  match v with
  | undefined | null => false
  | boolean b => b
  | number x => Number.truthy x
  | string s => negb (String.eqb s "")
  | date _ | timestamp _ _ | array _ | object _ => true
  end.

(** [fields[key]] on the own properties of an object; [undefined] when
    there is none. *)
Fixpoint get (key : String.string) (fields : list (String.string * t)) : t :=
  match fields with
  | [] => undefined
  | (k, v) :: rest => if String.eqb k key then v else get key rest
  end.

(** [key in fields]. *)
Definition has (key : String.string) (fields : list (String.string * t))
    : bool :=
  existsb (fun entry => String.eqb entry.1 key) fields.

(** [fields[key] = value]: the property keeps its place when it is
    there, and comes last when it is new. (A new property whose name
    is an array index is enumerated before the others; no such name
    occurs among the fields of a candidate.) *)
Fixpoint set (key : String.string) (value : t)
    (fields : list (String.string * t)) : list (String.string * t) :=
  match fields with
  | [] => [(key, value)]
  | (k, v) :: rest =>
      if String.eqb k key then (k, value) :: rest
      else (k, v) :: set key value rest
  end.

(** [{ ...target, ...source }]. *)
Definition assign (target source : list (String.string * t))
    : list (String.string * t) :=
  fold_left (fun fields entry => set entry.1 entry.2 fields) source target.

(** No [undefined] anywhere in the value. *)
Fixpoint defined (v : t) : bool :=
  match v with
  | undefined => false
  | array items => forallb defined items
  | object fields => forallb (fun entry => defined entry.2) fields
  | _ => true
  end.

(** The value with [null] in the place of every [undefined]. *)
Fixpoint nullified (v : t) : t :=
  match v with
  | undefined => null
  | array items => array (map nullified items)
  | object fields =>
      object (map (fun entry => (entry.1, nullified entry.2)) fields)
  | _ => v
  end.

End Data.

Fixpoint removeDeeplyUndefined (obj : Data.t) : Data.t :=
  match obj with
  | Data.undefined => Data.null
  | Data.null => Data.null
  | Data.array items =>
      Data.array
        (List.filter Data.isDefined (map removeDeeplyUndefined items))
  | Data.object fields =>
      Data.object
        ((fix loop (fields : list (string * Data.t)) : list (string * Data.t) :=
            match fields with
            | [] => []
            | (key, v) :: rest =>
                let value := removeDeeplyUndefined v in
                if Data.isDefined value then (key, value) :: loop rest
                else loop rest
            end) fields)
  | _ => obj
  end.

(** ** The candidate service: one candidate

    What the store holds of a candidate is the object written for it,
    under the id of its document. The store's own failures are outside
    the model; [None] is a rejected promise. A write with [updateDoc]
    replaces the fields it names; the updates the callers send name
    fields of a candidate, never a path into one. *)
Abbreviation Fields := (list (string * Data.t)).
Abbreviation Collection := (gmap string Fields).

(** [value || fallback]. *)
Definition orElse (value fallback : Data.t) : Data.t :=
  if Data.truthy value then value else fallback.

(** [getCandidate]: [None] is the rejected promise, [Some None] the
    answer [null]. The clock is read once for each time stamp. *)
Definition getCandidate (db : Collection) (id : string)
    (createdNow updatedNow : number) : option (option Fields) :=
  match db !! id with
  | Some data =>
      let candidate := Data.assign [("id", Data.string id)] data in
      let candidate :=
        Data.set "createdAt"
          (orElse (Data.get "createdAt" data) (Data.number createdNow))
          candidate in
      let candidate :=
        Data.set "updatedAt"
          (orElse (Data.get "updatedAt" data) (Data.number updatedNow))
          candidate in
      Some (Some candidate)
  | None => Some None
  end.

Definition zeroScores : Data.t :=
  Data.object
    [("technicalSkills", Data.number zero);
     ("communicationSkills", Data.number zero);
     ("experience", Data.number zero);
     ("culturalFit", Data.number zero)].

Definition noDocuments : Data.t :=
  Data.object
    [("resume", Data.null); ("coverLetter", Data.null);
     ("notes", Data.array []); ("transcripts", Data.array [])].

(** The object literal of [createCandidate] before its spread. *)
Definition requiredFields (safeCandidate : Fields) : Fields :=
  [("name", orElse (Data.get "name" safeCandidate) (Data.string ""));
   ("email", orElse (Data.get "email" safeCandidate) (Data.string ""));
   ("starRating",
      orElse (Data.get "starRating" safeCandidate) (Data.number zero));
   ("status",
      orElse (Data.get "status" safeCandidate) (Data.string "Active"));
   ("scores", orElse (Data.get "scores" safeCandidate) zeroScores);
   ("overallScore",
      orElse (Data.get "overallScore" safeCandidate) (Data.number zero));
   ("documents", orElse (Data.get "documents" safeCandidate) noDocuments)].

(** [createCandidate]: [newId] is the id the store gives the new
    document. The result is the candidate returned and the collection
    afterwards. *)
Definition createCandidate (db : Collection) (candidateData : Fields)
    (newId : string) (createdNow updatedNow : number)
    : option (Fields * Collection) :=
  match removeDeeplyUndefined (Data.object candidateData) with
  | Data.object safeCandidate =>
      let candidateWithDefaults :=
        Data.assign (requiredFields safeCandidate) safeCandidate in
      let newCandidateData :=
        Data.set "updatedAt" (Data.number updatedNow)
          (Data.set "createdAt" (Data.number createdNow)
             candidateWithDefaults) in
      Some (Data.set "id" (Data.string newId) newCandidateData,
            <[newId := newCandidateData]> db)
  | _ => None
  end.

(** [updateDoc]: refused when the document is not there. *)
Definition updateDoc (db : Collection) (id : string) (updateData : Fields)
    : option Collection :=
  match db !! id with
  | Some data => Some (<[id := Data.assign data updateData]> db)
  | None => None
  end.

Definition updateCandidate (db : Collection) (id : string) (updates : Fields)
    (now createdNow updatedNow : number) : option (Fields * Collection) :=
  match removeDeeplyUndefined (Data.object updates) with
  | Data.object safeUpdates =>
      let updateData := Data.set "updatedAt" (Data.number now) safeUpdates in
      db ← updateDoc db id updateData;
      match getCandidate db id createdNow updatedNow with
      | Some (Some updatedCandidate) => Some (updatedCandidate, db)
      | _ => None
      end
  | _ => None
  end.

(** [deleteDoc] accepts an id that has no document. *)
Definition deleteCandidate (db : Collection) (id : string) : Collection :=
  delete id db.

(** ** The candidate service: [deleteCandidateDocument] and the file
    store

    The file store is the set of the paths that hold a file.
    [deleteObject] fails on a path without file, and the service goes
    on all the same. *)
Definition filePath (candidateId : string) (documentType : DocumentType)
    (fileName : string) : string :=
  "candidates/" +:+ candidateId +:+ "/" +:+
  documentTypeName documentType +:+ "/" +:+ fileName.

Definition uploadBytes (storage : gset string) (path : string) : gset string :=
  {[path]} ∪ storage.

Definition deleteObject (storage : gset string) (path : string) : gset string :=
  storage ∖ {[path]}.

(** The file name [uploadCandidateDocument] makes up. *)
Definition uploadName (candidateId : string) (file : File.t)
    (documentType : DocumentType) (nameTime : Z) : string :=
  let fileExtension := default "" (last (JSString.split "." (File.name file))) in
  candidateId +:+ "_" +:+ documentTypeName documentType +:+ "_" +:+
  pretty nameTime +:+ "." +:+ fileExtension.

(** [uploadCandidateDocument] with its effect on the file store: the
    file is stored before the candidate is looked up. *)
Definition uploadToStorage (storage : gset string)
    (db : gmap string Candidate.t) (candidateId : string) (file : File.t)
    (documentType : DocumentType) (nameTime uploadTime : Z)
    (downloadURL : string)
    : gset string * option (DocumentInfo.t * gmap string Candidate.t) :=
  let fileName := uploadName candidateId file documentType nameTime in
  (uploadBytes storage (filePath candidateId documentType fileName),
   uploadCandidateDocument db candidateId file documentType nameTime
     uploadTime downloadURL).

(** [documents[documentType]] for the two kinds kept one at a time. *)
Definition singleOf (documents : CandidateDocuments.t)
    (documentType : DocumentType) : option DocumentInfo.t :=
  match documentType with
  | resume => CandidateDocuments.resume documents
  | coverLetter => CandidateDocuments.coverLetter documents
  | notes | transcripts => None
  end.

(** [documents[documentType]] for the two kinds kept in an array. *)
Definition arrayOf (documents : CandidateDocuments.t)
    (documentType : DocumentType) : option (list DocumentInfo.t) :=
  match documentType with
  | notes => CandidateDocuments.notes documents
  | transcripts => CandidateDocuments.transcripts documents
  | resume | coverLetter => None
  end.

(** [documents[documentType] = null]. *)
Definition clearDocument (documents : CandidateDocuments.t)
    (documentType : DocumentType) : CandidateDocuments.t :=
  match documentType with
  | resume =>
      {| CandidateDocuments.resume := None;
         CandidateDocuments.coverLetter := CandidateDocuments.coverLetter documents;
         CandidateDocuments.notes := CandidateDocuments.notes documents;
         CandidateDocuments.transcripts := CandidateDocuments.transcripts documents |}
  | coverLetter =>
      {| CandidateDocuments.resume := CandidateDocuments.resume documents;
         CandidateDocuments.coverLetter := None;
         CandidateDocuments.notes := CandidateDocuments.notes documents;
         CandidateDocuments.transcripts := CandidateDocuments.transcripts documents |}
  | notes | transcripts => documents
  end.

(** The documents object after a change of the array
    [documents[documentType]]. *)
Definition withArray (documents : CandidateDocuments.t)
    (documentType : DocumentType) (array : list DocumentInfo.t)
    : CandidateDocuments.t :=
  match documentType with
  | notes =>
      {| CandidateDocuments.resume := CandidateDocuments.resume documents;
         CandidateDocuments.coverLetter := CandidateDocuments.coverLetter documents;
         CandidateDocuments.notes := Some array;
         CandidateDocuments.transcripts := CandidateDocuments.transcripts documents |}
  | transcripts =>
      {| CandidateDocuments.resume := CandidateDocuments.resume documents;
         CandidateDocuments.coverLetter := CandidateDocuments.coverLetter documents;
         CandidateDocuments.notes := CandidateDocuments.notes documents;
         CandidateDocuments.transcripts := Some array |}
  | resume | coverLetter => documents
  end.

(** [array.findIndex(predicate)]; [None] stands for [-1]. *)
Fixpoint findIndex {A : Type} (predicate : A -> bool) (array : list A)
    : option nat :=
  match array with
  | [] => None
  | x :: rest =>
      if predicate x then Some 0%nat else S <$> findIndex predicate rest
  end.

(** [deleteCandidateDocument]: the file store and the collection
    afterwards; [None] is the error thrown when the candidate is not
    there. *)
Definition deleteCandidateDocument (storage : gset string)
    (db : gmap string Candidate.t) (candidateId : string)
    (documentType : DocumentType) (documentId : option string)
    : option (gset string * gmap string Candidate.t) :=
  match db !! candidateId with
  | None => None
  | Some candidateData =>
      let documents :=
        default emptyDocuments (Candidate.documents candidateData) in
      match documentType with
      | resume | coverLetter =>
          match singleOf documents documentType with
          | Some documentInfo =>
              let fileName := DocumentInfo.id documentInfo in
              let storage :=
                deleteObject storage
                  (filePath candidateId documentType fileName) in
              let documents := clearDocument documents documentType in
              Some (storage,
                    <[candidateId := withDocuments candidateData documents]> db)
          | None => Some (storage, db)
          end
      | notes | transcripts =>
          match truthyString documentId with
          | Some documentId =>
              match arrayOf documents documentType with
              | Some array =>
                  match findIndex
                          (fun doc => String.eqb (DocumentInfo.id doc) documentId)
                          array with
                  | Some docIndex =>
                      match array !! docIndex with
                      | Some documentInfo =>
                          let fileName := DocumentInfo.id documentInfo in
                          let storage :=
                            deleteObject storage
                              (filePath candidateId documentType fileName) in
                          let documents :=
                            withArray documents documentType
                              (delete docIndex array) in
                          Some (storage,
                                <[candidateId :=
                                    withDocuments candidateData documents]> db)
                      | None => None
                      end
                  | None => Some (storage, db)
                  end
              | None => Some (storage, db)
              end
          | None => Some (storage, db)
          end
      end
  end.

(** The fields of an object after [removeDeeplyUndefined], when none
    is dropped. *)
Definition cleaned (fields : Fields) : Fields :=
  map (fun entry => (entry.1, removeDeeplyUndefined entry.2)) fields.

(** No [undefined] anywhere in the fields. *)
Definition allDefined (fields : Fields) : bool :=
  forallb (fun entry => Data.defined entry.2) fields.

(** A key that names a field, not a path into one. *)
Definition isFieldName (key : string) : bool :=
  negb (JSString.includes key ".").

(** [candidateData.documents || {}]. *)
Definition documentsOf (candidateData : Candidate.t) : CandidateDocuments.t :=
  default emptyDocuments (Candidate.documents candidateData).

Definition followUpNote : DocumentInfo.t :=
  {| DocumentInfo.id := "a1_notes_1700000060000.pdf";
     DocumentInfo.name := "Follow-up.pdf";
     DocumentInfo.url := "https://files.example.com/a1/notes/2";
     DocumentInfo.type := "application/pdf";
     DocumentInfo.uploadedAt := ofZ 1700000060000;
     DocumentInfo.aiAnalysis := None |}.

Definition firstResume : DocumentInfo.t :=
  {| DocumentInfo.id := "a1_resume_1700000000000.pdf";
     DocumentInfo.name := "Resume.pdf";
     DocumentInfo.url := "https://files.example.com/a1/resume/1";
     DocumentInfo.type := "application/pdf";
     DocumentInfo.uploadedAt := ofZ 1700000000000;
     DocumentInfo.aiAnalysis := None |}.

(** A candidate with a resume and two notes. *)
Definition withFiles : Candidate.t :=
  sampleCandidate "a1" Active (ofZ 7) exampleScores
    (Some {| CandidateDocuments.resume := Some firstResume;
             CandidateDocuments.coverLetter := None;
             CandidateDocuments.notes := Some [screenNote; followUpNote];
             CandidateDocuments.transcripts := Some [] |}).

Definition sampleStore : gmap string Candidate.t := <["a1" := withFiles]> ∅.

Definition sampleStorage : gset string :=
  {[ filePath "a1" resume (DocumentInfo.id firstResume);
     filePath "a1" notes (DocumentInfo.id screenNote);
     filePath "a1" notes (DocumentInfo.id followUpNote) ]}.

Definition sampleFile : File.t :=
  {| File.name := "Panel Notes.pdf"; File.type := "application/pdf" |}.

(** ** The dashboard page: the selection for the comparison *)

(** [c.id === candidate.id]. *)
Definition sameId (candidate c : Candidate.t) : bool :=
  String.eqb (Candidate.id c) (Candidate.id candidate).

(** [handleCandidateSelect]: the selection afterwards, and whether the
    alert is shown. *)
Definition handleCandidateSelect (selectedCandidates : list Candidate.t)
    (candidate : Candidate.t) : list Candidate.t * bool :=
  if existsb (sameId candidate) selectedCandidates
  then (List.filter (fun c => negb (sameId candidate c)) selectedCandidates,
        false)
  else if (length selectedCandidates <? 3)%nat
  then (selectedCandidates ++ [candidate], false)
  else (selectedCandidates, true).

(** [openComparison]: whether the comparison is shown afterwards, and
    whether the alert is shown. *)
Definition openComparison (selectedCandidates : list Candidate.t)
    (showComparison : bool) : bool * bool :=
  if (2 <=? length selectedCandidates)%nat then (true, false)
  else (showComparison, true).

(** What the user does on the page. *)
Inductive PageEvent : Type :=
| SelectCandidate (candidate : Candidate.t)
| ClearSelection
| OpenComparison
| CloseComparison.

(** The state of the page: the selection, and whether the comparison
    is shown. *)
Definition pageStep (state : list Candidate.t * bool) (event : PageEvent)
    : list Candidate.t * bool :=
  let '(selectedCandidates, showComparison) := state in
  match event with
  | SelectCandidate candidate =>
      ((handleCandidateSelect selectedCandidates candidate).1, showComparison)
  | ClearSelection => ([], showComparison)
  | OpenComparison =>
      (selectedCandidates, (openComparison selectedCandidates showComparison).1)
  | CloseComparison => (selectedCandidates, false)
  end.

Definition initialPage : list Candidate.t * bool := ([], false).

(** ** The candidate form: the score sliders *)

(** [{ ...scores, [category]: value }]: the category keeps its place
    when it has a score, and comes last when it is new (a category
    named by an array index would come first). *)
Fixpoint setScore (scores : CategoryScores) (category : string)
    (value : number) : CategoryScores :=
  match scores with
  | [] => [(category, value)]
  | (k, v) :: rest =>
      if String.eqb k category then (k, value) :: rest
      else (k, v) :: setScore rest category value
  end.

(** [handleScoreChange]: the scores and the overall score the form
    holds afterwards. *)
Definition handleScoreChange (scores : CategoryScores) (category : string)
    (value : number) : CategoryScores * number :=
  let newScores := setScore scores category value in
  (newScores, calculateOverallScore newScores DEFAULT_WEIGHTS).

(** The scores of the form with the four sliders at the given
    positions, in the order of the form's initial state. *)
Definition sliderScores (t c e f : Z) : CategoryScores :=
  [("technicalSkills", ofZ t); ("communicationSkills", ofZ c);
   ("experience", ofZ e); ("culturalFit", ofZ f)].

Definition initialScores : CategoryScores := sliderScores 0 0 0 0.

(** The scores after the slider moves, each a category and the
    position [parseInt] reads. *)
Definition afterMoves (moves : list (string * Z)) : CategoryScores :=
  fold_left (fun scores move => (handleScoreChange scores move.1 (ofZ move.2)).1)
    moves initialScores.

(** A hundred times the exact weighted mean of the slider positions
    under the weights 0.4, 0.25, 0.25 and 0.1. *)
Definition hundredths (t c e f : Z) : Z := 40 * t + 25 * c + 25 * e + 10 * f.

(** The positions of a slider. *)
Definition sliderValues : list Z := [0; 1; 2; 3; 4; 5; 6; 7; 8; 9; 10].

(** *** Every position of the sliders

    The loop of [calculateOverallScore] adds one term for each
    category. The states it can be in after some categories are kept as
    pairs: a hundred times the exact sum so far, and the sum the loop
    holds. *)
Definition weightOf (category : string) : number :=
  default zero (DEFAULT_WEIGHTS !! category).

(** What a slider can add: [percent] is a hundred times the weight of
    its category. *)
Definition terms (category : string) (percent : Z) : list (Z * number) :=
  map (fun z => (percent * z, (ofZ z * weightOf category)%num)) sliderValues.

#[local] Instance number_eq_dec : EqDecision number.
Proof. solve_decision. Defined.

Definition extend (states added : list (Z * number)) : list (Z * number) :=
  remove_dups
    (state ← states; term ← added;
     [(state.1 + term.1, (state.2 + term.2)%num)]).

(** The states after the categories of [order], each with its weight
    in hundredths. *)
Definition reachable (order : list (string * Z)) : list (Z * number) :=
  fold_left (fun states category => extend states (terms category.1 category.2))
    order [(0, zero)].

Definition totalWeightOf (order : list (string * Z)) : number :=
  fold_left (fun total category => (total + weightOf category.1)%num)
    order zero.

(** The quotient prints as a number of tenths that is as near to the
    exact mean as a tenth can be. *)
Definition printsNearest (total : number) (state : Z * number) : bool :=
  negb (total === zero)%num &&
  match toFixed1 (state.2 / total)%num with
  | FixedDecimal false k => Z.abs (10 * Z.of_N k - state.1) <=? 5
  | _ => false
  end.

(** The order of the form and the alphabetical order. *)
Definition formOrder : list (string * Z) :=
  [("technicalSkills", 40); ("communicationSkills", 25);
   ("experience", 25); ("culturalFit", 10)].

Definition alphabeticalOrder : list (string * Z) :=
  [("communicationSkills", 25); ("culturalFit", 10);
   ("experience", 25); ("technicalSkills", 40)].

(** *** Rounding half away from zero

    The number of tenths nearest to the fraction [s / w] (neither below
    zero, [w] not zero), the larger one when two are as near. *)
Definition halfAwayTenths (s w : Z) : Z := (20 * s + w) / (2 * w).

(** The rounding as the data model words it, at one setting of the
    sliders: the overall score is the exact weighted mean under the
    weights 0.4, 0.25, 0.25 and 0.1, rounded half away from zero. *)
Definition roundsHalfAway (t c e f : Z) : Prop :=
  calculateOverallScore (sliderScores t c e f) DEFAULT_WEIGHTS =
  parseFloat
    (FixedDecimal false (Z.to_N (halfAwayTenths (hundredths t c e f) 100))).

(** *** Whole weights

    The four standard categories under weights that are whole numbers.
    With the sliders at whole positions every sum of the loop is a
    whole number, which binary64 holds exactly; what is left to the
    arithmetic is the division by the total weight. *)
Definition wholeWeights (wt wc we wf : Z) : CategoryWeights :=
  <["technicalSkills" := ofZ wt]>
  (<["communicationSkills" := ofZ wc]>
  (<["experience" := ofZ we]>
  (<["culturalFit" := ofZ wf]> ∅))).

Definition wholeSum (wt wc we wf t c e f : Z) : Z :=
  wt * t + wc * c + we * e + wf * f.

Definition wholeTotal (wt wc we wf : Z) : Z := wt + wc + we + wf.

(** The sum and the product of two small whole numbers are exact. *)
Definition sumExact (x y : Z) : bool :=
  bool_decide ((ofZ x + ofZ y)%num = ofZ (x + y)).

Definition productExact (z w : Z) : bool :=
  bool_decide ((ofZ z * ofZ w)%num = ofZ (w * z)).

(** The quotient of two whole numbers prints as the number of tenths
    that rounding half away from zero gives. *)
Definition quotientRounds (w s : Z) : bool :=
  negb (ofZ w === zero)%num &&
  match toFixed1 (ofZ s / ofZ w)%num with
  | FixedDecimal false k => Z.of_N k =? halfAwayTenths s w
  | _ => false
  end.

(** ** The candidate list: the score range of the filter *)

Module ScoreRange.
Record t : Type :=
  { label : string; minScore : option Z; maxScore : option Z }.
End ScoreRange.

Definition scoreRanges : list ScoreRange.t :=
  [ {| ScoreRange.label := "All Scores";
       ScoreRange.minScore := None; ScoreRange.maxScore := None |};
    {| ScoreRange.label := "90-100";
       ScoreRange.minScore := Some 90; ScoreRange.maxScore := Some 100 |};
    {| ScoreRange.label := "80-89";
       ScoreRange.minScore := Some 80; ScoreRange.maxScore := Some 89 |};
    {| ScoreRange.label := "70-79";
       ScoreRange.minScore := Some 70; ScoreRange.maxScore := Some 79 |};
    {| ScoreRange.label := "Below 70";
       ScoreRange.minScore := Some 0; ScoreRange.maxScore := Some 69 |} ].

(** The [value] of the option of a range. *)
Definition optionValue (range : ScoreRange.t) : string :=
  match ScoreRange.minScore range with
  | Some min =>
      pretty min +:+ "-" +:+
      match ScoreRange.maxScore range with
      | Some max => pretty max
      | None => "undefined"
      end
  | None => ""
  end.

(** [x || undefined]. *)
Definition orUndefined (x : option number) : option number :=
  match x with
  | Some n => if truthy n then Some n else None
  | None => None
  end.

(** The [onChange] of the score range: the filters afterwards. *)
Definition scoreRangeChange (filters : FilterOptions.t) (value : string)
    : FilterOptions.t :=
  let numbers := map JSString.StringToNumber (JSString.split "-" value) in
  let min := numbers !! 0%nat in
  let max := numbers !! 1%nat in
  {| FilterOptions.status := FilterOptions.status filters;
     FilterOptions.minScore := orUndefined min;
     FilterOptions.maxScore := orUndefined max;
     FilterOptions.searchTerm := FilterOptions.searchTerm filters |}.

(** The candidate passes the two score filters of [getCandidates]. *)
Definition passesScoreFilters (filters : FilterOptions.t)
    (candidate : Candidate.t) : bool :=
  match maxScoreFilter (Some filters) (minScoreFilter (Some filters) [candidate]) with
  | [] => false
  | _ => true
  end.

(** What the two score filters test. *)
Definition withinBounds (filters : FilterOptions.t) (overallScore : number)
    : bool :=
  match FilterOptions.minScore filters with
  | Some minScore => Number.ge overallScore minScore
  | None => true
  end &&
  match FilterOptions.maxScore filters with
  | Some maxScore => Number.le overallScore maxScore
  | None => true
  end.

(** The ranges a score of so many tenths falls into, as the filter
    sees it, are the two without a lower bound. *)
Definition rangeCheck (k : N) : bool :=
  forallb
    (fun range =>
       Bool.eqb
         (withinBounds (scoreRangeChange activeFilter (optionValue range))
            (parseFloat (FixedDecimal false k)))
         (String.eqb (ScoreRange.label range) "All Scores" ||
          String.eqb (ScoreRange.label range) "Below 70"))
    scoreRanges.

(** ** The wording of [getCandidates]: the candidates that meet every
    filter *)
Definition meetsFilters (filterOptions : option FilterOptions.t)
    (candidate : Candidate.t) : bool :=
  match filterOptions ≫= FilterOptions.status with
  | Some OnlyActive => statusEqb (Candidate.status candidate) Active
  | Some OnlyInactive => statusEqb (Candidate.status candidate) Inactive
  | Some All | None => true
  end &&
  match searchTermOf filterOptions with
  | Some searchTerm =>
      matchesKeyword (JSString.toLowerCase searchTerm) candidate
  | None => true
  end &&
  match minScoreOf filterOptions with
  | Some minScore => Number.ge (Candidate.overallScore candidate) minScore
  | None => true
  end &&
  match maxScoreOf filterOptions with
  | Some maxScore => Number.le (Candidate.overallScore candidate) maxScore
  | None => true
  end.

(** ** The upload component: [handleFileChange] *)

(** [type.replace('.', '')]: the first full stop goes. *)
Fixpoint removeFirstDot (s : string) : string :=
  match s with
  | EmptyString => EmptyString
  | String c rest =>
      if Ascii.eqb c "." then rest else String c (removeFirstDot rest)
  end.

Definition acceptedExtensions (acceptedFileTypes : string) : list string :=
  map (fun type =>
         removeFirstDot (JSString.toLowerCase (JSString.trim type)))
    (JSString.split "," acceptedFileTypes).

(** [name.split('.').pop()]: the array is never empty. *)
Definition extensionOf (name : string) : string :=
  default "" (last (JSString.split "." name)).

Inductive FileCheck : Type := TooLarge | InvalidType | Accepted.

(** The two checks of [handleFileChange] before the upload. *)
Definition checkFile (maxSizeMB : number) (acceptedFileTypes : string)
    (size : number) (name : string) : FileCheck :=
  let maxSizeBytes := (maxSizeMB * ofZ 1024 * ofZ 1024)%num in
  if Number.gt size maxSizeBytes then TooLarge
  else
    let fileExtension := JSString.toLowerCase (extensionOf name) in
    if negb (String.eqb fileExtension "") &&
       negb (existsb (String.eqb fileExtension)
               (acceptedExtensions acceptedFileTypes))
    then InvalidType
    else Accepted.

(** The defaults of the component. *)
Definition defaultMaxSizeMB : number := ofZ 10.
Definition defaultFileTypes : string := ".pdf,.doc,.docx,.txt".

(** ** The Gemini analyze-document route: the reply in a code fence *)

(** [String.prototype.split] on a separator of one unit or more:
    [skip] counts the units of a separator just found that are still to
    pass. *)
Fixpoint splitOn (sep : string) (skip : nat) (s : string) : list string :=
  match s with
  | EmptyString => [EmptyString]
  | String c rest =>
      match skip with
      | S n => splitOn sep n rest
      | O =>
          if JSString.startsWith s sep
          then EmptyString :: splitOn sep (String.length sep - 1) rest
          else match splitOn sep 0 rest with
               | first :: others => String c first :: others
               | [] => [String c EmptyString]
               end
      end
  end.

Definition fence : string := "```".
Definition jsonFence : string := "```json".

(** The text handed to [JSON.parse]; [None] when an index finds no
    element and the read of [split] on it throws. *)
Definition jsonTextOf (resultText : string) : option string :=
  if JSString.includes resultText jsonFence then
    inside ← splitOn jsonFence 0 resultText !! 1%nat;
    JSString.trim <$> splitOn fence 0 inside !! 0%nat
  else if JSString.includes resultText fence then
    inside ← splitOn fence 0 resultText !! 1%nat;
    JSString.trim <$> splitOn fence 0 inside !! 0%nat
  else Some resultText.

(** ** From the reply of the model to the stored scores *)

(** A value of the route as the client reads it: [JSON.stringify]
    writes NaN and the infinities as [null] and minus zero as [0]. *)
Fixpoint overTheWire (v : Json.t) : Json.t :=
  match v with
  | Json.number S754_nan | Json.number (S754_infinity _) => Json.null
  | Json.number (S754_zero _) => Json.number zero
  | Json.array items => Json.array (map overTheWire items)
  | Json.object fields =>
      Json.object (map (fun entry => (entry.1, overTheWire entry.2)) fields)
  | _ => v
  end.

(** A parsed value as a value of the page. *)
Fixpoint ofJson (v : Json.t) : Data.t :=
  match v with
  | Json.null => Data.null
  | Json.boolean b => Data.boolean b
  | Json.number x => Data.number x
  | Json.string s => Data.string s
  | Json.array items => Data.array (map ofJson items)
  | Json.object fields =>
      Data.object (map (fun entry => (entry.1, ofJson entry.2)) fields)
  end.

(** The body of [NextResponse.json(validatedResult)], as
    [response.json()] reads it. *)
Definition responseBody (validated : ValidatedResult.t) : Fields :=
  [("summary", ofJson (overTheWire (ValidatedResult.summary validated)));
   ("extractedSkills",
      ofJson (overTheWire (ValidatedResult.extractedSkills validated)));
   ("extractedEducation",
      ofJson (overTheWire (ValidatedResult.extractedEducation validated)));
   ("extractedExperience",
      ofJson (overTheWire (ValidatedResult.extractedExperience validated)));
   ("suggestedScores",
      ofJson (overTheWire (ValidatedResult.suggestedScores validated)))].

(** [analyzeDocument] of the AI service, once the route has answered:
    [{ ...response, model, generatedAt: Date.now() }]. *)
Definition analyzeDocument (response : Fields) (model : AIModel)
    (generatedAt : number) : Fields :=
  Data.set "generatedAt" (Data.number generatedAt)
    (Data.set "model" (Data.string (modelName model)) response).

(** The scores [analyzeWithModel] hands to [onUpdateScores], when it
    does. *)
Definition scoresToUpdate (analysis : Fields) : option Data.t :=
  let suggestedScores := Data.get "suggestedScores" analysis in
  if Data.truthy suggestedScores then Some suggestedScores else None.

(** [handleUpdateScores] of the candidate's page, the candidate being
    loaded. *)
Definition handleUpdateScores (db : Collection) (candidateId : string)
    (scores : Data.t) (now createdNow updatedNow : number)
    : option (Fields * Collection) :=
  updateCandidate db candidateId [("scores", scores)] now createdNow updatedNow.

(** The collection after the analysis of a resume or a cover letter:
    the route validates the parsed reply, the service wraps the answer,
    and the page stores the suggested scores if there are any. [None]
    when the route or the update fails. *)
Definition storeAfterAnalysis (route : Json.t -> option ValidatedResult.t)
    (db : Collection) (candidateId : string) (result : Json.t)
    (model : AIModel) (generatedAt now createdNow updatedNow : number)
    : option Collection :=
  validated ← route result;
  let analysis := analyzeDocument (responseBody validated) model generatedAt in
  match scoresToUpdate analysis with
  | Some scores =>
      snd <$> handleUpdateScores db candidateId scores now createdNow updatedNow
  | None => Some db
  end.

(** ** The candidate's page: documents

    The page holds the candidate it has loaded and writes through
    [updateCandidate]; on the collection of candidate records an update
    of the documents reads as follows. *)
Definition withUpdatedAt (data : Candidate.t) (now : number) : Candidate.t :=
  {| Candidate.id := Candidate.id data;
     Candidate.name := Candidate.name data;
     Candidate.email := Candidate.email data;
     Candidate.phone := Candidate.phone data;
     Candidate.linkedin := Candidate.linkedin data;
     Candidate.github := Candidate.github data;
     Candidate.pictureUrl := Candidate.pictureUrl data;
     Candidate.starRating := Candidate.starRating data;
     Candidate.status := Candidate.status data;
     Candidate.createdAt := Candidate.createdAt data;
     Candidate.updatedAt := now;
     Candidate.scores := Candidate.scores data;
     Candidate.overallScore := Candidate.overallScore data;
     Candidate.documents := Candidate.documents data |}.

(** [updateCandidate(candidateId, { documents })]. *)
Definition updateDocuments (db : gmap string Candidate.t)
    (candidateId : string) (documents : CandidateDocuments.t) (now : number)
    : option (gmap string Candidate.t) :=
  match db !! candidateId with
  | Some data =>
      Some (<[candidateId :=
                withUpdatedAt (withDocuments data documents) now]> db)
  | None => None
  end.

(** [handleDocumentUpload]: the candidate the page holds and the
    collection afterwards; [None] when the update fails and the page
    shows its alert. *)
Definition handleDocumentUpload (db : gmap string Candidate.t)
    (candidateId : string) (candidate : Candidate.t)
    (documentType : DocumentType) (documentInfo : DocumentInfo.t)
    (now : number) : option (Candidate.t * gmap string Candidate.t) :=
  let updatedDocuments :=
    putDocument (documentsOf candidate) documentType documentInfo in
  db ← updateDocuments db candidateId updatedDocuments now;
  Some (withDocuments candidate updatedDocuments, db).

(** The tab of the page that is open. *)
Inductive Tab : Type := profileTab | documentTab (documentType : DocumentType).

(** [{ ...document, aiAnalysis: analysis }]. *)
Definition withAnalysis (analysis : AIAnalysis.t) (document : DocumentInfo.t)
    : DocumentInfo.t :=
  {| DocumentInfo.id := DocumentInfo.id document;
     DocumentInfo.name := DocumentInfo.name document;
     DocumentInfo.url := DocumentInfo.url document;
     DocumentInfo.type := DocumentInfo.type document;
     DocumentInfo.uploadedAt := DocumentInfo.uploadedAt document;
     DocumentInfo.aiAnalysis := Some analysis |}.

Definition analysedSingle (slot : option DocumentInfo.t) (documentId : string)
    (analysis : AIAnalysis.t) : option DocumentInfo.t :=
  match slot with
  | Some document =>
      if String.eqb (DocumentInfo.id document) documentId
      then Some (withAnalysis analysis document)
      else slot
  | None => None
  end.

Definition analysedArray (array : option (list DocumentInfo.t))
    (documentId : string) (analysis : AIAnalysis.t)
    : option (list DocumentInfo.t) :=
  match array with
  | Some documents =>
      match findIndex (fun d => String.eqb (DocumentInfo.id d) documentId)
              documents with
      | Some index => Some (alter (withAnalysis analysis) index documents)
      | None => array
      end
  | None => None
  end.

(** The documents [handleAnalysisComplete] writes. *)
Definition analysedDocuments (documents : CandidateDocuments.t)
    (activeTab : Tab) (documentId : string) (analysis : AIAnalysis.t)
    : CandidateDocuments.t :=
  match activeTab with
  | documentTab resume =>
      {| CandidateDocuments.resume :=
           analysedSingle (CandidateDocuments.resume documents) documentId analysis;
         CandidateDocuments.coverLetter := CandidateDocuments.coverLetter documents;
         CandidateDocuments.notes := CandidateDocuments.notes documents;
         CandidateDocuments.transcripts := CandidateDocuments.transcripts documents |}
  | documentTab coverLetter =>
      {| CandidateDocuments.resume := CandidateDocuments.resume documents;
         CandidateDocuments.coverLetter :=
           analysedSingle (CandidateDocuments.coverLetter documents) documentId
             analysis;
         CandidateDocuments.notes := CandidateDocuments.notes documents;
         CandidateDocuments.transcripts := CandidateDocuments.transcripts documents |}
  | documentTab notes =>
      {| CandidateDocuments.resume := CandidateDocuments.resume documents;
         CandidateDocuments.coverLetter := CandidateDocuments.coverLetter documents;
         CandidateDocuments.notes :=
           analysedArray (CandidateDocuments.notes documents) documentId analysis;
         CandidateDocuments.transcripts := CandidateDocuments.transcripts documents |}
  | documentTab transcripts =>
      {| CandidateDocuments.resume := CandidateDocuments.resume documents;
         CandidateDocuments.coverLetter := CandidateDocuments.coverLetter documents;
         CandidateDocuments.notes := CandidateDocuments.notes documents;
         CandidateDocuments.transcripts :=
           analysedArray (CandidateDocuments.transcripts documents) documentId
             analysis |}
  | profileTab => documents
  end.

(** [handleAnalysisComplete]: the candidate the page holds and the
    collection afterwards. *)
Definition handleAnalysisComplete (db : gmap string Candidate.t)
    (candidateId : string) (candidate : Candidate.t) (activeTab : Tab)
    (documentId : string) (analysis : AIAnalysis.t) (now : number)
    : option (Candidate.t * gmap string Candidate.t) :=
  let updatedDocuments :=
    analysedDocuments (documentsOf candidate) activeTab documentId analysis in
  db ← updateDocuments db candidateId updatedDocuments now;
  Some (withDocuments candidate updatedDocuments, db).

(** A document after [handleAnalysisComplete], next to what it was. *)
Definition analysedFrom (activeTab : Tab) (documentId : string)
    (analysis : AIAnalysis.t)
    (before after : DocumentType * DocumentInfo.t) : Prop :=
  after = before \/
  (after = (before.1, withAnalysis analysis before.2) /\
   DocumentInfo.id before.2 = documentId /\
   activeTab = documentTab before.1).

(** ** The comparison: from the component to the route *)

(** What [JSON.stringify] makes of the scores of a candidate. *)
Definition scoresJson (scores : CategoryScores) : Json.t :=
  overTheWire
    (Json.object (map (fun entry => (entry.1, Json.number entry.2)) scores)).

Section Comparison.

(** What [JSON.stringify] makes of a document. *)
Variable documentJson : DocumentInfo.t -> Json.t.

(** A property that is [undefined] is left out by [JSON.stringify]. (A
    slot that holds [null] is sent as [null]; the record does not tell
    the two apart, and the route reads the slot for its truthiness
    only.) *)
Definition optionalField (key : string) (document : option DocumentInfo.t)
    : list (string * Json.t) :=
  match document with
  | Some d => [(key, documentJson d)]
  | None => []
  end.

(** One element of [candidateData], as sent; [None] when the read of
    [candidate.documents.resume] throws. *)
Definition candidateJson (candidate : Candidate.t) : option Json.t :=
  match Candidate.documents candidate with
  | Some documents =>
      Some (Json.object
              [("id", Json.string (Candidate.id candidate));
               ("name", Json.string (Candidate.name candidate));
               ("documents",
                  Json.object
                    (optionalField "resume" (CandidateDocuments.resume documents) ++
                     optionalField "coverLetter"
                       (CandidateDocuments.coverLetter documents)));
               ("scores", scoresJson (Candidate.scores candidate))])
  | None => None
  end.

(** [generateComparison] up to the request. *)
Inductive Comparison : Type :=
| AsksForJobDescription
| ShowsError
| Sends (body : Json.t).

Definition generateComparison (candidates : list Candidate.t)
    (jobDescription : string) : Comparison :=
  if String.eqb jobDescription "" then AsksForJobDescription
  else
    match mapM candidateJson candidates with
    | Some candidateData =>
        Sends (Json.object [("candidates", Json.array candidateData);
                            ("jobDescription", Json.string jobDescription)])
    | None => ShowsError
    end.

End Comparison.

(** The compare route up to the call of the model. *)
Inductive CompareOutcome : Type :=
| BadRequest (error : string)
| ServerError
| CallsModel.

(** The reads of the prompt on one candidate go through. *)
Definition readable (candidate : Json.t) : bool :=
  match Json.property candidate "documents",
        Json.property candidate "scores" with
  | Some documents, Some scores =>
      match candidate, documents, scores with
      | Json.null, _, _ | _, Json.null, _ | _, _, Json.null => false
      | _, _, _ => true
      end
  | _, _ => false
  end.

Definition compareRoute (body : Json.t) : CompareOutcome :=
  match body with
  | Json.null => ServerError
  | _ =>
      match Json.property body "candidates" with
      | Some (Json.array candidates) =>
          if (length candidates <? 2)%nat
          then BadRequest "At least 2 candidates are required for comparison"
          else if negb (Json.truthy
                          (default Json.null (Json.property body "jobDescription")))
          then BadRequest "Job description is required"
          else if forallb readable candidates then CallsModel
          else ServerError
      | _ => BadRequest "At least 2 candidates are required for comparison"
      end
  end.

(** ** The candidate form: [handleSubmit] for a new candidate *)

(** [formData.documents?.key]. *)
Definition documentsField (formData : Fields) (key : string) : Data.t :=
  match Data.get "documents" formData with
  | Data.object documents => Data.get key documents
  | _ => Data.undefined
  end.

(** The scores object as [calculateOverallScore] goes through it: the
    loop runs over the entries of an object and not at all over
    [undefined] or [null]; entries that are not numbers are outside the
    model. *)
Definition scoreEntry (entry : string * Data.t) : option (string * number) :=
  match entry.2 with
  | Data.number x => Some (entry.1, x)
  | _ => None
  end.

Definition scoresOf (v : Data.t) : option CategoryScores :=
  match v with
  | Data.object fields => mapM scoreEntry fields
  | Data.undefined | Data.null => Some []
  | _ => None
  end.

Definition safeFormData (formData : Fields) : Fields :=
  Data.set "documents"
    (Data.object
       [("resume", orElse (documentsField formData "resume") Data.undefined);
        ("coverLetter",
           orElse (documentsField formData "coverLetter") Data.undefined);
        ("notes", orElse (documentsField formData "notes") (Data.array []));
        ("transcripts",
           orElse (documentsField formData "transcripts") (Data.array []))])
    formData.

(** [handleSubmit] when the form is not editing: the candidate handed
    to [createCandidate] and what the service does with it. *)
Definition handleSubmitNew (db : Collection) (formData : Fields)
    (timestamp : number) (newId : string) (createdNow updatedNow : number)
    : option (Fields * Collection) :=
  scores ← scoresOf (Data.get "scores" formData);
  createCandidate db
    (Data.set "overallScore"
       (Data.number (calculateOverallScore scores DEFAULT_WEIGHTS))
       (Data.set "updatedAt" (Data.number timestamp)
          (Data.set "createdAt" (Data.number timestamp)
             (safeFormData formData))))
    newId createdNow updatedNow.

(** The same scores with the categories in alphabetical order, as an
    object read back from a store that keeps its keys sorted has
    them. *)
Definition alphabeticalScores (t c e f : Z) : CategoryScores :=
  [("communicationSkills", ofZ c); ("culturalFit", ofZ f);
   ("experience", ofZ e); ("technicalSkills", ofZ t)].

(** * Properties *)

(** ** Overall score *)

(** Case analysis on a number: the two zeros, the two infinities, NaN,
    and the finite numbers of either sign; a case that contradicts
    [H] is dropped. *)
Ltac number_cases x H :=
  destruct x as [[]|[]| |[] ? ?]; intros H;
  first [discriminate H | idtac].

Section OverallScore.

Lemma unsigned_round_aux mx ex lx :
  unsigned (binary_round_aux prec emax false mx ex lx) = true.
Proof.
  unfold binary_round_aux.
  destruct (shr_fexp prec emax mx ex lx) as [mrs' e'].
  destruct (shr_fexp prec emax _ e' loc_Exact) as [mrs'' e''].
  destruct (shr_m mrs''); try reflexivity.
  destruct (e'' <=? emax - prec); reflexivity.
Qed.

Lemma unsigned_round m e : unsigned (binary_round prec emax false m e) = true.
Proof.
  unfold binary_round.
  destruct (shl_align m e _) as [mz ez]. apply unsigned_round_aux.
Qed.

Lemma unsigned_add x y :
  unsigned x = true -> unsigned y = true -> unsigned (x + y)%num = true.
Proof.
  destruct x as [[]|[]| |[] mx ex], y as [[]|[]| |[] my ey];
    simpl; intros Hx Hy; try discriminate; try reflexivity.
  unfold Number.add, SFadd, cond_Zopp.
  destruct (shl_align mx ex _) as [m1 e1], (shl_align my ey _) as [m2 e2].
  simpl. apply unsigned_round.
Qed.

Lemma unsigned_mul x y :
  unsigned x = true -> unsigned y = true -> unsigned (x * y)%num = true.
Proof.
  destruct x as [[]|[]| |[] mx ex], y as [[]|[]| |[] my ey];
    simpl; intros Hx Hy; try discriminate; try reflexivity.
  apply unsigned_round_aux.
Qed.

Lemma nonNegative_unsigned x : nonNegative x = true -> unsigned x = true.
Proof. number_cases x H; reflexivity. Qed.

Lemma add_zero_r x : unsigned x = true -> (x + zero)%num = x.
Proof. number_cases x H; reflexivity. Qed.

Lemma mul_zero_r x : nonNegative x = true -> (x * zero)%num = zero.
Proof. number_cases x H; reflexivity. Qed.

Lemma nonNegative_falsy w :
  nonNegative w = true -> truthy w = false -> w = zero.
Proof. number_cases w H; intros H'; first [discriminate H' | reflexivity]. Qed.

(** What [weights[category]] reads, by cases. *)
Lemma weightAt_own (weights : CategoryWeights) (category : string)
    (w : number) :
  weights !! category = Some w -> weightAt weights category = OwnWeight w.
Proof. intros Hw. unfold weightAt. rewrite Hw. reflexivity. Qed.

Lemma weightAt_none (weights : CategoryWeights) (category : string) :
  weights !! category = None ->
  readsInherited weights category = false ->
  weightAt weights category = NoWeight.
Proof.
  unfold readsInherited, weightAt. intros ->.
  destruct (bool_decide (category ∈ objectPrototypeMembers));
    [discriminate|reflexivity].
Qed.

Variable weights : CategoryWeights.
Hypothesis weights_ok :
  forall category w, weights !! category = Some w -> nonNegative w = true.

(** The loop computes the two sums over the categories present in both
    objects, when it reads no inherited member: leaving out a category
    whose weight is zero changes neither sum. *)
Lemma loop_sums (scores : CategoryScores) :
  Forall (fun entry => nonNegative entry.2 = true) scores ->
  Forall (fun entry => readsInherited weights entry.1 = false) scores ->
  forall sum total,
    unsigned sum = true -> unsigned total = true ->
    fold_left (accumulate weights) scores (sum, TotalNumber total) =
      (fold_left (fun sum p => (sum + p.1 * p.2)%num)
         (applied scores weights) sum,
       TotalNumber
         (fold_left (fun total p => (total + p.2)%num)
            (applied scores weights) total)).
Proof.
  induction scores as [|[category score] scores IH];
    intros Hscores Hnames sum total Hsum Htotal; [reflexivity|].
  apply Forall_cons in Hscores as [Hs Hscores].
  apply Forall_cons in Hnames as [Hname Hnames].
  simpl in Hs, Hname. unfold applied.
  cbn [fold_left accumulate omap list_omap fst snd].
  destruct (weights !! category) as [w|] eqn:Hw.
  - rewrite (weightAt_own _ _ _ Hw).
    cbn [weightTruthy weightToNumber addWeight].
    pose proof (weights_ok _ _ Hw) as Hnn.
    destruct (truthy w) eqn:Ht; cbn [fold_left fst snd].
    + apply IH; try assumption.
      * apply unsigned_add; [assumption|].
        apply unsigned_mul; apply nonNegative_unsigned; assumption.
      * apply unsigned_add; [assumption|].
        apply nonNegative_unsigned; assumption.
    + rewrite (nonNegative_falsy w Hnn Ht).
      rewrite (mul_zero_r score Hs), !add_zero_r by assumption.
      apply IH; assumption.
  - rewrite (weightAt_none _ _ Hw Hname). cbn [weightTruthy].
    apply IH; assumption.
Qed.

End OverallScore.

Section Rounding.

Lemma nearestTenths_bounds (m : positive) (e : Z) :
  exists v : Q,
    exact (S754_finite false m e) = Some v /\
    (inject_Z (Z.of_N (nearestTenths m e)) - (1 # 2) <= 10 * v)%Q /\
    (10 * v < inject_Z (Z.of_N (nearestTenths m e)) + (1 # 2))%Q.
Proof.
  destruct e as [|k|k]; simpl exact; eexists; (split; [reflexivity|]).
  - unfold nearestTenths. rewrite Z2N.id by lia.
    unfold Qle, Qlt, Qminus, Qplus, Qmult, Qopp, inject_Z; simpl; lia.
  - unfold nearestTenths.
    assert (0 < 2 ^ Z.pos k) by (apply Z.pow_pos_nonneg; lia).
    rewrite Z2N.id by nia.
    unfold Qle, Qlt, Qminus, Qplus, Qmult, Qopp, inject_Z; simpl Qnum; simpl Qden.
    nia.
  - unfold nearestTenths.
    assert (HP : 0 < 2 ^ Z.pos k) by (apply Z.pow_pos_nonneg; lia).
    assert (HD : 2 ^ (Z.pos k + 1) = 2 * 2 ^ Z.pos k)
      by (rewrite Z.pow_add_r by lia; lia).
    rewrite HD.
    set (P := 2 ^ Z.pos k) in *.
    set (n := (20 * Z.pos m + P) / (2 * P)).
    assert (Hn : 2 * P * n <= 20 * Z.pos m + P < 2 * P * n + 2 * P).
    { pose proof (Z.div_mod (20 * Z.pos m + P) (2 * P)) as Hdm.
      pose proof (Z.mod_pos_bound (20 * Z.pos m + P) (2 * P)) as Hmb.
      fold n in Hdm. lia. }
    assert (0 <= n) by (apply Z.div_pos; lia).
    rewrite Z2N.id by assumption.
    unfold Qle, Qlt, Qminus, Qplus, Qmult, Qopp, inject_Z; simpl Qnum; simpl Qden.
    rewrite !Pos.mul_1_l, Pos2Z.inj_pow. fold P. nia.
Qed.

End Rounding.

(** With no truthy weight, and no inherited member read, the loop
    leaves its accumulators alone. *)
Lemma loop_skips (weights : CategoryWeights) (scores : CategoryScores)
    (acc : number * Total) :
  map_Forall (fun _ w => truthy w = false) weights ->
  Forall (fun entry => readsInherited weights entry.1 = false) scores ->
  fold_left (accumulate weights) scores acc = acc.
Proof.
  intros Hfalsy Hnames.
  induction Hnames as [|[category score] scores Hname _ IH]; [reflexivity|].
  destruct acc as [sum total]. simpl in Hname.
  cbn [fold_left accumulate].
  destruct (weights !! category) as [w|] eqn:Hw.
  - rewrite (weightAt_own _ _ _ Hw). cbn [weightTruthy].
    rewrite (Hfalsy _ _ Hw). exact IH.
  - rewrite (weightAt_none _ _ Hw Hname). exact IH.
Qed.

Lemma strictEq_zero_falsy (w : number) :
  (w === zero)%num = true -> truthy w = false.
Proof. number_cases w H; reflexivity. Qed.

(** *** An inherited member as a weight *)

Section InheritedMember.

Lemma add_NaN_r (x : number) : (x + NaN)%num = NaN.
Proof. destruct x as [[]|[]| |[] m e]; reflexivity. Qed.

Lemma mul_NaN_r (x : number) : (x * NaN)%num = NaN.
Proof. destruct x as [[]|[]| |[] m e]; reflexivity. Qed.

(** Once the sum is NaN and the total a string, they stay so. *)
Lemma loop_stays_NaN (weights : CategoryWeights) (scores : CategoryScores) :
  fold_left (accumulate weights) scores (NaN, TotalText) = (NaN, TotalText).
Proof.
  induction scores as [|[category score] scores IH]; [reflexivity|].
  cbn [fold_left accumulate].
  destruct (weightTruthy (weightAt weights category)); exact IH.
Qed.

Lemma loop_reads_inherited (weights : CategoryWeights)
    (scores : CategoryScores) :
  Exists (fun entry => readsInherited weights entry.1 = true) scores ->
  forall acc,
    fold_left (accumulate weights) scores acc = (NaN, TotalText).
Proof.
  induction 1 as [[category score] scores Hreads|entry scores _ IH];
    intros [sum total]; cbn [fold_left].
  - unfold readsInherited in Hreads. simpl in Hreads. unfold accumulate.
    destruct (weightAt weights category); try discriminate Hreads.
    cbn [weightTruthy weightToNumber addWeight].
    rewrite mul_NaN_r, add_NaN_r.
    replace (addWeight total InheritedMember) with TotalText
      by (destruct total; reflexivity).
    apply loop_stays_NaN.
  - apply IH.
Qed.

(** A score under the name of an inherited member, without a weight of
    its own, makes the overall score NaN. *)
Lemma inherited_gives_NaN (weights : CategoryWeights)
    (scores : CategoryScores) :
  Exists (fun entry => readsInherited weights entry.1 = true) scores ->
  calculateOverallScore scores weights = NaN.
Proof.
  intros Hreads. unfold calculateOverallScore.
  rewrite (loop_reads_inherited weights scores Hreads). reflexivity.
Qed.

End InheritedMember.

(** *** Whole weights *)

Section WholeWeights.

Lemma sums_checked :
  forallb (fun x => forallb (sumExact x) (seqZ 0 31)) (seqZ 0 91) = true.
Proof. vm_compute. reflexivity. Qed.

Lemma products_checked :
  forallb (fun z => forallb (productExact z) (seqZ 1 3)) (seqZ 0 11) = true.
Proof. vm_compute. reflexivity. Qed.

Lemma quotients_checked :
  forallb (fun w => forallb (quotientRounds w) (seqZ 0 121)) (seqZ 4 9) = true.
Proof. vm_compute. reflexivity. Qed.

(** From a check of every pair to the pair at hand. *)
Lemma checked_pair (check : Z -> Z -> bool) (m n m' n' x y : Z) :
  forallb (fun x => forallb (check x) (seqZ m' n')) (seqZ m n) = true ->
  m <= x < m + n -> m' <= y < m' + n' -> check x y = true.
Proof.
  intros Hall Hx Hy.
  assert (Hrow : forallb (check x) (seqZ m' n') = true).
  { apply (proj1 (forallb_forall _ _) Hall).
    apply (proj1 (list_elem_of_In _ _)), elem_of_seqZ, Hx. }
  apply (proj1 (forallb_forall _ _) Hrow).
  apply (proj1 (list_elem_of_In _ _)), elem_of_seqZ, Hy.
Qed.

Lemma ofZ_add (x y : Z) :
  0 <= x <= 90 -> 0 <= y <= 30 -> (ofZ x + ofZ y)%num = ofZ (x + y).
Proof.
  intros Hx Hy.
  apply (bool_decide_unpack _).
  apply Is_true_true, (checked_pair sumExact 0 91 0 31); [|lia|lia].
  exact sums_checked.
Qed.

Lemma ofZ_mul (z w : Z) :
  0 <= z <= 10 -> 1 <= w <= 3 -> (ofZ z * ofZ w)%num = ofZ (w * z).
Proof.
  intros Hz Hw.
  apply (bool_decide_unpack _).
  apply Is_true_true, (checked_pair productExact 0 11 1 3); [|lia|lia].
  exact products_checked.
Qed.

Lemma truthy_whole (w : Z) : 1 <= w <= 3 -> truthy (ofZ w) = true.
Proof.
  intros Hw. assert (w = 1 \/ w = 2 \/ w = 3) as [->|[->| ->]] by lia;
    reflexivity.
Qed.

(** One turn of the loop on a category with a whole weight. *)
Lemma accumulate_whole (weights : CategoryWeights) (category : string)
    (w s n z : Z) :
  weights !! category = Some (ofZ w) ->
  1 <= w <= 3 -> 0 <= z <= 10 -> 0 <= s <= 90 -> 0 <= n <= 9 ->
  accumulate weights (ofZ s, TotalNumber (ofZ n)) (category, ofZ z) =
  (ofZ (s + w * z), TotalNumber (ofZ (n + w))).
Proof.
  intros Hweight Hw Hz Hs Hn. unfold accumulate.
  rewrite (weightAt_own _ _ _ Hweight).
  cbn [weightTruthy weightToNumber addWeight].
  rewrite (truthy_whole w Hw), (ofZ_mul z w Hz Hw).
  rewrite !ofZ_add by nia. reflexivity.
Qed.

Lemma whole_loop (wt wc we wf t c e f : Z) :
  1 <= wt <= 3 -> 1 <= wc <= 3 -> 1 <= we <= 3 -> 1 <= wf <= 3 ->
  0 <= t <= 10 -> 0 <= c <= 10 -> 0 <= e <= 10 -> 0 <= f <= 10 ->
  fold_left (accumulate (wholeWeights wt wc we wf)) (sliderScores t c e f)
    (zero, TotalNumber zero) =
  (ofZ (wholeSum wt wc we wf t c e f),
   TotalNumber (ofZ (wholeTotal wt wc we wf))).
Proof.
  intros Hwt Hwc Hwe Hwf Ht Hc He Hf.
  unfold sliderScores, wholeSum, wholeTotal. cbn [fold_left].
  change zero with (ofZ 0).
  rewrite (accumulate_whole _ "technicalSkills" wt 0 0 t),
    (accumulate_whole _ "communicationSkills" wc),
    (accumulate_whole _ "experience" we),
    (accumulate_whole _ "culturalFit" wf);
    try assumption; try nia; try reflexivity.
Qed.

(** The overall score under whole weights: the exact weighted mean,
    rounded half away from zero. *)
Lemma whole_overall (wt wc we wf t c e f : Z) :
  1 <= wt <= 3 -> 1 <= wc <= 3 -> 1 <= we <= 3 -> 1 <= wf <= 3 ->
  0 <= t <= 10 -> 0 <= c <= 10 -> 0 <= e <= 10 -> 0 <= f <= 10 ->
  exists k : N,
    calculateOverallScore (sliderScores t c e f) (wholeWeights wt wc we wf) =
      parseFloat (FixedDecimal false k) /\
    Z.of_N k =
      halfAwayTenths (wholeSum wt wc we wf t c e f) (wholeTotal wt wc we wf).
Proof.
  intros Hwt Hwc Hwe Hwf Ht Hc He Hf. unfold calculateOverallScore.
  rewrite whole_loop by assumption. cbn [totalIsZero totalToNumber].
  assert (Hcheck :
            quotientRounds (wholeTotal wt wc we wf)
              (wholeSum wt wc we wf t c e f) = true).
  { apply (checked_pair quotientRounds 4 9 0 121); [exact quotients_checked| |];
      unfold wholeTotal, wholeSum; nia. }
  unfold quotientRounds in Hcheck.
  apply andb_true_iff in Hcheck as [Htotal Hprints].
  apply negb_true_iff in Htotal. rewrite Htotal.
  destruct (toFixed1 _) as [| |[] k|]; try discriminate Hprints.
  exists k. split; [reflexivity|]. apply Z.eqb_eq, Hprints.
Qed.

(** Rounded half away from zero, the tenth is a nearest one. *)
Lemma halfAwayTenths_nearest (s w : Z) :
  0 < w -> Z.abs (2 * halfAwayTenths s w * w - 20 * s) <= w.
Proof.
  intros Hw. unfold halfAwayTenths.
  pose proof (Z.div_mod (20 * s + w) (2 * w)) as Hdm.
  pose proof (Z.mod_pos_bound (20 * s + w) (2 * w)) as Hmb.
  nia.
Qed.

End WholeWeights.

(** *** The default weights: every position of the sliders *)

Section DefaultWeights.

Lemma slider_position (z : Z) : 0 <= z <= 10 -> z ∈ sliderValues.
Proof.
  intros Hz.
  assert (z = 0 \/ z = 1 \/ z = 2 \/ z = 3 \/ z = 4 \/ z = 5 \/ z = 6 \/
          z = 7 \/ z = 8 \/ z = 9 \/ z = 10) as Hcases by lia.
  unfold sliderValues. rewrite !elem_of_cons. tauto.
Qed.

Lemma extend_elem (states added : list (Z * number)) (n m : Z)
    (s x : number) :
  (n, s) ∈ states -> (m, x) ∈ added ->
  (n + m, (s + x)%num) ∈ extend states added.
Proof.
  intros Hstate Hterm. unfold extend. apply elem_of_remove_dups.
  apply list_elem_of_bind. exists (n, s). split; [|exact Hstate].
  apply list_elem_of_bind. exists (m, x). split; [|exact Hterm].
  apply list_elem_of_singleton. reflexivity.
Qed.

Lemma terms_elem (category : string) (percent z : Z) :
  0 <= z <= 10 ->
  (percent * z, (ofZ z * weightOf category)%num) ∈ terms category percent.
Proof.
  intros Hz. unfold terms.
  apply (list_elem_of_fmap_2
           (fun z => (percent * z, (ofZ z * weightOf category)%num))).
  apply slider_position, Hz.
Qed.

Lemma default_weight (category : string) (percent : Z) :
  (category, percent) ∈ formOrder ->
  DEFAULT_WEIGHTS !! category = Some (weightOf category) /\
  truthy (weightOf category) = true.
Proof.
  unfold formOrder. rewrite !elem_of_cons, elem_of_nil.
  intros [[= -> _] | [[= -> _] | [[= -> _] | [[= -> _] | []]]]];
    split; vm_compute; reflexivity.
Qed.

(** One turn of the loop on a category of the default weights. *)
Lemma accumulate_default (category : string) (percent : Z)
    (sum total score : number) :
  (category, percent) ∈ formOrder ->
  accumulate DEFAULT_WEIGHTS (sum, TotalNumber total) (category, score) =
  ((sum + score * weightOf category)%num,
   TotalNumber (total + weightOf category)%num).
Proof.
  intros Hcategory.
  destruct (default_weight category percent Hcategory) as [Hweight Htruthy].
  unfold accumulate. rewrite (weightAt_own _ _ _ Hweight).
  cbn [weightTruthy weightToNumber addWeight]. rewrite Htruthy. reflexivity.
Qed.

(** From the check of a state to the overall score. *)
Lemma printsNearest_spec (total sum : number) (n : Z) :
  printsNearest total (n, sum) = true ->
  exists k : N,
    (if (total === zero)%num then zero
     else parseFloat (toFixed1 (sum / total)%num)) =
      parseFloat (FixedDecimal false k) /\
    Z.abs (10 * Z.of_N k - n) <= 5.
Proof.
  unfold printsNearest. cbn [fst snd].
  intros [Htotal Hprints]%andb_true_iff.
  apply negb_true_iff in Htotal. rewrite Htotal.
  destruct (toFixed1 (sum / total)%num) as [| |[] k|]; try discriminate.
  exists k. split; [reflexivity|]. apply Z.leb_le, Hprints.
Qed.

(** Every state the sliders can lead to, by evaluation. *)
Lemma form_checked :
  forallb (printsNearest (totalWeightOf formOrder)) (reachable formOrder) = true.
Proof. vm_compute. reflexivity. Qed.

Lemma form_reached (t c e f : Z) :
  0 <= t <= 10 -> 0 <= c <= 10 -> 0 <= e <= 10 -> 0 <= f <= 10 ->
  (hundredths t c e f,
   (zero + ofZ t * weightOf "technicalSkills" +
    ofZ c * weightOf "communicationSkills" +
    ofZ e * weightOf "experience" +
    ofZ f * weightOf "culturalFit")%num) ∈ reachable formOrder.
Proof.
  intros Ht Hc He Hf.
  replace (hundredths t c e f)
    with (0 + 40 * t + 25 * c + 25 * e + 10 * f) by (unfold hundredths; lia).
  unfold reachable. cbn [fold_left fst snd].
  do 4 (apply extend_elem; [|apply terms_elem; assumption]).
  apply list_elem_of_singleton. reflexivity.
Qed.

Lemma form_loop (t c e f : Z) :
  calculateOverallScore (sliderScores t c e f) DEFAULT_WEIGHTS =
  (if (totalWeightOf formOrder === zero)%num then zero
   else parseFloat
          (toFixed1
             ((zero + ofZ t * weightOf "technicalSkills" +
               ofZ c * weightOf "communicationSkills" +
               ofZ e * weightOf "experience" +
               ofZ f * weightOf "culturalFit") / totalWeightOf formOrder)%num)).
Proof.
  unfold calculateOverallScore, sliderScores. cbn [fold_left].
  rewrite (accumulate_default "technicalSkills" 40),
    (accumulate_default "communicationSkills" 25),
    (accumulate_default "experience" 25),
    (accumulate_default "culturalFit" 10)
    by (unfold formOrder; rewrite !elem_of_cons; tauto).
  reflexivity.
Qed.

Lemma slider_overall (t c e f : Z) :
  0 <= t <= 10 -> 0 <= c <= 10 -> 0 <= e <= 10 -> 0 <= f <= 10 ->
  exists k : N,
    calculateOverallScore (sliderScores t c e f) DEFAULT_WEIGHTS =
      parseFloat (FixedDecimal false k) /\
    Z.abs (10 * Z.of_N k - hundredths t c e f) <= 5.
Proof.
  intros Ht Hc He Hf. rewrite form_loop. apply printsNearest_spec.
  apply (proj1 (forallb_forall _ _) form_checked).
  apply (proj1 (list_elem_of_In _ _)). apply form_reached; assumption.
Qed.

(** Off the halfway points the nearest tenth is the one that rounding
    half away from zero gives. *)
Lemma nearest_off_tie (h : Z) (k : N) :
  Z.abs (10 * Z.of_N k - h) <= 5 -> h mod 10 <> 5 ->
  k = Z.to_N (halfAwayTenths h 100).
Proof.
  intros Hnear Htie. unfold halfAwayTenths.
  change (2 * 100) with 200.
  assert (Hk : (20 * h + 100) / 200 = Z.of_N k).
  { pose proof (Z.div_mod h 10) as Hh.
    pose proof (Z.mod_pos_bound h 10) as Hhb.
    pose proof (Z.div_mod (20 * h + 100) 200) as Hd.
    pose proof (Z.mod_pos_bound (20 * h + 100) 200) as Hdb.
    lia. }
  rewrite Hk. symmetry. apply N2Z.id.
Qed.

End DefaultWeights.




(** A category without a weight, under a name that is not inherited, is
    left out: a fifth score changes nothing under the four default
    weights. *)
Example unweighted_category_ignored :
  calculateOverallScore (exampleScores ++ [("leadership", ofZ 1)])
    DEFAULT_WEIGHTS =
  calculateOverallScore exampleScores DEFAULT_WEIGHTS.
Proof. vm_compute. reflexivity. Qed.




(** On a tie of the number itself the tenth farther from zero is taken:
    0.25 gives 0.3 and -0.25 gives -0.3. *)
Example tie_rounds_away_from_zero :
  parseFloat (toFixed1 (ofRatio false 25 100)) = ofRatio false 3 10 /\
  parseFloat (toFixed1 (ofRatio true 25 100)) = ofRatio true 3 10.
Proof. split; vm_compute; reflexivity. Qed.

(** What is printed and read back for the example: "7.4". *)
Example example_printed :
  printed (toFixed1 (S754_finite false 8275364315293287 (-50))) = Some "7.4" /\
  JSString.StringToNumber "7.4" =
    parseFloat (toFixed1 (S754_finite false 8275364315293287 (-50))).
Proof. split; vm_compute; reflexivity. Qed.

(** The sum the loop reaches for the example is the number next above
    the one nearest to 7.35, which itself lies below 7.35 and would
    print as 7.3. *)
Example example_sum_in_binary64 :
  fold_left (accumulate DEFAULT_WEIGHTS) exampleScores
    (zero, TotalNumber zero) =
    (S754_finite false 8275364315293287 (-50), TotalNumber (ofZ 1)) /\
  ofRatio false 735 100 = S754_finite false 8275364315293286 (-50) /\
  parseFloat (toFixed1 (ofRatio false 735 100)) = ofRatio false 73 10.
Proof. repeat split; vm_compute; reflexivity. Qed.

(** C9. [calculateOverallScore] returns a number for every input, and
    its division is never reached with a zero divisor: with the
    division made to fail on a zero divisor the function still returns,
    and returns the same number. *)
Theorem calculateOverallScore_never_divides_by_zero
    (scores : CategoryScores) (weights : CategoryWeights) :
  calculateOverallScoreChecked scores weights =
    Some (calculateOverallScore scores weights).
Proof.
  unfold calculateOverallScoreChecked, calculateOverallScore, checkedDiv.
  destruct (fold_left (accumulate weights) scores (zero, TotalNumber zero))
    as [weightedScore [total|]]; cbn [totalIsZero totalToNumber];
    [destruct (total === zero)%num|]; reflexivity.
Qed.

(** ** Filters *)

Section Filters.

Lemma filter_sublist {A : Type} (f : A -> bool) (l : list A) :
  sublist (List.filter f l) l.
Proof.
  induction l as [|x l IH]; simpl; [constructor|].
  destruct (f x); constructor; exact IH.
Qed.

Lemma elem_of_filter {A : Type} (f : A -> bool) (l : list A) (x : A) :
  x ∈ List.filter f l <-> x ∈ l /\ f x = true.
Proof. rewrite !list_elem_of_In. apply filter_In. Qed.

Lemma compare_refl (x : number) :
  x <> NaN -> SFcompare x x = Some Eq.
Proof.
  destruct x as [s|[]| |[] m e]; intros Hx; try reflexivity;
    try (exfalso; apply Hx; reflexivity);
    simpl; rewrite Z.compare_refl;
    fold (Pos.compare m m); rewrite Pos.compare_refl; reflexivity.
Qed.

Lemma ge_refl (x : number) : x <> NaN -> Number.ge x x = true.
Proof. intros Hx. unfold Number.ge, SFleb. rewrite compare_refl; auto. Qed.

Lemma le_refl (x : number) : x <> NaN -> Number.le x x = true.
Proof. intros Hx. unfold Number.le, SFleb. rewrite compare_refl; auto. Qed.

End Filters.

(** C7. The score bounds are inclusive on both ends: a given minimum
    keeps exactly the candidates whose overall score is at least the
    minimum, a given maximum exactly those whose overall score is at
    most the maximum, a score equal to the bound passes, an omitted
    bound keeps everyone, and the order is kept; with minimum 70 and
    maximum 89 the candidates scoring 65, 70, 89, 90 come down to those
    scoring 70 and 89. *)
Theorem score_bounds_inclusive
    (filterOptions : option FilterOptions.t) (candidates : list Candidate.t) :
  (forall minScore c,
      minScoreOf filterOptions = Some minScore ->
      (c ∈ minScoreFilter filterOptions candidates <->
       c ∈ candidates /\ Number.ge (Candidate.overallScore c) minScore = true) /\
      (c ∈ candidates -> Candidate.overallScore c = minScore ->
       minScore <> NaN -> c ∈ minScoreFilter filterOptions candidates)) /\
  (forall maxScore c,
      maxScoreOf filterOptions = Some maxScore ->
      (c ∈ maxScoreFilter filterOptions candidates <->
       c ∈ candidates /\ Number.le (Candidate.overallScore c) maxScore = true) /\
      (c ∈ candidates -> Candidate.overallScore c = maxScore ->
       maxScore <> NaN -> c ∈ maxScoreFilter filterOptions candidates)) /\
  (minScoreOf filterOptions = None ->
   minScoreFilter filterOptions candidates = candidates) /\
  (maxScoreOf filterOptions = None ->
   maxScoreFilter filterOptions candidates = candidates) /\
  sublist (minScoreFilter filterOptions candidates) candidates /\
  sublist (maxScoreFilter filterOptions candidates) candidates /\
  maxScoreFilter (Some boundsExample)
    (minScoreFilter (Some boundsExample)
       [scored "a" 65; scored "b" 70; scored "c" 89; scored "d" 90]) =
    [scored "b" 70; scored "c" 89].
Proof.
  unfold minScoreFilter, maxScoreFilter.
  split; [|split; [|split; [|split; [|split; [|split]]]]].
  - intros minScore c ->.
    pose proof (elem_of_filter
      (fun c => Number.ge (Candidate.overallScore c) minScore) candidates c)
      as Hiff.
    split; [exact Hiff|].
    intros Hc Heq Hnan. apply Hiff.
    split; [assumption|]. rewrite Heq. apply ge_refl, Hnan.
  - intros maxScore c ->.
    pose proof (elem_of_filter
      (fun c => Number.le (Candidate.overallScore c) maxScore) candidates c)
      as Hiff.
    split; [exact Hiff|].
    intros Hc Heq Hnan. apply Hiff.
    split; [assumption|]. rewrite Heq. apply le_refl, Hnan.
  - intros ->. reflexivity.
  - intros ->. reflexivity.
  - destruct (minScoreOf filterOptions); [apply filter_sublist|reflexivity].
  - destruct (maxScoreOf filterOptions); [apply filter_sublist|reflexivity].
  - vm_compute. reflexivity.
Qed.

Lemma score_bounds_inclusive_witness :
  scored "b" 70 ∈
    minScoreFilter (Some boundsExample)
      [scored "a" 65; scored "b" 70; scored "c" 89; scored "d" 90].
Proof.
  refine (proj2 (proj1 (score_bounds_inclusive (Some boundsExample)
            [scored "a" 65; scored "b" 70; scored "c" 89; scored "d" 90])
            (ofZ 70) (scored "b" 70) eq_refl) _ eq_refl _).
  - apply list_elem_of_In. simpl. tauto.
  - vm_compute. discriminate.
Defined.

(** C8. Filtering by status "Active" comes to running the same request
    on exactly the Active candidates of the collection, taken in the
    order they have there; a status filter "All", no status filter and
    no filter options at all put no constraint on the status. The page's
    own filter keeps exactly the Active candidates of its input, in
    order. *)
Theorem status_filter_keeps_active_in_order
    (orderDocuments : string -> Direction -> list Candidate.t -> list Candidate.t)
    (collection : list Candidate.t) (now : number)
    (minScore maxScore : option number) (searchTerm : option string)
    (sortOption : option SortOption.t) :
  let options status :=
    Some {| FilterOptions.status := status;
            FilterOptions.minScore := minScore;
            FilterOptions.maxScore := maxScore;
            FilterOptions.searchTerm := searchTerm |} in
  getCandidates orderDocuments collection now (options (Some OnlyActive)) sortOption =
    getCandidates orderDocuments (List.filter isActive collection) now
      (options (Some All)) sortOption /\
  (forall c, c ∈ List.filter isActive collection <->
             c ∈ collection /\ Candidate.status c = Active) /\
  sublist (List.filter isActive collection) collection /\
  getCandidates orderDocuments collection now (options (Some All)) sortOption =
    getCandidates orderDocuments collection now (options None) sortOption /\
  getCandidates orderDocuments collection now
    (Some {| FilterOptions.status := None; FilterOptions.minScore := None;
             FilterOptions.maxScore := None; FilterOptions.searchTerm := None |})
    sortOption =
    getCandidates orderDocuments collection now None sortOption /\
  activeOnly collection = List.filter isActive collection /\
  loadCandidates orderDocuments collection now =
    Some (List.filter isActive
            (map (toCandidate now) (orderDocuments "updatedAt" desc collection))).
Proof.
  intros options.
  split; [reflexivity|].
  split.
  { intros c. rewrite elem_of_filter. unfold isActive.
    destruct (Candidate.status c); simpl; intuition congruence. }
  split; [apply filter_sublist|].
  split; [reflexivity|].
  split; [reflexivity|].
  assert (Hactive : forall data, activeOnly data = List.filter isActive data).
  { intros data. unfold activeOnly.
    destruct (existsb (fun c => negb (isActive c)) data) eqn:Hsome.
    - destruct data; [discriminate Hsome|reflexivity].
    - rewrite andb_false_r.
      induction data as [|c l IH]; [reflexivity|].
      simpl in *. apply orb_false_elim in Hsome as [Hc Hl].
      apply negb_false_iff in Hc. rewrite Hc. f_equal. apply IH, Hl. }
  split; [apply Hactive|].
  unfold loadCandidates. simpl. rewrite Hactive. reflexivity.
Qed.

(** Two Active candidates around an Inactive one, asked for with status
    "Active": the two, in their order. *)
Example status_filter_example :
  getCandidates (fun _ _ docs => docs)
    [scored "a" 65; sampleCandidate "b" Inactive (ofZ 70) exampleScores None;
     scored "c" 89]
    (ofZ 1700000000001) (Some activeFilter) None =
  Some [scored "a" 65; scored "c" 89].
Proof. vm_compute. reflexivity. Qed.

(** ** Keyword search *)

Section Search.

Lemma append_cons (c : ascii) (s t : string) :
  String c s +:+ t = String c (s +:+ t).
Proof. reflexivity. Qed.

Lemma append_empty (t : string) : "" +:+ t = t.
Proof. reflexivity. Qed.

Lemma startsWith_spec (prefix s : string) :
  JSString.startsWith s prefix = true <-> exists rest, s = prefix +:+ rest.
Proof.
  revert s. induction prefix as [|p prefix IH]; intros s; simpl.
  - split; [intros _; exists s; reflexivity|reflexivity].
  - destruct s as [|c s].
    + split; [discriminate|intros [rest Hrest]; discriminate Hrest].
    + rewrite andb_true_iff, Ascii.eqb_eq, IH. split.
      * intros [-> [rest ->]]. exists rest. reflexivity.
      * intros [rest Hrest]. rewrite append_cons in Hrest.
        injection Hrest as -> ->. split; [reflexivity|exists rest; reflexivity].
Qed.

Lemma includes_spec (s keyword : string) :
  JSString.includes s keyword = true <-> occursIn keyword s.
Proof.
  unfold occursIn. induction s as [|c s IH].
  - simpl. rewrite orb_false_r, startsWith_spec. split.
    + intros [rest ->]. exists "", rest. reflexivity.
    + intros ([|b before] & after & H); [|discriminate H].
      exists after. exact H.
  - change (JSString.includes (String c s) keyword)
      with (JSString.startsWith (String c s) keyword || JSString.includes s keyword).
    rewrite orb_true_iff, startsWith_spec, IH. split.
    + intros [[rest ->]|(before & after & ->)].
      * exists "", rest. reflexivity.
      * exists (String c before), after. reflexivity.
    + intros ([|b before] & after & H).
      * left. exists after. exact H.
      * right. rewrite append_cons in H. injection H as -> ->.
        exists before, after. reflexivity.
Qed.

Lemma toLowerCase_empty (s : string) : JSString.toLowerCase s = "" -> s = "".
Proof. destruct s; [reflexivity|discriminate]. Qed.

Lemma not_occursIn_empty (keyword : string) :
  keyword <> "" -> ~ occursIn keyword "".
Proof.
  intros Hne ([|b before] & after & H); [|discriminate H].
  destruct keyword; [apply Hne; reflexivity|discriminate H].
Qed.

Lemma truthyString_Some (field : option string) (s : string) :
  truthyString field = Some s <-> field = Some s /\ s <> "".
Proof.
  destruct field as [[|c t]|]; simpl; split;
    try discriminate; try (intros [H _]; discriminate H).
  - intros [H Hne]. injection H as <-. exfalso. apply Hne. reflexivity.
  - intros H. injection H as <-. split; [reflexivity|discriminate].
  - intros [H _]. exact H.
Qed.

Lemma elem_of_searchableFields (c : Candidate.t) (s : string) :
  s ∈ searchableFields c <->
  s <> "" /\ someSearchField (fun field => field = s) c.
Proof.
  unfold searchableFields, someSearchField.
  rewrite list_elem_of_omap. split.
  - intros (field & Hin & Hs). apply truthyString_Some in Hs as [-> Hne].
    split; [exact Hne|].
    apply elem_of_app in Hin as [Hin|Hin].
    + repeat (apply elem_of_cons in Hin as [Hin|Hin];
              [first [injection Hin as <-; tauto
                     |symmetry in Hin; eauto 10]|]).
      apply elem_of_nil in Hin. contradiction.
    + apply list_elem_of_fmap in Hin as (note & Heq & Hnote).
      injection Heq as ->. apply list_elem_of_In in Hnote. eauto 10.
  - intros [Hne H]. exists (Some s).
    split; [|apply truthyString_Some; auto].
    apply elem_of_app.
    destruct H as [<-|[<-|[(x & -> & <-)|[(x & -> & <-)|[(x & -> & <-)|(note & Hnote & <-)]]]]].
    + left. set_solver.
    + left. set_solver.
    + left. set_solver.
    + left. set_solver.
    + left. set_solver.
    + right. apply list_elem_of_fmap. exists note.
      split; [reflexivity|apply list_elem_of_In, Hnote].
Qed.

End Search.

Lemma someSearchField_exists (P : string -> Prop) (c : Candidate.t) :
  someSearchField P c <->
  exists field, someSearchField (fun s => s = field) c /\ P field.
Proof.
  unfold someSearchField. split.
  - intros [H|[H|[(s & Hs & H)|[(s & Hs & H)|[(s & Hs & H)|(note & Hn & H)]]]]];
      (eexists; split; [|exact H]); eauto 10.
  - intros (field & H & HP).
    destruct H as [<-|[<-|[(s & Hs & <-)|[(s & Hs & <-)|[(s & Hs & <-)|(note & Hn & <-)]]]]];
      eauto 10.
Qed.

Lemma matchesKeyword_spec (keyword : string) (c : Candidate.t) :
  keyword <> "" ->
  matchesKeyword keyword c = true <->
  someSearchField
    (fun field => occursIn keyword (JSString.toLowerCase field)) c.
Proof.
  intros Hne. unfold matchesKeyword.
  rewrite existsb_exists, someSearchField_exists. split.
  - intros (field & Hin & Hinc).
    apply list_elem_of_In, elem_of_searchableFields in Hin as [_ Hfield].
    exists field. split; [exact Hfield|apply includes_spec, Hinc].
  - intros (field & Hfield & Hocc). exists field.
    split; [|apply includes_spec, Hocc].
    apply list_elem_of_In, elem_of_searchableFields. split; [|exact Hfield].
    intros ->. exact (not_occursIn_empty keyword Hne Hocc).
Qed.

(** C6. With a non-empty search term, the search filter keeps exactly
    the candidates for which the lower-cased term occurs in the
    lower-cased name, e-mail address, phone number, LinkedIn URL, GitHub
    URL or name of a note; a field the candidate does not have takes no
    part; the order is kept; a candidate whose only match is the name of
    a note is kept. *)
Theorem search_filter_matches_any_field
    (options : FilterOptions.t) (searchTerm : string)
    (candidates : list Candidate.t) :
  FilterOptions.searchTerm options = Some searchTerm ->
  searchTerm <> "" ->
  let keyword := JSString.toLowerCase searchTerm in
  (forall c,
      c ∈ searchFilter (Some options) candidates <->
      c ∈ candidates /\
      someSearchField
        (fun field => occursIn keyword (JSString.toLowerCase field)) c) /\
  sublist (searchFilter (Some options) candidates) candidates /\
  (forall c note,
      c ∈ candidates -> In note (notesOf c) ->
      occursIn keyword (JSString.toLowerCase (DocumentInfo.name note)) ->
      c ∈ searchFilter (Some options) candidates) /\
  searchFilter (Some searchExample) [scored "a" 65; withNote] = [withNote] /\
  JSString.includes (JSString.toLowerCase (Candidate.name withNote)) "screen" = false /\
  JSString.includes (JSString.toLowerCase (Candidate.email withNote)) "screen" = false.
Proof.
  intros Hterm Hne keyword.
  assert (Hkw : keyword <> "").
  { intros H. apply Hne, toLowerCase_empty, H. }
  assert (Hfilter : searchFilter (Some options) candidates =
                    List.filter (matchesKeyword keyword) candidates).
  { unfold searchFilter, searchTermOf. rewrite Hterm.
    destruct searchTerm; [contradiction Hne; reflexivity|reflexivity]. }
  rewrite Hfilter.
  assert (Hiff : forall c,
             c ∈ List.filter (matchesKeyword keyword) candidates <->
             c ∈ candidates /\
             someSearchField
               (fun field => occursIn keyword (JSString.toLowerCase field)) c).
  { intros c. rewrite elem_of_filter, (matchesKeyword_spec keyword c Hkw).
    reflexivity. }
  split; [exact Hiff|].
  split; [apply filter_sublist|].
  split; [|split; [|split]; vm_compute; reflexivity].
  intros c note Hc Hnote Hocc. apply Hiff. split; [exact Hc|].
  unfold someSearchField. do 5 right. exists note. split; assumption.
Qed.

Lemma search_filter_matches_any_field_witness :
  withNote ∈ searchFilter (Some searchExample) [scored "a" 65; withNote].
Proof.
  refine (proj1 (proj2 (proj2
            (search_filter_matches_any_field searchExample "SCREEN"
               [scored "a" 65; withNote] eq_refl _)))
            withNote screenNote _ _ _).
  - discriminate.
  - apply list_elem_of_In. simpl. tauto.
  - simpl. tauto.
  - exists "phone ", ".pdf". reflexivity.
Defined.

(** ** Documents *)

Section Documents.

Lemma filter_kind (kind slot : DocumentType) (l : list DocumentInfo.t) :
  List.filter (fun d : DocumentType * DocumentInfo.t => documentTypeEqb d.1 kind)
    (map (pair slot) l) =
  if documentTypeEqb slot kind then map (pair slot) l else [].
Proof.
  induction l as [|d l IH]; simpl; [destruct (documentTypeEqb slot kind); reflexivity|].
  rewrite IH. destruct (documentTypeEqb slot kind); reflexivity.
Qed.

Lemma countOf_resume (documents : CandidateDocuments.t) :
  countOf resume documents =
    length (option_list (CandidateDocuments.resume documents)).
Proof.
  unfold countOf, allDocuments.
  rewrite !List.filter_app, !filter_kind. simpl.
  rewrite !app_nil_r, length_map. reflexivity.
Qed.

Lemma countOf_coverLetter (documents : CandidateDocuments.t) :
  countOf coverLetter documents =
    length (option_list (CandidateDocuments.coverLetter documents)).
Proof.
  unfold countOf, allDocuments.
  rewrite !List.filter_app, !filter_kind. simpl.
  rewrite !app_nil_r, length_map. reflexivity.
Qed.

End Documents.

(** C10. An upload for a stored candidate writes back the documents
    object with the new document put in: as a resume or a cover letter
    it takes the place of the one that was there, so the object never
    holds more than one of either; as a note or a transcript it comes
    after the entries of its list, which stay as they were and in their
    order. The other slots and the other candidates are not touched; an
    upload for a candidate that is not stored fails. *)
Theorem upload_replaces_or_appends
    (db : gmap string Candidate.t) (candidateId : string) (file : File.t)
    (documentType : DocumentType) (nameTime uploadTime : Z)
    (downloadURL : string) :
  match db !! candidateId with
  | None =>
      uploadCandidateDocument db candidateId file documentType
        nameTime uploadTime downloadURL = None
  | Some candidateData =>
      let old := default emptyDocuments (Candidate.documents candidateData) in
      exists (info : DocumentInfo.t) (new : CandidateDocuments.t)
             (db' : gmap string Candidate.t),
        uploadCandidateDocument db candidateId file documentType
          nameTime uploadTime downloadURL = Some (info, db') /\
        DocumentInfo.name info = File.name file /\
        (Candidate.documents <$> db' !! candidateId) = Some (Some new) /\
        (forall other, other <> candidateId -> db' !! other = db !! other) /\
        (countOf resume new <= 1)%nat /\
        (countOf coverLetter new <= 1)%nat /\
        match documentType with
        | resume =>
            CandidateDocuments.resume new = Some info /\
            countOf resume new = 1%nat /\
            CandidateDocuments.coverLetter new = CandidateDocuments.coverLetter old /\
            CandidateDocuments.notes new = CandidateDocuments.notes old /\
            CandidateDocuments.transcripts new = CandidateDocuments.transcripts old
        | coverLetter =>
            CandidateDocuments.coverLetter new = Some info /\
            countOf coverLetter new = 1%nat /\
            CandidateDocuments.resume new = CandidateDocuments.resume old /\
            CandidateDocuments.notes new = CandidateDocuments.notes old /\
            CandidateDocuments.transcripts new = CandidateDocuments.transcripts old
        | notes =>
            CandidateDocuments.notes new =
              Some (default [] (CandidateDocuments.notes old) ++ [info]) /\
            CandidateDocuments.resume new = CandidateDocuments.resume old /\
            CandidateDocuments.coverLetter new = CandidateDocuments.coverLetter old /\
            CandidateDocuments.transcripts new = CandidateDocuments.transcripts old
        | transcripts =>
            CandidateDocuments.transcripts new =
              Some (default [] (CandidateDocuments.transcripts old) ++ [info]) /\
            CandidateDocuments.resume new = CandidateDocuments.resume old /\
            CandidateDocuments.coverLetter new = CandidateDocuments.coverLetter old /\
            CandidateDocuments.notes new = CandidateDocuments.notes old
        end
  end.
Proof.
  unfold uploadCandidateDocument.
  destruct (db !! candidateId) as [candidateData|] eqn:Hget; [|reflexivity].
  cbv zeta.
  set (old := default emptyDocuments (Candidate.documents candidateData)).
  eexists _, _, _.
  split; [reflexivity|].
  split; [reflexivity|].
  split; [rewrite lookup_insert_eq; reflexivity|].
  split; [intros other Hother; apply lookup_insert_ne; congruence|].
  rewrite countOf_resume, countOf_coverLetter.
  destruct documentType; simpl;
    rewrite ?countOf_resume, ?countOf_coverLetter; simpl;
    destruct (CandidateDocuments.resume old), (CandidateDocuments.coverLetter old);
    simpl; repeat split; lia.
Qed.

(** ** Client-side sort *)

Section InsertionSort.

Context {A : Type}.

Lemma insertSorted_total (compareM : A -> A -> option Z)
    (compareFn : A -> A -> Z) (x : A) (l : list A) :
  (forall a b, compareM a b = Some (compareFn a b)) ->
  insertSorted compareM x l = Some (insertBy compareFn x l).
Proof.
  intros Hcmp. induction l as [|y l IH]; simpl; [reflexivity|].
  rewrite Hcmp. simpl. destruct (compareFn x y <=? 0); [reflexivity|].
  rewrite IH. reflexivity.
Qed.

Lemma sortWith_total (compareM : A -> A -> option Z)
    (compareFn : A -> A -> Z) (l : list A) :
  (forall a b, compareM a b = Some (compareFn a b)) ->
  sortWith compareM l = Some (sortBy compareFn l).
Proof.
  intros Hcmp. induction l as [|x l IH]; simpl; [reflexivity|].
  rewrite IH. simpl. apply insertSorted_total, Hcmp.
Qed.

Variable compareFn : A -> A -> Z.

Lemma insertBy_perm (x : A) (l : list A) : insertBy compareFn x l ≡ₚ x :: l.
Proof.
  induction l as [|y l IH]; simpl; [reflexivity|].
  destruct (compareFn x y <=? 0); [reflexivity|].
  rewrite IH. apply Permutation_swap.
Qed.

Lemma sortBy_perm (l : list A) : sortBy compareFn l ≡ₚ l.
Proof.
  induction l as [|x l IH]; simpl; [reflexivity|].
  rewrite insertBy_perm, IH. reflexivity.
Qed.

(** Two kinds of elements, the first of which the comparison function
    never puts after anything, and always before the second. *)
Variables first second : A -> bool.
Hypothesis first_le : forall a b,
  first a = true -> first b = true \/ second b = true -> compareFn a b <= 0.
Hypothesis second_gt : forall a b,
  second a = true -> first b = true -> 0 < compareFn a b.
Hypothesis second_not_first : forall a, second a = true -> first a = false.

Lemma insertBy_first (x : A) (l : list A) :
  first x = true ->
  Forall (fun a => first a = true \/ second a = true) l ->
  insertBy compareFn x l = x :: l.
Proof.
  intros Hx Hl. destruct l as [|y l]; [reflexivity|]. simpl.
  apply Forall_cons in Hl as [Hy _].
  pose proof (first_le x y Hx Hy) as Hle.
  apply Z.leb_le in Hle. rewrite Hle. reflexivity.
Qed.

Lemma insertBy_second (x : A) (firsts rest : list A) :
  second x = true ->
  Forall (fun a => first a = true) firsts ->
  insertBy compareFn x (firsts ++ rest) = firsts ++ insertBy compareFn x rest.
Proof.
  intros Hx. induction 1 as [|y firsts Hy _ IH]; [reflexivity|]. simpl.
  pose proof (second_gt x y Hx Hy) as Hgt.
  apply Z.leb_gt in Hgt. rewrite Hgt, IH. reflexivity.
Qed.

Lemma Forall_filter_true (f : A -> bool) (l : list A) :
  Forall (fun a => f a = true) (List.filter f l).
Proof.
  induction l as [|x l IH]; simpl; [constructor|].
  destruct (f x) eqn:Hx; [constructor; assumption|assumption].
Qed.

Lemma sortBy_first_block (l : list A) :
  Forall (fun a => first a = true \/ second a = true) l ->
  sortBy compareFn l =
    List.filter first l ++ sortBy compareFn (List.filter second l).
Proof.
  induction 1 as [|x l Hx Hl IH]; [reflexivity|]. simpl. rewrite IH.
  destruct (first x) eqn:Hfirst.
  - assert (second x = false) as ->.
    { destruct (second x) eqn:Hs; [|reflexivity].
      rewrite (second_not_first x Hs) in Hfirst. discriminate. }
    apply insertBy_first; [exact Hfirst|].
    apply Forall_app. split.
    + eapply Forall_impl; [apply Forall_filter_true|]. simpl. auto.
    + rewrite sortBy_perm.
      eapply Forall_impl; [apply Forall_filter_true|]. simpl. auto.
  - destruct Hx as [Hx|Hx]; [congruence|]. rewrite Hx. simpl.
    apply insertBy_second; [exact Hx|apply Forall_filter_true].
Qed.

End InsertionSort.

Section ClientSort.

Lemma walkStep_total (field : jsval) (part : string) :
  walkStep field part = Some (resolveStep field part).
Proof. unfold walkStep, resolveStep. destruct field; reflexivity. Qed.

Lemma walk_total (fieldParts : list string) (field : jsval) :
  walk field fieldParts = Some (resolve field fieldParts).
Proof.
  revert field. induction fieldParts as [|part rest IH]; intros field;
    [reflexivity|].
  simpl. rewrite walkStep_total. simpl. apply IH.
Qed.

Lemma resolve_app (field : jsval) (before after : list string) :
  resolve field (before ++ after) = resolve (resolve field before) after.
Proof. apply fold_left_app. Qed.

(** Once the walk holds something that is not an object it stays
    there. *)
Lemma resolve_stuck (field : jsval) (fieldParts : list string) :
  isObject field = false -> resolve field fieldParts = field.
Proof.
  intros Hfield. induction fieldParts as [|part rest IH]; [reflexivity|].
  unfold resolve in *. simpl.
  assert (resolveStep field part = field) as ->
    by (unfold resolveStep; rewrite Hfield; reflexivity).
  exact IH.
Qed.

Lemma sortKey_total (sortOption : SortOption.t) (c : Candidate.t) :
  sortKey sortOption c =
    Some (orSentinel (SortOption.direction sortOption) (resolved sortOption c)).
Proof. unfold sortKey. rewrite walk_total. reflexivity. Qed.

Lemma compareCandidates_total (sortOption : SortOption.t) (a b : Candidate.t) :
  compareCandidates sortOption a b = Some (compared sortOption a b).
Proof. unfold compareCandidates. rewrite !sortKey_total. reflexivity. Qed.

Lemma clientSort_total (sortOption : SortOption.t)
    (candidates : list Candidate.t) :
  clientSort (Some sortOption) candidates =
    Some (if isSimpleSortField (SortOption.field sortOption) then candidates
          else sortBy (compared sortOption) candidates).
Proof.
  unfold clientSort.
  destruct (isSimpleSortField (SortOption.field sortOption)); [reflexivity|].
  apply sortWith_total, compareCandidates_total.
Qed.

Lemma compared_missing (sortOption : SortOption.t) (a b : Candidate.t) :
  missingIn sortOption a = true ->
  missingIn sortOption b = true \/ valuedIn sortOption b = true ->
  compared sortOption a b <= 0.
Proof.
  unfold missingIn, valuedIn, compared. intros Ha Hb.
  destruct (resolved sortOption a); try discriminate Ha;
    destruct (SortOption.direction sortOption);
    (destruct (resolved sortOption b) as [| |[s|s| |s m e]| | | | | | | |];
     destruct Hb as [Hb|Hb]; try discriminate Hb;
     try destruct s; vm_compute; discriminate).
Qed.

Lemma compared_valued (sortOption : SortOption.t) (a b : Candidate.t) :
  valuedIn sortOption a = true ->
  missingIn sortOption b = true ->
  0 < compared sortOption a b.
Proof.
  unfold missingIn, valuedIn, compared. intros Ha Hb.
  destruct (resolved sortOption b); try discriminate Hb;
    destruct (SortOption.direction sortOption);
    (destruct (resolved sortOption a) as [| |[s|s| |s m e]| | | | | | | |];
     try discriminate Ha; try destruct s; vm_compute; reflexivity).
Qed.

Lemma valued_not_missing (sortOption : SortOption.t) (c : Candidate.t) :
  valuedIn sortOption c = true -> missingIn sortOption c = false.
Proof.
  unfold missingIn, valuedIn.
  destruct (resolved sortOption c); simpl; congruence.
Qed.

End ClientSort.







(** ** Analysis responses *)

(** C5, as the code has it. Both routes treat the parsed response the
    same way: when it has no [suggestedScores], or a falsy one, the
    result carries the four neutral scores of 5; any other
    [suggestedScores] is handed on as it came, so the result has the
    shape of category scores only if what came had it. *)
Theorem suggested_scores_default_as_a_whole (response : Json.t) :
  OpenAIRoute.validatedResult response = GeminiRoute.validatedResult response /\
  match response with
  | Json.null => OpenAIRoute.validatedResult response = None
  | _ =>
      exists v : ValidatedResult.t,
        OpenAIRoute.validatedResult response = Some v /\
        ValidatedResult.suggestedScores v =
          match Json.property response "suggestedScores" with
          | Some given => if Json.truthy given then given else neutralScores
          | None => neutralScores
          end /\
        hasCategoryScoresShape (ValidatedResult.suggestedScores v) =
          match Json.property response "suggestedScores" with
          | Some given =>
              if Json.truthy given then hasCategoryScoresShape given else true
          | None => true
          end
  end /\
  hasCategoryScoresShape neutralScores = true /\
  Forall (fun category =>
            Json.property neutralScores category = Some (Json.number (ofZ 5)))
    standardCategories.
Proof.
  split; [reflexivity|].
  split; [|split; [reflexivity|repeat constructor]].
  destruct response; try reflexivity; eexists; (split; [reflexivity|]);
    (split; [reflexivity|]); cbn [ValidatedResult.suggestedScores];
    (destruct (Json.property _ "suggestedScores") as [given|];
     cbn [Json.orElse]; [destruct (Json.truthy given)|]; reflexivity).
Qed.

(** Against C5 as worded: a response whose [suggestedScores] has only
    [technicalSkills] passes both routes unchanged; the result has not
    the shape of category scores, and its [communicationSkills] is
    undefined, not 5. *)
Lemma partial_scores_not_completed :
  (exists v : ValidatedResult.t,
      OpenAIRoute.validatedResult partialResponse = Some v /\
      GeminiRoute.validatedResult partialResponse = Some v /\
      ValidatedResult.suggestedScores v =
        Json.object [("technicalSkills", Json.number (ofZ 8))] /\
      hasCategoryScoresShape (ValidatedResult.suggestedScores v) = false /\
      Json.property (ValidatedResult.suggestedScores v) "communicationSkills" =
        None) /\
  ~ scoresValidated OpenAIRoute.validatedResult partialResponse /\
  ~ scoresValidated GeminiRoute.validatedResult partialResponse.
Proof.
  split; [eexists; repeat split|].
  split; intros Hclaim;
    destruct (Hclaim _ eq_refl) as [Hshape _]; discriminate Hshape.
Qed.

(** * Further properties of the code *)

(** ** [removeDeeplyUndefined] *)

Section RemoveDeeplyUndefined.

(** Induction over a value and the values inside it. *)
Lemma data_ind (P : Data.t -> Prop) :
  P Data.undefined -> P Data.null ->
  (forall b, P (Data.boolean b)) -> (forall x, P (Data.number x)) ->
  (forall s, P (Data.string s)) -> (forall x, P (Data.date x)) ->
  (forall x y, P (Data.timestamp x y)) ->
  (forall items, Forall P items -> P (Data.array items)) ->
  (forall fields, Forall (fun entry => P entry.2) fields ->
                  P (Data.object fields)) ->
  forall v, P v.
Proof.
  intros Hu Hn Hb Hx Hs Hd Ht Ha Ho.
  fix IH 1.
  intros [| |b|x|s|x|x y|items|fields];
    [exact Hu|exact Hn|apply Hb|apply Hx|apply Hs|apply Hd|apply Ht| |].
  - apply Ha. induction items as [|item items IHitems]; constructor;
      [apply IH|exact IHitems].
  - apply Ho. induction fields as [|[key v] fields IHfields]; constructor;
      [apply IH|exact IHfields].
Qed.

Lemma removeDeeplyUndefined_defined_top (v : Data.t) :
  Data.isDefined (removeDeeplyUndefined v) = true.
Proof. destruct v; reflexivity. Qed.

Lemma removeDeeplyUndefined_nullified (v : Data.t) :
  removeDeeplyUndefined v = Data.nullified v.
Proof.
  induction v as [| | | | | | |items IH|fields IH] using data_ind;
    try reflexivity; simpl; f_equal.
  - induction IH as [|item items Hitem _ IHitems]; [reflexivity|].
    simpl. rewrite removeDeeplyUndefined_defined_top.
    rewrite Hitem, IHitems. reflexivity.
  - induction IH as [|[key v] fields Hv _ IHfields]; [reflexivity|].
    simpl in *. rewrite removeDeeplyUndefined_defined_top.
    rewrite Hv, IHfields. reflexivity.
Qed.

Lemma nullified_defined (v : Data.t) : Data.defined (Data.nullified v) = true.
Proof.
  induction v as [| | | | | | |items IH|fields IH] using data_ind;
    try reflexivity; simpl.
  - induction IH as [|item items Hitem _ IHitems]; [reflexivity|].
    simpl. rewrite Hitem. exact IHitems.
  - induction IH as [|[key v] fields Hv _ IHfields]; [reflexivity|].
    simpl in *. rewrite Hv. exact IHfields.
Qed.

Lemma nullified_fixed (v : Data.t) :
  Data.defined v = true -> Data.nullified v = v.
Proof.
  induction v as [| | | | | | |items IH|fields IH] using data_ind;
    try reflexivity; simpl; intros Hdef; [discriminate| |]; f_equal.
  - induction IH as [|item items Hitem _ IHitems]; [reflexivity|].
    simpl in Hdef. apply andb_true_iff in Hdef as [Hd1 Hd2].
    simpl. rewrite Hitem, IHitems by assumption. reflexivity.
  - induction IH as [|[key v] fields Hv _ IHfields]; [reflexivity|].
    simpl in Hdef, Hv. apply andb_true_iff in Hdef as [Hd1 Hd2].
    simpl. rewrite Hv, IHfields by assumption. reflexivity.
Qed.

End RemoveDeeplyUndefined.

(** X1. What [removeDeeplyUndefined] returns holds no [undefined], at
    any depth, and cleaning a cleaned value changes nothing. *)
Theorem removeDeeplyUndefined_leaves_no_undefined (obj : Data.t) :
  Data.defined (removeDeeplyUndefined obj) = true /\
  removeDeeplyUndefined (removeDeeplyUndefined obj) = removeDeeplyUndefined obj.
Proof.
  rewrite !removeDeeplyUndefined_nullified.
  split; [apply nullified_defined|].
  apply nullified_fixed, nullified_defined.
Qed.




(** ** One candidate in the store *)

Section Fields.

Lemma has_false (key : string) (fields : Fields) :
  Data.has key fields = false <-> key ∉ fields.*1.
Proof.
  induction fields as [|[k v] fields IH]; simpl.
  - split; [intros _; apply not_elem_of_nil|reflexivity].
  - rewrite not_elem_of_cons, orb_false_iff, IH.
    destruct (String.eqb_spec k key); intuition congruence.
Qed.

Lemma get_absent (key : string) (fields : Fields) :
  Data.has key fields = false -> Data.get key fields = Data.undefined.
Proof.
  induction fields as [|[k v] fields IH]; simpl; [reflexivity|].
  destruct (String.eqb k key); simpl; [discriminate|exact IH].
Qed.

Lemma get_set (key k : string) (value : Data.t) (fields : Fields) :
  Data.get key (Data.set k value fields) =
  if String.eqb k key then value else Data.get key fields.
Proof.
  induction fields as [|[k' v'] fields IH]; simpl.
  - destruct (String.eqb k key); reflexivity.
  - destruct (String.eqb_spec k' k) as [->|Hk]; simpl.
    + destruct (String.eqb k key); reflexivity.
    + rewrite IH. destruct (String.eqb_spec k' key) as [->|Hkey];
        [|reflexivity].
      destruct (String.eqb_spec k key); congruence.
Qed.

Lemma has_set (key k : string) (value : Data.t) (fields : Fields) :
  Data.has key (Data.set k value fields) =
  String.eqb k key || Data.has key fields.
Proof.
  induction fields as [|[k' v'] fields IH]; simpl.
  - reflexivity.
  - destruct (String.eqb_spec k' k) as [->|Hk]; simpl.
    + destruct (String.eqb k key); reflexivity.
    + rewrite IH. destruct (String.eqb k' key), (String.eqb k key);
        reflexivity.
Qed.

Lemma set_keys (k : string) (value : Data.t) (fields : Fields) :
  NoDup fields.*1 -> NoDup (Data.set k value fields).*1.
Proof.
  induction fields as [|[k' v'] fields IH]; simpl; intros Hnodup.
  - apply NoDup_singleton.
  - apply NoDup_cons in Hnodup as [Hfresh Hnodup].
    destruct (String.eqb_spec k' k) as [->|Hk]; simpl.
    + apply NoDup_cons. split; assumption.
    + apply NoDup_cons. split; [|apply IH, Hnodup].
      rewrite <- has_false, has_set, orb_false_iff.
      split; [|apply has_false, Hfresh].
      destruct (String.eqb_spec k k'); congruence.
Qed.

Lemma get_assign (key : string) (source target : Fields) :
  NoDup source.*1 ->
  Data.get key (Data.assign target source) =
  if Data.has key source then Data.get key source else Data.get key target.
Proof.
  unfold Data.assign.
  revert target. induction source as [|[k v] source IH]; intros target Hnodup;
    [reflexivity|].
  apply NoDup_cons in Hnodup as [Hfresh Hnodup]. simpl in *.
  rewrite IH by exact Hnodup. rewrite get_set.
  destruct (String.eqb_spec k key) as [->|Hk]; simpl; [|reflexivity].
  apply has_false in Hfresh. rewrite Hfresh. reflexivity.
Qed.

Lemma has_assign (key : string) (source target : Fields) :
  Data.has key (Data.assign target source) =
  Data.has key source || Data.has key target.
Proof.
  unfold Data.assign.
  revert target. induction source as [|[k v] source IH]; intros target;
    [reflexivity|].
  simpl. rewrite IH, has_set.
  destruct (String.eqb k key), (Data.has key source); reflexivity.
Qed.

Lemma removeDeeplyUndefined_object (fields : Fields) :
  removeDeeplyUndefined (Data.object fields) = Data.object (cleaned fields).
Proof.
  rewrite removeDeeplyUndefined_nullified. simpl. f_equal. unfold cleaned.
  apply map_ext. intros [k v]. simpl.
  rewrite removeDeeplyUndefined_nullified. reflexivity.
Qed.

Lemma cleaned_keys (fields : Fields) : (cleaned fields).*1 = fields.*1.
Proof.
  induction fields as [|[k v] fields IH]; [reflexivity|].
  simpl. f_equal. exact IH.
Qed.

Lemma has_cleaned (key : string) (fields : Fields) :
  Data.has key (cleaned fields) = Data.has key fields.
Proof.
  induction fields as [|[k v] fields IH]; [reflexivity|].
  simpl. rewrite IH. reflexivity.
Qed.

Lemma get_cleaned (key : string) (fields : Fields) :
  Data.has key fields = true ->
  Data.get key (cleaned fields) = removeDeeplyUndefined (Data.get key fields).
Proof.
  induction fields as [|[k v] fields IH]; simpl; [discriminate|].
  destruct (String.eqb k key); simpl; [reflexivity|exact IH].
Qed.

Lemma cleaned_defined (fields : Fields) : allDefined (cleaned fields) = true.
Proof.
  induction fields as [|[k v] fields IH]; [reflexivity|].
  simpl. rewrite IH, andb_true_r.
  rewrite removeDeeplyUndefined_nullified. apply nullified_defined.
Qed.

End Fields.

Section Service.

Lemma allDefined_set (k : string) (value : Data.t) (fields : Fields) :
  Data.defined value = true -> allDefined fields = true ->
  allDefined (Data.set k value fields) = true.
Proof.
  intros Hvalue. unfold allDefined.
  induction fields as [|[k' v'] fields IH]; simpl.
  - intros _. rewrite Hvalue. reflexivity.
  - intros [Hv' Hrest]%andb_true_iff.
    destruct (String.eqb k' k); simpl.
    + rewrite Hvalue, Hrest. reflexivity.
    + rewrite Hv', IH by exact Hrest. reflexivity.
Qed.

Lemma allDefined_assign (source target : Fields) :
  allDefined target = true -> allDefined source = true ->
  allDefined (Data.assign target source) = true.
Proof.
  unfold Data.assign. revert target.
  induction source as [|[k v] source IH]; intros target Htarget Hsource;
    [exact Htarget|].
  apply andb_true_iff in Hsource as [Hv Hsource]. simpl.
  apply IH; [apply allDefined_set; assumption|exact Hsource].
Qed.

Lemma orElse_defined (key : string) (fields : Fields) (fallback : Data.t) :
  allDefined fields = true -> Data.defined fallback = true ->
  Data.defined (orElse (Data.get key fields) fallback) = true.
Proof.
  intros Hfields Hfallback. unfold orElse.
  destruct (Data.truthy (Data.get key fields)) eqn:Htruthy;
    [|exact Hfallback].
  induction fields as [|[k v] fields IH]; simpl in *; [discriminate|].
  apply andb_true_iff in Hfields as [Hv Hfields].
  destruct (String.eqb k key); [exact Hv|apply IH; assumption].
Qed.

Lemma assign_keys (source target : Fields) :
  NoDup target.*1 -> NoDup (Data.assign target source).*1.
Proof.
  unfold Data.assign. revert target.
  induction source as [|[k v] source IH]; intros target Htarget;
    [exact Htarget|].
  simpl. apply IH, set_keys, Htarget.
Qed.

Lemma requiredFields_keys (safeCandidate : Fields) :
  NoDup (requiredFields safeCandidate).*1.
Proof. apply (bool_decide_unpack _). vm_compute. exact I. Qed.

Lemma requiredFields_absent (key : string) (safeCandidate : Fields) :
  Data.has key safeCandidate = false ->
  Data.get key (requiredFields safeCandidate) =
  Data.get key (requiredFields []).
Proof.
  intros Habsent. unfold requiredFields. cbn [Data.get].
  repeat match goal with
         | |- context [String.eqb ?k key] =>
             destruct (String.eqb_spec k key) as [<-|_];
             [rewrite (get_absent _ _ Habsent); reflexivity|]
         end.
  reflexivity.
Qed.

(** What [getCandidate] makes of a stored object. *)
Lemma getCandidate_fields (db : Collection) (id : string) (data : Fields)
    (createdNow updatedNow : number) :
  db !! id = Some data -> NoDup data.*1 ->
  exists candidate,
    getCandidate db id createdNow updatedNow = Some (Some candidate) /\
    forall key,
      Data.get key candidate =
      if String.eqb "updatedAt" key
      then orElse (Data.get "updatedAt" data) (Data.number updatedNow)
      else if String.eqb "createdAt" key
      then orElse (Data.get "createdAt" data) (Data.number createdNow)
      else if Data.has key data then Data.get key data
      else if String.eqb "id" key then Data.string id
      else Data.undefined.
Proof.
  intros Hdata Hnodup. unfold getCandidate. rewrite Hdata.
  eexists. split; [reflexivity|].
  intros key. rewrite !get_set, get_assign by exact Hnodup.
  reflexivity.
Qed.

(** The fields of the object [createCandidate] stores. *)
Lemma stored_fields (candidateData : Fields) (createdNow updatedNow : number)
    (key : string) :
  NoDup candidateData.*1 ->
  Data.get key
    (Data.set "updatedAt" (Data.number updatedNow)
       (Data.set "createdAt" (Data.number createdNow)
          (Data.assign (requiredFields (cleaned candidateData))
             (cleaned candidateData)))) =
  if String.eqb "updatedAt" key then Data.number updatedNow
  else if String.eqb "createdAt" key then Data.number createdNow
  else if Data.has key candidateData
  then removeDeeplyUndefined (Data.get key candidateData)
  else Data.get key (requiredFields []).
Proof.
  intros Hnodup. rewrite !get_set, get_assign
    by (rewrite cleaned_keys; exact Hnodup).
  rewrite has_cleaned.
  destruct (Data.has key candidateData) eqn:Hhas.
  - rewrite get_cleaned by exact Hhas. reflexivity.
  - rewrite requiredFields_absent by (rewrite has_cleaned; exact Hhas).
    reflexivity.
Qed.

End Service.

(** X4. [createCandidate] fills in a default only for a field the
    caller leaves out: a field that is given is stored as cleaned by
    [removeDeeplyUndefined], also when it is empty, zero or [undefined]
    (stored as [null]). Both time stamps come from the service's clock
    whatever the caller sends, the stored object holds no [undefined],
    and the candidate returned is the stored object with the id of the
    new document. *)
Theorem createCandidate_defaults_only_absent_fields (db : Collection)
    (candidateData : Fields) (newId : string) (createdNow updatedNow : number) :
  NoDup candidateData.*1 ->
  exists returned stored,
    createCandidate db candidateData newId createdNow updatedNow =
      Some (returned, <[newId := stored]> db) /\
    Data.defined (Data.object stored) = true /\
    (forall key,
       Data.get key stored =
       if String.eqb "updatedAt" key then Data.number updatedNow
       else if String.eqb "createdAt" key then Data.number createdNow
       else if Data.has key candidateData
       then removeDeeplyUndefined (Data.get key candidateData)
       else Data.get key (requiredFields [])) /\
    (forall key,
       Data.get key returned =
       if String.eqb "id" key then Data.string newId
       else Data.get key stored).
Proof.
  intros Hnodup. unfold createCandidate.
  rewrite removeDeeplyUndefined_object.
  eexists _, _. split; [reflexivity|].
  split; [|split].
  - change (allDefined
              (Data.set "updatedAt" (Data.number updatedNow)
                 (Data.set "createdAt" (Data.number createdNow)
                    (Data.assign (requiredFields (cleaned candidateData))
                       (cleaned candidateData)))) = true).
    do 2 (apply allDefined_set; [reflexivity|]).
    apply allDefined_assign; [|apply cleaned_defined].
    unfold requiredFields, allDefined. cbn [forallb snd].
    rewrite !orElse_defined by (reflexivity || apply cleaned_defined).
    reflexivity.
  - intros key. apply stored_fields, Hnodup.
  - intros key. apply get_set.
Qed.

Lemma createCandidate_defaults_only_absent_fields_witness :
  exists returned stored,
    createCandidate ∅
      [("name", Data.undefined); ("email", Data.string "ada@example.org")]
      "c1" (ofZ 1000) (ofZ 1001) =
      Some (returned, <["c1" := stored]> ∅) /\
    Data.get "name" stored = Data.null /\
    Data.get "status" stored = Data.string "Active".
Proof.
  destruct (createCandidate_defaults_only_absent_fields ∅
              [("name", Data.undefined); ("email", Data.string "ada@example.org")]
              "c1" (ofZ 1000) (ofZ 1001))
    as (returned & stored & Hcreate & _ & Hstored & _).
  - apply (bool_decide_unpack _). vm_compute. exact I.
  - exists returned, stored. split; [exact Hcreate|].
    split; [exact (Hstored "name")|exact (Hstored "status")].
Defined.

(** X5. A candidate created from data without an [id] field, at a time
    the clock does not read zero, is read back by [getCandidate] with
    every field as [createCandidate] returned it. *)
Theorem created_candidate_is_read_back (db : Collection)
    (candidateData : Fields) (newId : string)
    (createdNow updatedNow laterCreated laterUpdated : number) :
  NoDup candidateData.*1 ->
  Data.has "id" candidateData = false ->
  truthy createdNow = true -> truthy updatedNow = true ->
  exists returned db' read,
    createCandidate db candidateData newId createdNow updatedNow =
      Some (returned, db') /\
    getCandidate db' newId laterCreated laterUpdated = Some (Some read) /\
    forall key, Data.get key read = Data.get key returned.
Proof.
  intros Hnodup Hid Hcreated Hupdated. unfold createCandidate.
  rewrite removeDeeplyUndefined_object.
  set (stored := Data.set "updatedAt" _ _).
  assert (Hkeys : NoDup stored.*1).
  { unfold stored. do 2 apply set_keys. apply assign_keys.
    apply requiredFields_keys. }
  destruct (getCandidate_fields (<[newId := stored]> db) newId stored
              laterCreated laterUpdated) as (read & Hread & Hfields);
    [apply lookup_insert_eq|exact Hkeys|].
  exists (Data.set "id" (Data.string newId) stored), (<[newId := stored]> db),
    read.
  split; [reflexivity|]. split; [exact Hread|].
  intros key. rewrite Hfields, get_set.
  assert (Hup : Data.get "updatedAt" stored = Data.number updatedNow).
  { unfold stored. rewrite get_set. reflexivity. }
  assert (Hcr : Data.get "createdAt" stored = Data.number createdNow).
  { unfold stored. rewrite !get_set. reflexivity. }
  assert (Hnoid : Data.has "id" stored = false).
  { unfold stored. rewrite !has_set, has_assign, has_cleaned, Hid.
    reflexivity. }
  rewrite Hup, Hcr. unfold orElse. cbn [Data.truthy].
  rewrite Hcreated, Hupdated.
  destruct (String.eqb_spec "updatedAt" key) as [<-|_]; [symmetry; exact Hup|].
  destruct (String.eqb_spec "createdAt" key) as [<-|_]; [symmetry; exact Hcr|].
  destruct (String.eqb_spec "id" key) as [<-|_].
  - rewrite Hnoid. reflexivity.
  - destruct (Data.has key stored) eqn:Hhas; [reflexivity|].
    symmetry. apply get_absent, Hhas.
Qed.

Lemma created_candidate_is_read_back_witness :
  exists returned db' read,
    createCandidate ∅ [("name", Data.string "Ada")] "c1" (ofZ 1000) (ofZ 1001) =
      Some (returned, db') /\
    getCandidate db' "c1" (ofZ 2000) (ofZ 2001) = Some (Some read) /\
    forall key, Data.get key read = Data.get key returned.
Proof.
  apply created_candidate_is_read_back.
  - apply (bool_decide_unpack _). vm_compute. exact I.
  - reflexivity.
  - reflexivity.
  - reflexivity.
Defined.

(** X6. [updateCandidate] changes the fields the update names, to
    their cleaned values, and [updatedAt], which it takes from its own
    clock whatever the update says; every other field stays as stored.
    For an id without document it fails. The candidate returned is the
    one [getCandidate] reads afterwards. *)
Theorem updateCandidate_changes_named_fields_only (db : Collection)
    (id : string) (updates : Fields) (now createdNow updatedNow : number) :
  NoDup updates.*1 ->
  Forall (fun key => isFieldName key = true) updates.*1 ->
  match db !! id with
  | None =>
      updateCandidate db id updates now createdNow updatedNow = None
  | Some old =>
      exists returned stored,
        updateCandidate db id updates now createdNow updatedNow =
          Some (returned, <[id := stored]> db) /\
        getCandidate (<[id := stored]> db) id createdNow updatedNow =
          Some (Some returned) /\
        forall key,
          Data.get key stored =
          if String.eqb "updatedAt" key then Data.number now
          else if Data.has key updates
          then removeDeeplyUndefined (Data.get key updates)
          else Data.get key old
  end.
Proof.
  intros Hnodup _. unfold updateCandidate, updateDoc.
  rewrite removeDeeplyUndefined_object.
  destruct (db !! id) as [old|] eqn:Hold; [|reflexivity].
  cbn [mbind option_bind]. unfold getCandidate at 1.
  rewrite lookup_insert_eq.
  eexists _, _. split; [reflexivity|].
  split; [unfold getCandidate; rewrite lookup_insert_eq; reflexivity|].
  intros key. rewrite get_assign
    by (apply set_keys; rewrite cleaned_keys; exact Hnodup).
  rewrite has_set, get_set, has_cleaned.
  destruct (String.eqb "updatedAt" key); cbn [orb]; [reflexivity|].
  destruct (Data.has key updates) eqn:Hhas; [|reflexivity].
  apply get_cleaned, Hhas.
Qed.

Lemma updateCandidate_changes_named_fields_only_witness :
  exists returned stored,
    updateCandidate
      (<["c1" := [("name", Data.string "Ada"); ("starRating", Data.number (ofZ 3))]]> ∅)
      "c1" [("starRating", Data.number (ofZ 5))]
      (ofZ 3000) (ofZ 3001) (ofZ 3002) =
      Some (returned,
            <["c1" := stored]>
              (<["c1" := [("name", Data.string "Ada");
                          ("starRating", Data.number (ofZ 3))]]> ∅)) /\
    Data.get "name" stored = Data.string "Ada" /\
    Data.get "starRating" stored = Data.number (ofZ 5).
Proof.
  pose proof (updateCandidate_changes_named_fields_only
                (<["c1" := [("name", Data.string "Ada");
                            ("starRating", Data.number (ofZ 3))]]> ∅)
                "c1" [("starRating", Data.number (ofZ 5))]
                (ofZ 3000) (ofZ 3001) (ofZ 3002)) as H.
  rewrite lookup_insert_eq in H.
  destruct H as (returned & stored & Hupdate & _ & Hstored).
  - apply (bool_decide_unpack _). vm_compute. exact I.
  - repeat constructor.
  - exists returned, stored. split; [exact Hupdate|].
    split; [exact (Hstored "name")|exact (Hstored "starRating")].
Defined.

(** X7. After [deleteCandidate] the candidate reads as [null] and can
    no longer be updated; the other candidates read as before, and
    deleting once more changes nothing. *)
Theorem deleted_candidate_is_gone (db : Collection) (id : string) :
  (forall createdNow updatedNow,
     getCandidate (deleteCandidate db id) id createdNow updatedNow =
       Some None) /\
  (forall updates now createdNow updatedNow,
     updateCandidate (deleteCandidate db id) id updates now
       createdNow updatedNow = None) /\
  (forall other createdNow updatedNow, other <> id ->
     getCandidate (deleteCandidate db id) other createdNow updatedNow =
     getCandidate db other createdNow updatedNow) /\
  deleteCandidate (deleteCandidate db id) id = deleteCandidate db id.
Proof.
  unfold deleteCandidate. split; [|split; [|split]].
  - intros createdNow updatedNow. unfold getCandidate.
    rewrite lookup_delete_eq. reflexivity.
  - intros updates now createdNow updatedNow. unfold updateCandidate.
    rewrite removeDeeplyUndefined_object. unfold updateDoc.
    rewrite lookup_delete_eq. reflexivity.
  - intros other createdNow updatedNow Hother. unfold getCandidate.
    rewrite lookup_delete_ne by congruence. reflexivity.
  - apply delete_delete_eq.
Qed.

(** ** Documents and the file store *)

Section Documents.

Lemma findIndex_first {A : Type} (predicate : A -> bool)
    (before after : list A) (x : A) :
  Forall (fun y => predicate y = false) before -> predicate x = true ->
  findIndex predicate (before ++ x :: after) = Some (length before).
Proof.
  intros Hbefore Hx.
  induction Hbefore as [|y before Hy _ IH]; simpl.
  - rewrite Hx. reflexivity.
  - rewrite Hy, IH. reflexivity.
Qed.

Lemma findIndex_none {A : Type} (predicate : A -> bool) (array : list A) :
  Forall (fun y => predicate y = false) array ->
  findIndex predicate array = None.
Proof.
  intros Harray. induction Harray as [|y array Hy _ IH]; simpl;
    [reflexivity|].
  rewrite Hy, IH. reflexivity.
Qed.

Lemma delete_middle {A : Type} (before after : list A) (x : A) :
  delete (length before) (before ++ x :: after) = before ++ after.
Proof. induction before as [|y before IH]; simpl; [|rewrite IH]; reflexivity. Qed.

Lemma append_inj (prefix s t : string) :
  prefix +:+ s = prefix +:+ t -> s = t.
Proof.
  induction prefix as [|c prefix IH]; simpl; [tauto|].
  intros H. injection H as H. apply IH, H.
Qed.

Lemma filePath_inj (candidateId : string) (documentType : DocumentType)
    (fileName fileName' : string) :
  filePath candidateId documentType fileName =
    filePath candidateId documentType fileName' ->
  fileName = fileName'.
Proof.
  unfold filePath. intros H.
  do 5 apply append_inj in H. exact H.
Qed.

End Documents.

Section DeleteDocument.

Lemma truthyString_inv (documentId : option string) (s : string) :
  truthyString documentId = Some s -> documentId = Some s /\ s <> "".
Proof.
  destruct documentId as [[|c t]|]; simpl; [discriminate| |discriminate].
  intros [= <-]. split; [reflexivity|discriminate].
Qed.

(** The deletion of a note or a transcript, at the place where the id
    is found first. *)
Lemma delete_from_array (storage : gset string)
    (db : gmap string Candidate.t) (candidateId : string)
    (candidateData : Candidate.t) (documentType : DocumentType)
    (documentId : string) (before after : list DocumentInfo.t)
    (doc : DocumentInfo.t) :
  db !! candidateId = Some candidateData ->
  documentType = notes \/ documentType = transcripts ->
  documentId <> "" ->
  arrayOf (documentsOf candidateData) documentType =
    Some (before ++ doc :: after) ->
  DocumentInfo.id doc = documentId ->
  Forall (fun d => DocumentInfo.id d <> documentId) before ->
  deleteCandidateDocument storage db candidateId documentType
    (Some documentId) =
  Some (storage ∖ {[filePath candidateId documentType documentId]},
        <[candidateId :=
            withDocuments candidateData
              (withArray (documentsOf candidateData) documentType
                 (before ++ after))]> db).
Proof.
  intros Hdata Htype Hid Harray Hdoc Hbefore.
  unfold deleteCandidateDocument. rewrite Hdata.
  fold (documentsOf candidateData).
  assert (Htruthy : truthyString (Some documentId) = Some documentId)
    by (destruct documentId; [congruence|reflexivity]).
  assert (Hindex :
    findIndex (fun d => String.eqb (DocumentInfo.id d) documentId)
      (before ++ doc :: after) = Some (length before)).
  { apply findIndex_first.
    - eapply Forall_impl; [exact Hbefore|]. intros d Hd. simpl in Hd.
      apply String.eqb_neq, Hd.
    - apply String.eqb_eq, Hdoc. }
  assert (Hlookup : (before ++ doc :: after) !! length before = Some doc)
    by apply list_lookup_middle, eq_refl.
  destruct Htype as [-> | ->]; rewrite Htruthy, Harray, Hindex, Hlookup;
    cbv zeta; rewrite delete_middle, Hdoc; reflexivity.
Qed.

Lemma documentsOf_withDocuments (candidateData : Candidate.t)
    (documents : CandidateDocuments.t) :
  documentsOf (withDocuments candidateData documents) = documents.
Proof. reflexivity. Qed.

Lemma arrayOf_withArray (documents : CandidateDocuments.t)
    (documentType other : DocumentType) (array : list DocumentInfo.t) :
  documentType = notes \/ documentType = transcripts ->
  arrayOf (withArray documents documentType array) other =
  if documentTypeEqb other documentType then Some array
  else arrayOf documents other.
Proof. intros [-> | ->]; destruct other; reflexivity. Qed.

Lemma singleOf_withArray (documents : CandidateDocuments.t)
    (documentType other : DocumentType) (array : list DocumentInfo.t) :
  singleOf (withArray documents documentType array) other =
  singleOf documents other.
Proof. destruct documentType, other; reflexivity. Qed.

Lemma arrayOf_putDocument (documents : CandidateDocuments.t)
    (documentType other : DocumentType) (documentInfo : DocumentInfo.t) :
  documentType = notes \/ documentType = transcripts ->
  arrayOf (putDocument documents documentType documentInfo) other =
  if documentTypeEqb other documentType
  then Some (default [] (arrayOf documents documentType) ++ [documentInfo])
  else arrayOf documents other.
Proof. intros [-> | ->]; destruct other; reflexivity. Qed.

Lemma documentTypeEqb_eq (s t : DocumentType) :
  documentTypeEqb s t = true <-> s = t.
Proof. destruct s, t; simpl; split; congruence. Qed.

End DeleteDocument.

(** X8. Deleting a note or a transcript by its id takes out the first
    document of the array that has this id, and only that one: the
    documents before and after it stay, in their order. The file removed
    from the file store is the one at the path made of that id; the
    other kinds of documents and the other candidates are untouched. *)
Theorem deleteCandidateDocument_removes_first_match
    (storage : gset string) (db : gmap string Candidate.t)
    (candidateId : string) (candidateData : Candidate.t)
    (documentType : DocumentType) (documentId : string)
    (before after : list DocumentInfo.t) (doc : DocumentInfo.t) :
  db !! candidateId = Some candidateData ->
  documentType = notes \/ documentType = transcripts ->
  documentId <> "" ->
  arrayOf (documentsOf candidateData) documentType =
    Some (before ++ doc :: after) ->
  DocumentInfo.id doc = documentId ->
  Forall (fun d => DocumentInfo.id d <> documentId) before ->
  exists db' candidate',
    deleteCandidateDocument storage db candidateId documentType
      (Some documentId) =
      Some (storage ∖ {[filePath candidateId documentType documentId]}, db') /\
    db' !! candidateId = Some candidate' /\
    arrayOf (documentsOf candidate') documentType = Some (before ++ after) /\
    (forall other, other <> documentType ->
       arrayOf (documentsOf candidate') other =
       arrayOf (documentsOf candidateData) other) /\
    (forall other,
       singleOf (documentsOf candidate') other =
       singleOf (documentsOf candidateData) other) /\
    (forall otherId, otherId <> candidateId -> db' !! otherId = db !! otherId).
Proof.
  intros Hdata Htype Hid Harray Hdoc Hbefore.
  set (candidate' :=
         withDocuments candidateData
           (withArray (documentsOf candidateData) documentType
              (before ++ after))).
  exists (<[candidateId := candidate']> db), candidate'.
  split; [apply (delete_from_array _ _ _ _ _ _ before after doc); assumption|].
  subst candidate'.
  split; [apply lookup_insert_eq|].
  rewrite documentsOf_withDocuments.
  split; [|split; [|split]].
  - rewrite arrayOf_withArray by exact Htype.
    destruct documentType; reflexivity.
  - intros other Hother. rewrite arrayOf_withArray by exact Htype.
    destruct (documentTypeEqb other documentType) eqn:Heq; [|reflexivity].
    apply documentTypeEqb_eq in Heq. contradiction.
  - intros other. apply singleOf_withArray.
  - intros otherId Hother. apply lookup_insert_ne. congruence.
Qed.

Lemma deleteCandidateDocument_removes_first_match_witness :
  exists db' candidate',
    deleteCandidateDocument sampleStorage sampleStore "a1" notes
      (Some (DocumentInfo.id followUpNote)) =
      Some (sampleStorage ∖
              {[filePath "a1" notes (DocumentInfo.id followUpNote)]}, db') /\
    db' !! "a1" = Some candidate' /\
    arrayOf (documentsOf candidate') notes = Some ([screenNote] ++ []) /\
    (forall other, other <> notes ->
       arrayOf (documentsOf candidate') other =
       arrayOf (documentsOf withFiles) other) /\
    (forall other,
       singleOf (documentsOf candidate') other =
       singleOf (documentsOf withFiles) other) /\
    (forall otherId, otherId <> "a1" -> db' !! otherId = sampleStore !! otherId).
Proof.
  apply (deleteCandidateDocument_removes_first_match sampleStorage sampleStore
           "a1" withFiles notes (DocumentInfo.id followUpNote)
           [screenNote] [] followUpNote).
  - reflexivity.
  - left. reflexivity.
  - discriminate.
  - reflexivity.
  - reflexivity.
  - repeat constructor. discriminate.
Defined.

(** X9. When there is nothing to delete, [deleteCandidateDocument]
    succeeds and changes neither the collection nor the file store: no
    resume or cover letter in the slot, no document id given (or an
    empty one), no array of that kind, or no document with that id. *)
Theorem deleteCandidateDocument_without_match_changes_nothing
    (storage : gset string) (db : gmap string Candidate.t)
    (candidateId : string) (candidateData : Candidate.t)
    (documentType : DocumentType) (documentId : option string) :
  db !! candidateId = Some candidateData ->
  match documentType with
  | resume | coverLetter =>
      singleOf (documentsOf candidateData) documentType = None
  | notes | transcripts =>
      truthyString documentId = None \/
      Forall (fun d => Some (DocumentInfo.id d) <> documentId)
        (default [] (arrayOf (documentsOf candidateData) documentType))
  end ->
  deleteCandidateDocument storage db candidateId documentType documentId =
  Some (storage, db).
Proof.
  intros Hdata Hnothing.
  unfold deleteCandidateDocument. rewrite Hdata.
  fold (documentsOf candidateData).
  assert (Harray : forall array s,
            truthyString documentId = Some s ->
            Forall (fun d => Some (DocumentInfo.id d) <> documentId) array ->
            findIndex (fun d => String.eqb (DocumentInfo.id d) s) array = None).
  { intros array s [-> _]%truthyString_inv Hall. apply findIndex_none.
    eapply Forall_impl; [exact Hall|]. intros d Hd. simpl in Hd.
    apply String.eqb_neq. congruence. }
  destruct documentType.
  - rewrite Hnothing. reflexivity.
  - rewrite Hnothing. reflexivity.
  - destruct (truthyString documentId) as [s|] eqn:Hs; [|reflexivity].
    destruct Hnothing as [Hnone|Hall]; [discriminate|].
    destruct (arrayOf _ notes) as [array|]; [|reflexivity].
    rewrite (Harray array s eq_refl Hall). reflexivity.
  - destruct (truthyString documentId) as [s|] eqn:Hs; [|reflexivity].
    destruct Hnothing as [Hnone|Hall]; [discriminate|].
    destruct (arrayOf _ transcripts) as [array|]; [|reflexivity].
    rewrite (Harray array s eq_refl Hall). reflexivity.
Qed.

Lemma deleteCandidateDocument_without_match_changes_nothing_witness :
  deleteCandidateDocument sampleStorage sampleStore "a1" notes
    (Some "a1_notes_1.pdf") = Some (sampleStorage, sampleStore).
Proof.
  apply (deleteCandidateDocument_without_match_changes_nothing sampleStorage
           sampleStore "a1" withFiles notes (Some "a1_notes_1.pdf")).
  - reflexivity.
  - right. repeat constructor; discriminate.
Defined.

(** X10. For a resume or a cover letter the document id plays no part:
    whatever id is passed, the document in the slot is the one deleted.
    The slot is left empty, its file is removed from the file store, and
    every other document of the candidate stays. *)
Theorem deleteCandidateDocument_clears_single_slot
    (storage : gset string) (db : gmap string Candidate.t)
    (candidateId : string) (candidateData : Candidate.t)
    (documentType : DocumentType) (documentId : option string)
    (old : DocumentInfo.t) :
  db !! candidateId = Some candidateData ->
  singleOf (documentsOf candidateData) documentType = Some old ->
  exists db' candidate',
    deleteCandidateDocument storage db candidateId documentType documentId =
      Some (storage ∖ {[filePath candidateId documentType (DocumentInfo.id old)]},
            db') /\
    db' !! candidateId = Some candidate' /\
    singleOf (documentsOf candidate') documentType = None /\
    (forall other, other <> documentType ->
       singleOf (documentsOf candidate') other =
       singleOf (documentsOf candidateData) other) /\
    (forall other,
       arrayOf (documentsOf candidate') other =
       arrayOf (documentsOf candidateData) other) /\
    (forall otherId, otherId <> candidateId -> db' !! otherId = db !! otherId).
Proof.
  intros Hdata Hold.
  unfold deleteCandidateDocument. rewrite Hdata.
  fold (documentsOf candidateData).
  destruct documentType; try discriminate Hold; rewrite Hold; cbv zeta;
    (eexists _, _; split; [reflexivity|];
     split; [apply lookup_insert_eq|];
     rewrite documentsOf_withDocuments;
     split; [reflexivity|]; split; [|split];
     [ intros [] Hother; solve [reflexivity | contradiction]
     | intros []; reflexivity
     | intros otherId Hother; apply lookup_insert_ne; congruence ]).
Qed.

Lemma deleteCandidateDocument_clears_single_slot_witness :
  exists db' candidate',
    deleteCandidateDocument sampleStorage sampleStore "a1" resume
      (Some "some-other-id") =
      Some (sampleStorage ∖
              {[filePath "a1" resume (DocumentInfo.id firstResume)]}, db') /\
    db' !! "a1" = Some candidate' /\
    singleOf (documentsOf candidate') resume = None /\
    (forall other, other <> resume ->
       singleOf (documentsOf candidate') other =
       singleOf (documentsOf withFiles) other) /\
    (forall other,
       arrayOf (documentsOf candidate') other =
       arrayOf (documentsOf withFiles) other) /\
    (forall otherId, otherId <> "a1" -> db' !! otherId = sampleStore !! otherId).
Proof.
  apply (deleteCandidateDocument_clears_single_slot sampleStorage sampleStore
           "a1" withFiles resume (Some "some-other-id") firstResume).
  - reflexivity.
  - reflexivity.
Defined.

Section UploadAndDelete.

Lemma uploadName_nonempty (candidateId : string) (file : File.t)
    (documentType : DocumentType) (nameTime : Z) :
  uploadName candidateId file documentType nameTime <> "".
Proof. unfold uploadName. cbv zeta. destruct candidateId; discriminate. Qed.

Lemma upload_found (storage : gset string) (db : gmap string Candidate.t)
    (candidateId : string) (candidateData : Candidate.t) (file : File.t)
    (documentType : DocumentType) (nameTime uploadTime : Z)
    (downloadURL : string) :
  db !! candidateId = Some candidateData ->
  exists documentInfo,
    DocumentInfo.id documentInfo =
      uploadName candidateId file documentType nameTime /\
    uploadToStorage storage db candidateId file documentType nameTime
      uploadTime downloadURL =
    ({[filePath candidateId documentType
         (uploadName candidateId file documentType nameTime)]} ∪ storage,
     Some (documentInfo,
           <[candidateId :=
               withDocuments candidateData
                 (putDocument (documentsOf candidateData) documentType
                    documentInfo)]> db)).
Proof.
  intros Hdata. unfold uploadToStorage, uploadCandidateDocument.
  rewrite Hdata. cbv zeta. eexists. split; [|reflexivity]. reflexivity.
Qed.

End UploadAndDelete.

(** X11. Uploading a note or a transcript and then deleting it by the
    id the upload returned gives back the candidate's documents as they
    were and the file store as it was, provided no document of that
    array already bears the new id and no file is stored at the new
    path. *)
Theorem upload_then_delete_restores_documents
    (storage : gset string) (db : gmap string Candidate.t)
    (candidateId : string) (candidateData : Candidate.t) (file : File.t)
    (documentType : DocumentType) (nameTime uploadTime : Z)
    (downloadURL : string) :
  db !! candidateId = Some candidateData ->
  documentType = notes \/ documentType = transcripts ->
  Forall (fun d => DocumentInfo.id d <>
                   uploadName candidateId file documentType nameTime)
    (default [] (arrayOf (documentsOf candidateData) documentType)) ->
  filePath candidateId documentType
    (uploadName candidateId file documentType nameTime) ∉ storage ->
  exists documentInfo storage1 db1 db2 candidate2,
    uploadToStorage storage db candidateId file documentType nameTime
      uploadTime downloadURL = (storage1, Some (documentInfo, db1)) /\
    deleteCandidateDocument storage1 db1 candidateId documentType
      (Some (DocumentInfo.id documentInfo)) = Some (storage, db2) /\
    db2 !! candidateId = Some candidate2 /\
    allDocuments (documentsOf candidate2) =
      allDocuments (documentsOf candidateData) /\
    (forall otherId, otherId <> candidateId -> db2 !! otherId = db !! otherId).
Proof.
  intros Hdata Htype Hfresh Hpath.
  destruct (upload_found storage db candidateId candidateData file
              documentType nameTime uploadTime downloadURL Hdata)
    as (documentInfo & Hid & Hupload).
  set (fileName := uploadName candidateId file documentType nameTime) in *.
  set (before := default [] (arrayOf (documentsOf candidateData) documentType))
    in *.
  set (candidate1 :=
         withDocuments candidateData
           (putDocument (documentsOf candidateData) documentType documentInfo))
    in *.
  set (candidate2 :=
         withDocuments candidate1
           (withArray (documentsOf candidate1) documentType (before ++ []))).
  exists documentInfo, ({[filePath candidateId documentType fileName]} ∪ storage),
    (<[candidateId := candidate1]> db),
    (<[candidateId := candidate2]> (<[candidateId := candidate1]> db)),
    candidate2.
  split; [exact Hupload|].
  split.
  { rewrite (delete_from_array _ _ _ candidate1 _ _ before [] documentInfo).
    - rewrite Hid. f_equal. f_equal. unfold deleteObject.
      apply set_eq. intros path.
      rewrite elem_of_difference, elem_of_union, elem_of_singleton.
      split; [tauto|]. intros Hin.
      split; [right; exact Hin|]. intros ->. contradiction.
    - apply lookup_insert_eq.
    - exact Htype.
    - rewrite Hid. apply uploadName_nonempty.
    - unfold candidate1. rewrite documentsOf_withDocuments.
      rewrite arrayOf_putDocument by exact Htype.
      destruct documentType; reflexivity.
    - reflexivity.
    - rewrite Hid. exact Hfresh. }
  split; [apply lookup_insert_eq|].
  split.
  - unfold candidate2, candidate1, before.
    rewrite !documentsOf_withDocuments, app_nil_r.
    destruct Htype as [-> | ->];
      destruct (documentsOf candidateData) as [r c [n|] [t|]]; reflexivity.
  - intros otherId Hother. rewrite !lookup_insert_ne by congruence.
    reflexivity.
Qed.

Lemma upload_then_delete_restores_documents_witness :
  exists documentInfo storage1 db1 db2 candidate2,
    uploadToStorage sampleStorage sampleStore "a1" sampleFile notes
      1700000120000 1700000120005 "https://files.example.com/a1/notes/3" =
      (storage1, Some (documentInfo, db1)) /\
    deleteCandidateDocument storage1 db1 "a1" notes
      (Some (DocumentInfo.id documentInfo)) = Some (sampleStorage, db2) /\
    db2 !! "a1" = Some candidate2 /\
    allDocuments (documentsOf candidate2) =
      allDocuments (documentsOf withFiles) /\
    (forall otherId, otherId <> "a1" -> db2 !! otherId = sampleStore !! otherId).
Proof.
  apply (upload_then_delete_restores_documents sampleStorage sampleStore "a1"
           withFiles sampleFile notes).
  - reflexivity.
  - left. reflexivity.
  - repeat constructor; vm_compute; discriminate.
  - apply (bool_decide_unpack _). vm_compute. exact I.
Defined.

(** X12. A resume or a cover letter that is replaced by a new upload
    leaves its file behind: after the upload, and also after the
    deletion of the new document, the old file is still in the file
    store while the candidate has no document in that slot. *)
Theorem replaced_file_stays_in_storage
    (storage : gset string) (db : gmap string Candidate.t)
    (candidateId : string) (candidateData : Candidate.t) (file : File.t)
    (documentType : DocumentType) (nameTime uploadTime : Z)
    (downloadURL : string) (old : DocumentInfo.t) :
  db !! candidateId = Some candidateData ->
  singleOf (documentsOf candidateData) documentType = Some old ->
  DocumentInfo.id old <> uploadName candidateId file documentType nameTime ->
  filePath candidateId documentType (DocumentInfo.id old) ∈ storage ->
  exists documentInfo storage1 db1 storage2 db2 candidate2,
    uploadToStorage storage db candidateId file documentType nameTime
      uploadTime downloadURL = (storage1, Some (documentInfo, db1)) /\
    filePath candidateId documentType (DocumentInfo.id old) ∈ storage1 /\
    deleteCandidateDocument storage1 db1 candidateId documentType None =
      Some (storage2, db2) /\
    db2 !! candidateId = Some candidate2 /\
    singleOf (documentsOf candidate2) documentType = None /\
    filePath candidateId documentType (DocumentInfo.id old) ∈ storage2.
Proof.
  intros Hdata Hold Hnew Hstored.
  destruct (upload_found storage db candidateId candidateData file
              documentType nameTime uploadTime downloadURL Hdata)
    as (documentInfo & Hid & Hupload).
  set (fileName := uploadName candidateId file documentType nameTime) in *.
  set (candidate1 :=
         withDocuments candidateData
           (putDocument (documentsOf candidateData) documentType documentInfo))
    in *.
  assert (Hpaths : filePath candidateId documentType (DocumentInfo.id old) <>
                   filePath candidateId documentType fileName).
  { intros Heq. apply Hnew. eapply filePath_inj, Heq. }
  exists documentInfo, ({[filePath candidateId documentType fileName]} ∪ storage),
    (<[candidateId := candidate1]> db).
  unfold deleteCandidateDocument. rewrite lookup_insert_eq.
  fold (documentsOf candidate1). unfold candidate1 at 1 2.
  rewrite documentsOf_withDocuments.
  destruct documentType; try discriminate Hold;
    cbn [singleOf putDocument CandidateDocuments.resume
         CandidateDocuments.coverLetter];
    cbv zeta;
    (eexists _, _, _; split; [exact Hupload|];
     split; [set_solver|]; split; [reflexivity|];
     split; [apply lookup_insert_eq|]; split; [reflexivity|];
     rewrite Hid; unfold deleteObject; set_solver).
Qed.

Lemma replaced_file_stays_in_storage_witness :
  exists documentInfo storage1 db1 storage2 db2 candidate2,
    uploadToStorage sampleStorage sampleStore "a1" sampleFile resume
      1700000120000 1700000120005 "https://files.example.com/a1/resume/2" =
      (storage1, Some (documentInfo, db1)) /\
    filePath "a1" resume (DocumentInfo.id firstResume) ∈ storage1 /\
    deleteCandidateDocument storage1 db1 "a1" resume None =
      Some (storage2, db2) /\
    db2 !! "a1" = Some candidate2 /\
    singleOf (documentsOf candidate2) resume = None /\
    filePath "a1" resume (DocumentInfo.id firstResume) ∈ storage2.
Proof.
  apply (replaced_file_stays_in_storage sampleStorage sampleStore "a1"
           withFiles sampleFile resume 1700000120000 1700000120005
           "https://files.example.com/a1/resume/2" firstResume).
  - reflexivity.
  - reflexivity.
  - vm_compute. discriminate.
  - apply (bool_decide_unpack _). vm_compute. exact I.
Defined.

(** X13. An upload for a candidate that is not in the collection fails,
    but only after the file has been stored: the file is in the file
    store afterwards, the collection is as before, and
    [deleteCandidateDocument] fails for this candidate too, whatever
    document it is asked to delete. *)
Theorem upload_for_unknown_candidate_leaves_file
    (storage : gset string) (db : gmap string Candidate.t)
    (candidateId : string) (file : File.t) (documentType : DocumentType)
    (nameTime uploadTime : Z) (downloadURL : string) :
  db !! candidateId = None ->
  exists storage',
    uploadToStorage storage db candidateId file documentType nameTime
      uploadTime downloadURL = (storage', None) /\
    filePath candidateId documentType
      (uploadName candidateId file documentType nameTime) ∈ storage' /\
    forall kind documentId,
      deleteCandidateDocument storage' db candidateId kind documentId = None.
Proof.
  intros Hdata. unfold uploadToStorage, uploadCandidateDocument.
  rewrite Hdata. eexists. split; [reflexivity|].
  split; [unfold uploadBytes; set_solver|].
  intros kind documentId. unfold deleteCandidateDocument.
  rewrite Hdata. reflexivity.
Qed.

Lemma upload_for_unknown_candidate_leaves_file_witness :
  exists storage',
    uploadToStorage ∅ sampleStore "b2" sampleFile notes 1700000120000
      1700000120005 "https://files.example.com/b2/notes/1" = (storage', None) /\
    filePath "b2" notes (uploadName "b2" sampleFile notes 1700000120000)
      ∈ storage' /\
    forall kind documentId,
      deleteCandidateDocument storage' sampleStore "b2" kind documentId = None.
Proof.
  apply upload_for_unknown_candidate_leaves_file. reflexivity.
Defined.

(** ** The selection of the dashboard page *)

Section Selection.

Lemma handleCandidateSelect_invariant (selectedCandidates : list Candidate.t)
    (candidate : Candidate.t) :
  (length selectedCandidates <= 3)%nat ->
  NoDup (map Candidate.id selectedCandidates) ->
  (length (handleCandidateSelect selectedCandidates candidate).1 <= 3)%nat /\
  NoDup (map Candidate.id (handleCandidateSelect selectedCandidates candidate).1).
Proof.
  intros Hlength Hnodup. unfold handleCandidateSelect.
  destruct (existsb (sameId candidate) selectedCandidates) eqn:Hselected;
    cbn [fst].
  - split.
    + etransitivity; [apply sublist_length, filter_sublist|exact Hlength].
    + clear Hlength Hselected.
      induction selectedCandidates as [|c rest IH]; [constructor|].
      simpl in *. apply NoDup_cons in Hnodup as [Hfresh Hnodup].
      destruct (negb (sameId candidate c)); [|apply IH, Hnodup].
      simpl. apply NoDup_cons. split; [|apply IH, Hnodup].
      intros Hin. apply Hfresh.
      apply list_elem_of_fmap in Hin as (c' & -> & Hc').
      apply list_elem_of_fmap. exists c'. split; [reflexivity|].
      apply list_elem_of_In, filter_In in Hc' as [Hc' _].
      apply list_elem_of_In, Hc'.
  - destruct (length selectedCandidates <? 3)%nat eqn:Hroom; cbn [fst];
      [|split; assumption].
    apply Nat.ltb_lt in Hroom. split.
    + rewrite length_app. simpl. lia.
    + rewrite map_app. simpl. apply NoDup_app. split; [exact Hnodup|].
      split; [|apply NoDup_singleton].
      intros id Hid ->%list_elem_of_singleton.
      apply list_elem_of_fmap in Hid as (c & Hc & Hin).
      assert (existsb (sameId candidate) selectedCandidates = true)
        as Hyes; [|congruence].
      apply existsb_exists. exists c. split; [apply list_elem_of_In, Hin|].
      unfold sameId. apply String.eqb_eq. congruence.
Qed.

End Selection.

(** X14. Whatever the user does on the page (select or deselect
    candidates, clear the selection, open or close the comparison, in
    any order and any number of times), at most three candidates are
    selected and no two of them have the same id; and when the
    comparison is then opened without an alert, two or three candidates
    are selected. *)
Theorem selection_holds_at_most_three_distinct (events : list PageEvent) :
  let state := fold_left pageStep events initialPage in
  (length state.1 <= 3)%nat /\
  NoDup (map Candidate.id state.1) /\
  (forall showComparison,
     (openComparison state.1 showComparison).2 = false ->
     (2 <= length state.1 <= 3)%nat).
Proof.
  cbv zeta.
  assert (Hinv : (length (fold_left pageStep events initialPage).1 <= 3)%nat /\
                 NoDup (map Candidate.id (fold_left pageStep events initialPage).1)).
  { unfold initialPage.
    assert (Hstart : (length (@nil Candidate.t) <= 3)%nat /\
                     NoDup (map Candidate.id [])) by (split; [simpl; lia|constructor]).
    revert Hstart. generalize (@nil Candidate.t) as selected.
    generalize false as shown.
    induction events as [|event events IH]; intros shown selected Hstart;
      [exact Hstart|].
    simpl. destruct event as [candidate| | |]; apply IH.
    - apply handleCandidateSelect_invariant; apply Hstart.
    - split; [simpl; lia|constructor].
    - exact Hstart.
    - exact Hstart. }
  destruct Hinv as [Hlength Hnodup].
  split; [exact Hlength|]. split; [exact Hnodup|].
  intros showComparison. unfold openComparison.
  destruct (2 <=? length _)%nat eqn:Hopen; [|discriminate].
  intros _. apply Nat.leb_le in Hopen. lia.
Qed.

(** X15. Clicking a candidate that is not selected, while fewer than
    three are, and clicking it again gives back the selection as it was,
    without an alert; with three selected the click changes nothing and
    the alert is shown. *)
Theorem select_then_deselect_restores_selection
    (selectedCandidates : list Candidate.t) (candidate : Candidate.t) :
  existsb (sameId candidate) selectedCandidates = false ->
  if (length selectedCandidates <? 3)%nat
  then
    handleCandidateSelect
      (handleCandidateSelect selectedCandidates candidate).1 candidate =
      (selectedCandidates, false)
  else
    handleCandidateSelect selectedCandidates candidate =
      (selectedCandidates, true).
Proof.
  intros Hnew. unfold handleCandidateSelect at 2 3. rewrite Hnew.
  destruct (length selectedCandidates <? 3)%nat; [|reflexivity].
  cbn [fst]. unfold handleCandidateSelect.
  rewrite existsb_app. simpl. unfold sameId at 2.
  rewrite String.eqb_refl, orb_true_r.
  f_equal. rewrite List.filter_app. simpl. unfold sameId at 2.
  rewrite String.eqb_refl. simpl. rewrite app_nil_r.
  induction selectedCandidates as [|c rest IH]; [reflexivity|].
  simpl in *. apply orb_false_iff in Hnew as [Hc Hrest].
  rewrite Hc. simpl. f_equal. apply IH, Hrest.
Qed.

Lemma select_then_deselect_restores_selection_witness :
  handleCandidateSelect
    (handleCandidateSelect [scored "a" 7; scored "b" 8] (scored "c" 9)).1
    (scored "c" 9) = ([scored "a" 7; scored "b" 8], false).
Proof.
  apply (select_then_deselect_restores_selection
           [scored "a" 7; scored "b" 8] (scored "c" 9)).
  reflexivity.
Defined.

(** ** The score sliders of the candidate form *)

Section Sliders.

Lemma loop_setScore (weights : CategoryWeights) (scores : CategoryScores)
    (category : string) (value : number) (acc : number * Total) :
  weightTruthy (weightAt weights category) = false ->
  fold_left (accumulate weights) (setScore scores category value) acc =
  fold_left (accumulate weights) scores acc.
Proof.
  intros Hweight.
  assert (Hskip : forall v acc, accumulate weights acc (category, v) = acc).
  { intros v [sum total]. unfold accumulate. rewrite Hweight. reflexivity. }
  revert acc. induction scores as [|[k v] rest IH]; intros acc; simpl.
  - apply Hskip.
  - destruct (String.eqb_spec k category) as [->|Hk]; simpl.
    + rewrite !Hskip. reflexivity.
    + apply IH.
Qed.

(** The category that was set is among the scores afterwards. *)
Lemma setScore_elem (scores : CategoryScores) (category : string)
    (value : number) :
  Exists (fun entry => entry.1 = category) (setScore scores category value).
Proof.
  induction scores as [|[k v] rest IH]; simpl.
  - constructor. reflexivity.
  - destruct (String.eqb_spec k category) as [->|Hk].
    + constructor. reflexivity.
    + apply Exists_cons_tl, IH.
Qed.

Lemma setScore_slider (t c e f : Z) (category : string) (v : Z) :
  category ∈ standardCategories ->
  exists t' c' e' f',
    setScore (sliderScores t c e f) category (ofZ v) =
      sliderScores t' c' e' f' /\
    ((0 <= t <= 10 -> 0 <= v <= 10 -> 0 <= t' <= 10) /\
     (0 <= c <= 10 -> 0 <= v <= 10 -> 0 <= c' <= 10) /\
     (0 <= e <= 10 -> 0 <= v <= 10 -> 0 <= e' <= 10) /\
     (0 <= f <= 10 -> 0 <= v <= 10 -> 0 <= f' <= 10)).
Proof.
  unfold standardCategories. rewrite !elem_of_cons, elem_of_nil.
  intros [-> | [-> | [-> | [-> | []]]]].
  - exists v, c, e, f. split; [reflexivity|tauto].
  - exists t, v, e, f. split; [reflexivity|tauto].
  - exists t, c, v, f. split; [reflexivity|tauto].
  - exists t, c, e, v. split; [reflexivity|tauto].
Qed.

Lemma moves_slider (moves : list (string * Z)) :
  Forall (fun move => move.1 ∈ standardCategories /\ 0 <= move.2 <= 10) moves ->
  forall t c e f,
    0 <= t <= 10 -> 0 <= c <= 10 -> 0 <= e <= 10 -> 0 <= f <= 10 ->
    exists t' c' e' f',
      fold_left
        (fun scores move => (handleScoreChange scores move.1 (ofZ move.2)).1)
        moves (sliderScores t c e f) = sliderScores t' c' e' f' /\
      0 <= t' <= 10 /\ 0 <= c' <= 10 /\ 0 <= e' <= 10 /\ 0 <= f' <= 10.
Proof.
  intros Hmoves.
  induction Hmoves as [|[category v] moves [Hcategory Hv] _ IH];
    intros t c e f Ht Hc He Hf.
  - exists t, c, e, f. split; [reflexivity|tauto].
  - cbn [fold_left handleScoreChange fst snd] in *.
    destruct (setScore_slider t c e f category v Hcategory)
      as (t' & c' & e' & f' & -> & Ht' & Hc' & He' & Hf').
    apply IH; auto.
Qed.

Lemma afterMoves_slider (moves : list (string * Z)) :
  Forall (fun move => move.1 ∈ standardCategories /\ 0 <= move.2 <= 10) moves ->
  exists t c e f,
    afterMoves moves = sliderScores t c e f /\
    0 <= t <= 10 /\ 0 <= c <= 10 /\ 0 <= e <= 10 /\ 0 <= f <= 10.
Proof.
  intros Hmoves. apply (moves_slider moves Hmoves 0 0 0 0); lia.
Qed.

End Sliders.

(** X16. In the form for a new candidate, after any moves of the four
    score sliders (whole positions from 0 to 10), the overall score is a
    whole number of tenths, and one that is as near to the exact
    weighted mean (weights 0.4, 0.25, 0.25, 0.1) as a tenth can be. When
    the exact mean lies halfway between two tenths either of them can
    come out: the positions 0, 0, 1, 1 (exact mean 0.35) give 0.3, the
    positions 8, 6, 7, 9 (exact mean 7.35) give 7.4. *)
Theorem slider_scores_give_a_nearest_tenth :
  (forall moves : list (string * Z),
     Forall (fun move => move.1 ∈ standardCategories /\ 0 <= move.2 <= 10)
       moves ->
     exists (t c e f : Z) (k : N),
       afterMoves moves = sliderScores t c e f /\
       calculateOverallScore (afterMoves moves) DEFAULT_WEIGHTS =
         parseFloat (FixedDecimal false k) /\
       Z.abs (10 * Z.of_N k - hundredths t c e f) <= 5 /\
       (k <= 100)%N) /\
  calculateOverallScore (sliderScores 0 0 1 1) DEFAULT_WEIGHTS =
    parseFloat (FixedDecimal false 3) /\
  calculateOverallScore (sliderScores 8 6 7 9) DEFAULT_WEIGHTS =
    parseFloat (FixedDecimal false 74).
Proof.
  split; [|split; vm_compute; reflexivity].
  intros moves Hmoves.
  destruct (afterMoves_slider moves Hmoves)
    as (t & c & e & f & Hscores & Ht & Hc & He & Hf).
  destruct (slider_overall t c e f Ht Hc He Hf) as (k & Hk & Hnear).
  exists t, c, e, f, k. rewrite Hscores.
  split; [reflexivity|]. split; [exact Hk|]. split; [exact Hnear|].
  unfold hundredths in Hnear. lia.
Qed.

Lemma slider_scores_give_a_nearest_tenth_witness :
  exists (t c e f : Z) (k : N),
    afterMoves [("experience", 7); ("technicalSkills", 8);
                ("culturalFit", 9); ("communicationSkills", 6);
                ("experience", 1)] = sliderScores t c e f /\
    calculateOverallScore
      (afterMoves [("experience", 7); ("technicalSkills", 8);
                   ("culturalFit", 9); ("communicationSkills", 6);
                   ("experience", 1)]) DEFAULT_WEIGHTS =
      parseFloat (FixedDecimal false k) /\
    Z.abs (10 * Z.of_N k - hundredths t c e f) <= 5 /\
    (k <= 100)%N.
Proof.
  apply (proj1 slider_scores_give_a_nearest_tenth).
  repeat constructor; try (simpl; lia);
    apply (bool_decide_unpack _); vm_compute; exact I.
Defined.

(** X17. Setting the score of a category for which
    [weights[category]] is falsy (a weight of zero or NaN, or no weight
    at all under a name that objects do not inherit) never changes the
    overall score, whatever the other scores and weights are. Under the
    name of an inherited member, such as [constructor], a category
    without a weight of its own does count: once it has a score the
    overall score is NaN. *)
Theorem score_without_weight_does_not_count (scores : CategoryScores)
    (weights : CategoryWeights) (category : string) (value : number) :
  (weightTruthy (weightAt weights category) = false ->
   calculateOverallScore (setScore scores category value) weights =
   calculateOverallScore scores weights) /\
  (readsInherited weights category = true ->
   calculateOverallScore (setScore scores category value) weights = NaN).
Proof.
  split.
  - intros Hweight. unfold calculateOverallScore.
    rewrite loop_setScore by exact Hweight. reflexivity.
  - intros Hreads. apply inherited_gives_NaN.
    apply (Exists_impl _ _ _ (setScore_elem scores category value)).
    intros entry ->. exact Hreads.
Qed.

Lemma score_without_weight_does_not_count_witness :
  calculateOverallScore (setScore exampleScores "leadership" (ofZ 10))
    DEFAULT_WEIGHTS =
  calculateOverallScore exampleScores DEFAULT_WEIGHTS /\
  calculateOverallScore (setScore exampleScores "constructor" (ofZ 10))
    DEFAULT_WEIGHTS = NaN.
Proof.
  split.
  - apply (proj1 (score_without_weight_does_not_count
                    exampleScores DEFAULT_WEIGHTS "leadership" (ofZ 10))).
    reflexivity.
  - apply (proj2 (score_without_weight_does_not_count
                    exampleScores DEFAULT_WEIGHTS "constructor" (ofZ 10))).
    reflexivity.
Defined.

(** ** The score range of the candidate list *)

Section ScoreRanges.

Lemma passesScoreFilters_spec (filters : FilterOptions.t)
    (candidate : Candidate.t) :
  passesScoreFilters filters candidate =
  withinBounds filters (Candidate.overallScore candidate).
Proof.
  unfold passesScoreFilters, withinBounds, minScoreFilter, maxScoreFilter.
  simpl.
  destruct (FilterOptions.minScore filters) as [minScore|];
    destruct (FilterOptions.maxScore filters) as [maxScore|]; simpl;
    repeat match goal with
           | |- context [Number.ge ?x ?y] => destruct (Number.ge x y); simpl
           | |- context [Number.le ?x ?y] => destruct (Number.le x y); simpl
           end; reflexivity.
Qed.

Lemma tenths_checked :
  forallb rangeCheck (map N.of_nat (seq 0 101)) = true.
Proof. vm_compute. reflexivity. Qed.

Lemma rangeCheck_spec (k : N) : (k <= 100)%N -> rangeCheck k = true.
Proof.
  intros Hk. pose proof tenths_checked as Hall.
  rewrite forallb_forall in Hall. apply Hall.
  apply in_map_iff. exists (N.to_nat k). split; [apply N2Nat.id|].
  apply in_seq. lia.
Qed.

End ScoreRanges.

(** X18. A candidate whose overall score comes from the four sliders
    (whole scores from 0 to 10) passes the score filter only for the
    ranges "All Scores" and "Below 70": chosen in the list, the ranges
    "90-100", "80-89" and "70-79" keep no such candidate. The range
    "Below 70" sets no lower bound at all, its 0 being taken for no
    value. *)
Theorem upper_score_ranges_keep_no_slider_score
    (range : ScoreRange.t) (filters : FilterOptions.t)
    (candidate : Candidate.t) (t c e f : Z) :
  range ∈ scoreRanges ->
  0 <= t <= 10 -> 0 <= c <= 10 -> 0 <= e <= 10 -> 0 <= f <= 10 ->
  Candidate.overallScore candidate =
    calculateOverallScore (sliderScores t c e f) DEFAULT_WEIGHTS ->
  let chosen := scoreRangeChange filters (optionValue range) in
  (passesScoreFilters chosen candidate = true <->
   ScoreRange.label range = "All Scores" \/
   ScoreRange.label range = "Below 70") /\
  (ScoreRange.label range = "Below 70" ->
   FilterOptions.minScore chosen = None /\
   FilterOptions.maxScore chosen = Some (ofZ 69)).
Proof.
  intros Hrange Ht Hc He Hf Hoverall chosen.
  destruct (slider_overall t c e f Ht Hc He Hf) as (k & Hk & Hnear).
  assert (Hk100 : (k <= 100)%N) by (unfold hundredths in Hnear; lia).
  pose proof (rangeCheck_spec k Hk100) as Hcheck.
  unfold rangeCheck in Hcheck. rewrite forallb_forall in Hcheck.
  specialize (Hcheck range (proj1 (list_elem_of_In _ _) Hrange)).
  apply Bool.eqb_prop in Hcheck.
  split.
  - rewrite passesScoreFilters_spec, Hoverall, Hk.
    change (withinBounds chosen (parseFloat (FixedDecimal false k)))
      with (withinBounds (scoreRangeChange activeFilter (optionValue range))
              (parseFloat (FixedDecimal false k))).
    rewrite Hcheck, orb_true_iff, !String.eqb_eq. reflexivity.
  - unfold scoreRanges in Hrange.
    rewrite !elem_of_cons, elem_of_nil in Hrange.
    destruct Hrange as [-> | [-> | [-> | [-> | [-> | []]]]]];
      intros Hlabel; try discriminate Hlabel.
    split; vm_compute; reflexivity.
Qed.

Lemma upper_score_ranges_keep_no_slider_score_witness :
  passesScoreFilters
    (scoreRangeChange activeFilter
       (optionValue {| ScoreRange.label := "90-100";
                       ScoreRange.minScore := Some 90;
                       ScoreRange.maxScore := Some 100 |}))
    (sampleCandidate "a" Active
       (calculateOverallScore (sliderScores 10 10 10 10) DEFAULT_WEIGHTS)
       (sliderScores 10 10 10 10) None) = true <->
  "90-100" = "All Scores" \/ "90-100" = "Below 70".
Proof.
  apply (upper_score_ranges_keep_no_slider_score
           {| ScoreRange.label := "90-100"; ScoreRange.minScore := Some 90;
              ScoreRange.maxScore := Some 100 |}
           activeFilter
           (sampleCandidate "a" Active
              (calculateOverallScore (sliderScores 10 10 10 10) DEFAULT_WEIGHTS)
              (sliderScores 10 10 10 10) None) 10 10 10 10).
  - unfold scoreRanges. apply elem_of_cons. right.
    apply elem_of_cons. left. reflexivity.
  - lia.
  - lia.
  - lia.
  - lia.
  - reflexivity.
Defined.

(** ** [getCandidates] as a whole *)

Section Matching.

Lemma filter_perm {A : Type} (f : A -> bool) (l l' : list A) :
  l ≡ₚ l' -> List.filter f l ≡ₚ List.filter f l'.
Proof.
  induction 1 as [|x l l' _ IH|x y l|l l' l'' _ IH _ IH']; simpl.
  - reflexivity.
  - destruct (f x); [constructor|]; exact IH.
  - destruct (f x), (f y); try reflexivity. apply Permutation_swap.
  - etransitivity; eassumption.
Qed.

Lemma filter_filter {A : Type} (f g : A -> bool) (l : list A) :
  List.filter g (List.filter f l) = List.filter (fun x => f x && g x) l.
Proof.
  induction l as [|x l IH]; [reflexivity|].
  simpl. destruct (f x); simpl; [destruct (g x)|]; rewrite ?IH; reflexivity.
Qed.

Lemma filter_true {A : Type} (l : list A) :
  List.filter (fun _ => true) l = l.
Proof. induction l as [|x l IH]; simpl; [|rewrite IH]; reflexivity. Qed.

Lemma filter_map_toCandidate (now : number) (f : Candidate.t -> bool)
    (l : list Candidate.t) :
  (forall c, f (toCandidate now c) = f c) ->
  List.filter f (map (toCandidate now) l) =
  map (toCandidate now) (List.filter f l).
Proof.
  intros Hf. induction l as [|c l IH]; [reflexivity|].
  simpl. rewrite Hf. destruct (f c); simpl; rewrite IH; reflexivity.
Qed.

End Matching.



(** ** The checks of the upload component *)

Section FileNames.

Lemma split_plain (sep : ascii) (s : string) :
  JSString.includes s (String sep "") = false -> JSString.split sep s = [s].
Proof.
  induction s as [|c s IH]; [reflexivity|].
  change (JSString.includes (String c s) (String sep ""))
    with (Ascii.eqb sep c && true || JSString.includes s (String sep "")).
  rewrite andb_true_r. intros [Hc Hs]%orb_false_iff.
  simpl. rewrite Ascii.eqb_sym, Hc, (IH Hs). reflexivity.
Qed.

Lemma split_last (sep : ascii) (base ext : string) :
  JSString.includes ext (String sep "") = false ->
  exists init,
    JSString.split sep (base +:+ String sep ext) = init ++ [ext] /\ init <> [].
Proof.
  intros Hext. induction base as [|c base (init & IH & Hinit)].
  - exists [""]. simpl. rewrite Ascii.eqb_refl, (split_plain _ _ Hext).
    split; [reflexivity|discriminate].
  - simpl. destruct (Ascii.eqb c sep).
    + exists ("" :: init). rewrite IH. split; [reflexivity|discriminate].
    + rewrite IH. destruct init as [|first init]; [contradiction|].
      exists (String c first :: init). split; [reflexivity|discriminate].
Qed.

Lemma extensionOf_suffix (base ext : string) :
  JSString.includes ext "." = false ->
  extensionOf (base +:+ "." +:+ ext) = ext /\ extensionOf ext = ext.
Proof.
  intros Hext. unfold extensionOf. split.
  - change (base +:+ "." +:+ ext) with (base +:+ String "." ext).
    destruct (split_last "." base ext Hext) as (init & -> & _).
    rewrite last_snoc. reflexivity.
  - rewrite (split_plain "." ext Hext). reflexivity.
Qed.

End FileNames.

(** X20. With the component's defaults (10 MB; .pdf, .doc, .docx,
    .txt) a file that is not too large passes the type check exactly
    when the part of its name after the last full stop, in lower case,
    is pdf, doc, docx or txt, or is empty (a name that ends in a full
    stop passes). A name without any full stop is taken as a whole for
    its extension. The name the upload gives the stored file ends in
    that same part, as it is spelled in the file's name. *)
Theorem file_type_check_reads_last_segment
    (size : number) (type base ext : string)
    (candidateId : string) (documentType : DocumentType) (nameTime : Z) :
  Number.gt size (defaultMaxSizeMB * ofZ 1024 * ofZ 1024)%num = false ->
  JSString.includes ext "." = false ->
  let accepted :=
    ext = "" \/
    JSString.toLowerCase ext ∈ ["pdf"; "doc"; "docx"; "txt"] in
  (checkFile defaultMaxSizeMB defaultFileTypes size (base +:+ "." +:+ ext) =
     Accepted <-> accepted) /\
  (checkFile defaultMaxSizeMB defaultFileTypes size ext = Accepted <->
     accepted) /\
  uploadName candidateId
    {| File.name := base +:+ "." +:+ ext; File.type := type |}
    documentType nameTime =
  candidateId +:+ "_" +:+ documentTypeName documentType +:+ "_" +:+
  pretty nameTime +:+ "." +:+ ext.
Proof.
  intros Hsize Hext accepted.
  destruct (extensionOf_suffix base ext Hext) as [Hfull Hbare].
  assert (Hcheck : forall name, extensionOf name = ext ->
            checkFile defaultMaxSizeMB defaultFileTypes size name = Accepted <->
            accepted).
  { intros name Hname. unfold checkFile. cbv zeta. rewrite Hsize, Hname.
    change (acceptedExtensions defaultFileTypes)
      with ["pdf"; "doc"; "docx"; "txt"].
    unfold accepted.
    destruct (String.eqb_spec (JSString.toLowerCase ext) "") as [Hempty|Hfull'].
    - simpl. split; [intros _|reflexivity].
      left. apply toLowerCase_empty, Hempty.
    - cbn [negb andb].
      destruct (existsb _ _) eqn:Hany; cbn [negb].
      + split; [intros _|reflexivity]. right.
        apply existsb_exists in Hany as (x & Hx & ->%String.eqb_eq).
        apply list_elem_of_In, Hx.
      + split; [discriminate|]. intros [-> | Hin];
          [exfalso; apply Hfull'; reflexivity|].
        assert (existsb (String.eqb (JSString.toLowerCase ext))
                  ["pdf"; "doc"; "docx"; "txt"] = true) as Hyes;
          [|congruence].
        apply existsb_exists. exists (JSString.toLowerCase ext).
        split; [apply list_elem_of_In, Hin|apply String.eqb_refl]. }
  split; [apply Hcheck, Hfull|]. split; [apply Hcheck, Hbare|].
  unfold uploadName. cbv zeta. cbn [File.name].
  fold (extensionOf (base +:+ "." +:+ ext)). rewrite Hfull. reflexivity.
Qed.

Lemma file_type_check_reads_last_segment_witness :
  checkFile defaultMaxSizeMB defaultFileTypes (ofZ 250000)
    ("Ada.Lovelace.CV" +:+ "." +:+ "PDF") = Accepted <->
  "PDF" = "" \/ JSString.toLowerCase "PDF" ∈ ["pdf"; "doc"; "docx"; "txt"].
Proof.
  apply (file_type_check_reads_last_segment (ofZ 250000) "application/pdf"
           "Ada.Lovelace.CV" "PDF" "a1" resume 1700000000000).
  - vm_compute. reflexivity.
  - reflexivity.
Defined.

(** ** The reply of the model in a code fence *)

Section Fences.

(** A separator that begins with a backtick. *)
Variable sep' : string.
Let sep : string := String "`" sep'.

Lemma includes_cons (c : ascii) (s : string) (k : ascii) :
  JSString.includes (String c s) (String k "") =
  Ascii.eqb k c || JSString.includes s (String k "").
Proof.
  change (JSString.includes (String c s) (String k ""))
    with (Ascii.eqb k c && true || JSString.includes s (String k "")).
  rewrite andb_true_r. reflexivity.
Qed.

Lemma splitOn_nonempty (skip : nat) (s : string) : splitOn sep skip s <> [].
Proof.
  revert skip. induction s as [|c s IH]; intros skip;
    cbn [splitOn]; [discriminate|].
  destruct skip; [|apply IH].
  destruct (JSString.startsWith (String c s) sep); [discriminate|].
  destruct (splitOn sep 0 s); discriminate.
Qed.

Lemma splitOn_plain (plain s : string) :
  JSString.includes plain "`" = false ->
  splitOn sep 0 (plain +:+ s) =
  (plain +:+ default "" (head (splitOn sep 0 s))) :: tail (splitOn sep 0 s).
Proof.
  induction plain as [|c plain IH].
  - intros _. rewrite !append_empty. pose proof (splitOn_nonempty 0 s).
    destruct (splitOn sep 0 s); [contradiction|reflexivity].
  - rewrite includes_cons. intros [Hc Hplain]%orb_false_iff.
    rewrite !append_cons. cbn [splitOn].
    assert (JSString.startsWith (String c (plain +:+ s)) sep = false) as ->.
    { unfold sep. cbn [JSString.startsWith]. rewrite Hc. reflexivity. }
    rewrite (IH Hplain). reflexivity.
Qed.

Lemma splitOn_skip (passed s : string) :
  splitOn sep (String.length passed) (passed +:+ s) = splitOn sep 0 s.
Proof.
  induction passed as [|c passed IH]; [reflexivity|].
  rewrite append_cons. exact IH.
Qed.

Lemma startsWith_append (prefix s : string) :
  JSString.startsWith (prefix +:+ s) prefix = true.
Proof. apply startsWith_spec. exists s. reflexivity. Qed.

Lemma splitOn_separator (s : string) :
  splitOn sep 0 (sep +:+ s) = "" :: splitOn sep 0 s.
Proof.
  pose proof (startsWith_append sep s) as Hstarts.
  unfold sep in *. rewrite append_cons in *. cbn [splitOn].
  rewrite Hstarts.
  cbn [String.length]. rewrite Nat.sub_succ, Nat.sub_0_r, splitOn_skip.
  reflexivity.
Qed.

Lemma append_empty_r (s : string) : s +:+ "" = s.
Proof.
  induction s as [|c s IH]; [reflexivity|].
  rewrite append_cons, IH. reflexivity.
Qed.

Lemma splitOn_fenced (plain s : string) :
  JSString.includes plain "`" = false ->
  splitOn sep 0 (plain +:+ sep +:+ s) = plain :: splitOn sep 0 s.
Proof.
  intros Hplain. rewrite (splitOn_plain _ _ Hplain), splitOn_separator.
  cbn [head tail default]. rewrite append_empty_r. reflexivity.
Qed.

Lemma head_splitOn (c : ascii) (s : string) :
  default "" (head (splitOn sep 0 (String c s))) =
  if JSString.startsWith (String c s) sep then ""
  else String c (default "" (head (splitOn sep 0 s))).
Proof.
  cbn [splitOn]. destruct (JSString.startsWith (String c s) sep);
    [reflexivity|].
  pose proof (splitOn_nonempty 0 s).
  destruct (splitOn sep 0 s); [contradiction|reflexivity].
Qed.

End Fences.

Section FencedReply.

Lemma includes_append (before keyword after : string) :
  JSString.includes (before +:+ keyword +:+ after) keyword = true.
Proof. apply includes_spec. exists before, after. reflexivity. Qed.

(** The first piece of what follows an opening fence, cut again at the
    closing fence. *)
Lemma body_of_fenced (body after : string) :
  JSString.includes body "`" = false ->
  default "" (head (splitOn fence 0 (body +:+ fence +:+ after))) = body.
Proof.
  intros Hbody. unfold fence.
  rewrite (splitOn_fenced "``" body after Hbody). reflexivity.
Qed.

Lemma body_of_json_fenced (body after : string) :
  JSString.includes body "`" = false ->
  JSString.startsWith after "`" = false ->
  exists rest,
    default "" (head (splitOn jsonFence 0 (body +:+ fence +:+ after))) =
      body +:+ rest /\
    (rest = "" \/ exists more, rest = fence +:+ more).
Proof.
  intros Hbody Hafter. unfold jsonFence.
  rewrite (splitOn_plain "``json" body _ Hbody). cbn [head default].
  eexists. split; [reflexivity|].
  unfold fence. rewrite !append_cons, append_empty.
  assert (Hnext : forall prefix,
            JSString.startsWith after (String "`" prefix) = false).
  { intros prefix. destruct after as [|a after']; [reflexivity|].
    change (Ascii.eqb "`" a && JSString.startsWith after' prefix = false).
    change (Ascii.eqb "`" a && true = false) in Hafter.
    rewrite andb_true_r in Hafter. rewrite Hafter. reflexivity. }
  rewrite head_splitOn.
  change (JSString.startsWith (String "`" (String "`" (String "`" after)))
            "```json")
    with (JSString.startsWith after "json").
  destruct (JSString.startsWith after "json"); [left; reflexivity|].
  right. rewrite head_splitOn.
  change (JSString.startsWith (String "`" (String "`" after)) "```json")
    with (JSString.startsWith after "`json").
  rewrite Hnext, head_splitOn.
  change (JSString.startsWith (String "`" after) "```json")
    with (JSString.startsWith after "``json").
  rewrite Hnext. eexists. reflexivity.
Qed.

End FencedReply.

Section Unwrap.

Lemma lookup_head (l : list string) :
  l <> [] -> l !! 0%nat = Some (default "" (head l)).
Proof. destruct l; [contradiction|reflexivity]. Qed.

Lemma first_piece (plain rest : string) :
  JSString.includes plain "`" = false ->
  rest = "" \/ (exists more, rest = fence +:+ more) ->
  splitOn fence 0 (plain +:+ rest) !! 0%nat = Some plain.
Proof.
  intros Hplain Hrest. unfold fence in *.
  rewrite lookup_head by apply splitOn_nonempty.
  destruct Hrest as [-> | [more ->]].
  - rewrite (splitOn_plain "``" plain "" Hplain). cbn [splitOn head default].
    rewrite append_empty_r. reflexivity.
  - rewrite (splitOn_fenced "``" plain more Hplain). reflexivity.
Qed.

Lemma includes_longer (s keyword : string) :
  JSString.includes s "`" = false ->
  JSString.includes s (String "`" keyword) = false.
Proof.
  induction s as [|c s IH]; [reflexivity|].
  rewrite includes_cons. intros [Hc Hs]%orb_false_iff.
  change (JSString.includes (String c s) (String "`" keyword))
    with (Ascii.eqb "`" c && JSString.startsWith s keyword ||
          JSString.includes s (String "`" keyword)).
  rewrite Hc, (IH Hs). reflexivity.
Qed.

End Unwrap.

(** X21. A reply of the model that holds its answer in a code fence
    is unwrapped: when nothing before the fence and nothing inside it
    is a backtick, the text handed to [JSON.parse] is the inside of the
    fence, trimmed. This holds for a fence opened with [```json], as
    long as the closing fence is not followed by one more backtick, and
    for a plain fence, as long as [```json] occurs nowhere in the
    reply. A reply without any backtick is handed on as it is. *)
Theorem fenced_reply_is_unwrapped (before body after : string) :
  JSString.includes before "`" = false ->
  JSString.includes body "`" = false ->
  (JSString.startsWith after "`" = false ->
   jsonTextOf (before +:+ jsonFence +:+ body +:+ fence +:+ after) =
     Some (JSString.trim body)) /\
  (JSString.includes (before +:+ fence +:+ body +:+ fence +:+ after)
     jsonFence = false ->
   jsonTextOf (before +:+ fence +:+ body +:+ fence +:+ after) =
     Some (JSString.trim body)) /\
  jsonTextOf (before +:+ body) = Some (before +:+ body).
Proof.
  intros Hbefore Hbody. split; [|split].
  - intros Hafter. unfold jsonTextOf.
    rewrite includes_append.
    unfold jsonFence at 1.
    rewrite (splitOn_fenced "``json" before _ Hbefore).
    change ((before :: splitOn "```json" 0 (body +:+ fence +:+ after)) !! 1%nat)
      with (splitOn jsonFence 0 (body +:+ fence +:+ after) !! 0%nat).
    rewrite lookup_head by apply splitOn_nonempty.
    destruct (body_of_json_fenced body after Hbody Hafter)
      as (rest & -> & Hrest).
    cbn [mbind option_bind]. rewrite (first_piece body rest Hbody Hrest).
    reflexivity.
  - intros Hplain. unfold jsonTextOf. rewrite Hplain, includes_append.
    unfold fence at 1.
    rewrite (splitOn_fenced "``" before _ Hbefore).
    change ((before :: splitOn "```" 0 (body +:+ fence +:+ after)) !! 1%nat)
      with (splitOn fence 0 (body +:+ fence +:+ after) !! 0%nat).
    rewrite (first_piece body (fence +:+ after) Hbody)
      by (right; exists after; reflexivity).
    cbn [mbind option_bind].
    pose proof (first_piece body "" Hbody (or_introl eq_refl)) as Hinside.
    rewrite append_empty_r in Hinside. unfold fence in Hinside.
    rewrite Hinside. reflexivity.
  - assert (Hnone : JSString.includes (before +:+ body) "`" = false).
    { clear -Hbefore Hbody. induction before as [|c before IH];
        [exact Hbody|].
      rewrite append_cons, includes_cons. rewrite includes_cons in Hbefore.
      apply orb_false_iff in Hbefore as [Hc Hbefore].
      rewrite Hc, (IH Hbefore). reflexivity. }
    unfold jsonTextOf, jsonFence, fence.
    rewrite !includes_longer by exact Hnone. reflexivity.
Qed.

Lemma fenced_reply_is_unwrapped_witness :
  jsonTextOf ("Here is the analysis:" +:+ jsonFence +:+
              " [1, 2, 3] " +:+ fence +:+ " Done.") =
  Some (JSString.trim " [1, 2, 3] ").
Proof.
  apply (proj1 (fenced_reply_is_unwrapped "Here is the analysis:"
                  " [1, 2, 3] " " Done." eq_refl eq_refl)).
  reflexivity.
Defined.

(** ** The documents of the candidate's page *)

Section PageDocuments.

Lemma findIndex_Some {A : Type} (predicate : A -> bool) (array : list A)
    (index : nat) :
  findIndex predicate array = Some index ->
  exists x, array !! index = Some x /\ predicate x = true.
Proof.
  revert index. induction array as [|y array IH]; intros index; simpl;
    [discriminate|].
  destruct (predicate y) eqn:Hy.
  - intros [= <-]. exists y. split; [reflexivity|exact Hy].
  - destruct (findIndex predicate array) as [i|]; [|discriminate].
    intros [= <-]. apply (IH i eq_refl).
Qed.

Lemma Forall2_same {A : Type} (R : A -> A -> Prop) (l : list A) :
  (forall x, R x x) -> Forall2 R l l.
Proof. intros Hrefl. induction l; constructor; auto. Qed.

Lemma Forall2_alter_at {A : Type} (R : A -> A -> Prop) (f : A -> A)
    (l : list A) (index : nat) (x : A) :
  (forall y, R y y) -> l !! index = Some x -> R x (f x) ->
  Forall2 R l (alter f index l).
Proof.
  intros Hrefl. revert index.
  induction l as [|y l IH]; intros [|index] Hx Hfx; simpl in *;
    try discriminate.
  - injection Hx as ->. constructor; [exact Hfx|apply Forall2_same, Hrefl].
  - constructor; [apply Hrefl|apply IH; assumption].
Qed.

Variables (activeTab : Tab) (documentId : string) (analysis : AIAnalysis.t).

Lemma analysedSingle_from (kind : DocumentType) (slot : option DocumentInfo.t) :
  activeTab = documentTab kind ->
  Forall2 (analysedFrom activeTab documentId analysis)
    (map (pair kind) (option_list slot))
    (map (pair kind) (option_list (analysedSingle slot documentId analysis))).
Proof.
  intros Htab. destruct slot as [document|]; simpl; [|constructor].
  destruct (String.eqb_spec (DocumentInfo.id document) documentId) as [Hid|Hid];
    simpl; (constructor; [|constructor]).
  - right. split; [reflexivity|]. split; assumption.
  - left. reflexivity.
Qed.

Lemma analysedArray_from (kind : DocumentType)
    (array : option (list DocumentInfo.t)) :
  activeTab = documentTab kind ->
  Forall2 (analysedFrom activeTab documentId analysis)
    (map (pair kind) (default [] array))
    (map (pair kind) (default [] (analysedArray array documentId analysis))).
Proof.
  intros Htab. destruct array as [documents|]; simpl; [|constructor].
  destruct (findIndex _ documents) as [index|] eqn:Hindex; simpl;
    [|apply Forall2_same; left; reflexivity].
  apply findIndex_Some in Hindex as (document & Hlookup & Hid).
  apply String.eqb_eq in Hid.
  apply Forall2_fmap.
  apply (Forall2_alter_at _ _ _ _ document);
    [left; reflexivity|exact Hlookup|].
  right. split; [reflexivity|]. split; assumption.
Qed.

Lemma unchanged_from (l : list (DocumentType * DocumentInfo.t)) :
  Forall2 (analysedFrom activeTab documentId analysis) l l.
Proof. apply Forall2_same. left. reflexivity. Qed.

End PageDocuments.

(** X22. After an upload and the page's [handleDocumentUpload], the
    documents stored for the candidate are the page's copy of the
    documents with the new document put in, whatever the store held
    before, and the page holds the same documents. When the page's copy
    agreed with the store before the upload, this is what the upload
    alone had stored: the document is there once, not twice. *)
Theorem page_upload_stores_the_page_copy
    (db : gmap string Candidate.t) (candidateId : string)
    (stored page : Candidate.t) (file : File.t) (documentType : DocumentType)
    (nameTime uploadTime : Z) (downloadURL : string) (now : number) :
  db !! candidateId = Some stored ->
  exists documentInfo db1 uploaded page' db2 final,
    uploadCandidateDocument db candidateId file documentType nameTime
      uploadTime downloadURL = Some (documentInfo, db1) /\
    db1 !! candidateId = Some uploaded /\
    handleDocumentUpload db1 candidateId page documentType documentInfo now =
      Some (page', db2) /\
    db2 !! candidateId = Some final /\
    documentsOf final = putDocument (documentsOf page) documentType documentInfo /\
    documentsOf page' = documentsOf final /\
    (documentsOf page = documentsOf stored ->
     documentsOf final = documentsOf uploaded) /\
    (forall otherId, otherId <> candidateId -> db2 !! otherId = db !! otherId).
Proof.
  intros Hstored. unfold uploadCandidateDocument. rewrite Hstored. cbv zeta.
  fold (documentsOf stored).
  eexists _, _, _, _, _, _.
  split; [reflexivity|]. split; [apply lookup_insert_eq|].
  unfold handleDocumentUpload, updateDocuments.
  rewrite lookup_insert_eq. cbn [mbind option_bind].
  split; [reflexivity|]. split; [apply lookup_insert_eq|].
  split; [reflexivity|]. split; [reflexivity|].
  split.
  - intros Hmirror. cbn. rewrite Hmirror. reflexivity.
  - intros otherId Hother. rewrite !lookup_insert_ne by congruence.
    reflexivity.
Qed.

Lemma page_upload_stores_the_page_copy_witness :
  exists documentInfo db1 uploaded page' db2 final,
    uploadCandidateDocument sampleStore "a1" sampleFile notes 1700000120000
      1700000120005 "https://files.example.com/a1/notes/3" =
      Some (documentInfo, db1) /\
    db1 !! "a1" = Some uploaded /\
    handleDocumentUpload db1 "a1" withFiles notes documentInfo
      (ofZ 1700000120009) = Some (page', db2) /\
    db2 !! "a1" = Some final /\
    documentsOf final = putDocument (documentsOf withFiles) notes documentInfo /\
    documentsOf page' = documentsOf final /\
    (documentsOf withFiles = documentsOf withFiles ->
     documentsOf final = documentsOf uploaded) /\
    (forall otherId, otherId <> "a1" -> db2 !! otherId = sampleStore !! otherId).
Proof.
  apply (page_upload_stores_the_page_copy sampleStore "a1" withFiles withFiles).
  reflexivity.
Defined.

(** X23. [handleAnalysisComplete] keeps every document of the candidate
    in its place: each is either as it was or has the analysis
    attached, the latter only for a document that bears the given id
    and is of the kind of the open tab. On the profile tab nothing
    changes. What the page writes to the store is what it then holds,
    and for an unknown candidate the update fails. *)
Theorem analysis_is_attached_in_place
    (db : gmap string Candidate.t) (candidateId : string)
    (page : Candidate.t) (activeTab : Tab) (documentId : string)
    (analysis : AIAnalysis.t) (now : number) :
  let documents' :=
    analysedDocuments (documentsOf page) activeTab documentId analysis in
  Forall2 (analysedFrom activeTab documentId analysis)
    (allDocuments (documentsOf page)) (allDocuments documents') /\
  (activeTab = profileTab -> documents' = documentsOf page) /\
  match db !! candidateId with
  | Some stored =>
      exists page' db' final,
        handleAnalysisComplete db candidateId page activeTab documentId
          analysis now = Some (page', db') /\
        db' !! candidateId = Some final /\
        documentsOf final = documents' /\
        documentsOf page' = documents'
  | None =>
      handleAnalysisComplete db candidateId page activeTab documentId
        analysis now = None
  end.
Proof.
  cbv zeta. split; [|split].
  - unfold allDocuments.
    destruct activeTab as [|[| | |]]; cbn [analysedDocuments
      CandidateDocuments.resume CandidateDocuments.coverLetter
      CandidateDocuments.notes CandidateDocuments.transcripts].
    + apply unchanged_from.
    + apply Forall2_app; [apply analysedSingle_from; reflexivity|].
      apply unchanged_from.
    + apply Forall2_app; [apply unchanged_from|].
      apply Forall2_app; [apply analysedSingle_from; reflexivity|].
      apply unchanged_from.
    + apply Forall2_app; [apply unchanged_from|].
      apply Forall2_app; [apply unchanged_from|].
      apply Forall2_app; [apply analysedArray_from; reflexivity|].
      apply unchanged_from.
    + apply Forall2_app; [apply unchanged_from|].
      apply Forall2_app; [apply unchanged_from|].
      apply Forall2_app; [apply unchanged_from|].
      apply analysedArray_from; reflexivity.
  - intros ->. reflexivity.
  - unfold handleAnalysisComplete, updateDocuments.
    destruct (db !! candidateId) as [stored|]; [|reflexivity].
    cbn [mbind option_bind]. eexists _, _, _.
    split; [reflexivity|]. split; [apply lookup_insert_eq|].
    split; reflexivity.
Qed.

(** ** The comparison, from the component to the route *)

Section ComparisonChain.

Variable documentJson : DocumentInfo.t -> Json.t.

Lemma scoresJson_object (scores : CategoryScores) :
  exists fields, scoresJson scores = Json.object fields.
Proof. unfold scoresJson. simpl. eexists. reflexivity. Qed.

Lemma candidateJson_readable (candidate : Candidate.t) (sent : Json.t) :
  candidateJson documentJson candidate = Some sent -> readable sent = true.
Proof.
  unfold candidateJson.
  destruct (Candidate.documents candidate) as [documents|]; [|discriminate].
  intros [= <-]. destruct (scoresJson_object (Candidate.scores candidate))
    as (fields & Hfields).
  unfold readable. cbn [Json.property Json.lookup String.eqb Ascii.eqb Bool.eqb].
  rewrite Hfields. reflexivity.
Qed.

Lemma mapM_candidateJson (candidates : list Candidate.t) :
  Forall (fun c => Candidate.documents c <> None) candidates ->
  exists candidateData,
    mapM (candidateJson documentJson) candidates = Some candidateData /\
    length candidateData = length candidates /\
    forallb readable candidateData = true.
Proof.
  induction 1 as [|c candidates Hc _ (candidateData & Hdata & Hlength & Hread)].
  - exists []. split; [reflexivity|]. split; reflexivity.
  - destruct (candidateJson documentJson c) as [sent|] eqn:Hsent.
    + exists (sent :: candidateData). cbn. rewrite Hsent, Hdata. cbn.
      split; [reflexivity|]. split; [congruence|].
      rewrite (candidateJson_readable c sent Hsent). exact Hread.
    + unfold candidateJson in Hsent.
      destruct (Candidate.documents c); [discriminate|contradiction].
Qed.

End ComparisonChain.

(** X24. A comparison of two or more candidates that all have a
    documents object, asked for with a job description, is sent and gets
    past every check of the compare route: neither of its two 400
    answers nor a failing read while the prompt is put together.
    Without a job description the component asks for one and sends
    nothing; when a candidate has no documents object the read on the
    page fails and nothing is sent either. *)
Theorem comparison_request_passes_the_route
    (documentJson : DocumentInfo.t -> Json.t)
    (candidates : list Candidate.t) (jobDescription : string) :
  (jobDescription = "" ->
   generateComparison documentJson candidates jobDescription =
     AsksForJobDescription) /\
  (jobDescription <> "" ->
   Exists (fun c => Candidate.documents c = None) candidates ->
   generateComparison documentJson candidates jobDescription = ShowsError) /\
  (jobDescription <> "" ->
   Forall (fun c => Candidate.documents c <> None) candidates ->
   (2 <= length candidates)%nat ->
   exists body,
     generateComparison documentJson candidates jobDescription = Sends body /\
     compareRoute body = CallsModel).
Proof.
  split; [|split].
  - intros ->. reflexivity.
  - intros Hjob Hmissing. unfold generateComparison.
    apply String.eqb_neq in Hjob. rewrite Hjob.
    assert (mapM (candidateJson documentJson) candidates = None) as ->;
      [|reflexivity].
    induction Hmissing as [c rest Hc|c rest _ IH]; cbn.
    + unfold candidateJson. rewrite Hc. reflexivity.
    + rewrite IH. destruct (candidateJson documentJson c); reflexivity.
  - intros Hjob Hdocuments Hcount. unfold generateComparison.
    pose proof Hjob as Hjob'. apply String.eqb_neq in Hjob'. rewrite Hjob'.
    destruct (mapM_candidateJson documentJson candidates Hdocuments)
      as (candidateData & -> & Hlength & Hread).
    eexists. split; [reflexivity|].
    unfold compareRoute.
    cbn [Json.property Json.lookup String.eqb Ascii.eqb Bool.eqb default].
    rewrite Hlength.
    destruct (length candidates <? 2)%nat eqn:Hfew;
      [apply Nat.ltb_lt in Hfew; lia|].
    unfold id. cbn [Json.truthy]. rewrite Hjob'. cbn [negb].
    rewrite Hread. reflexivity.
Qed.

Lemma comparison_request_passes_the_route_witness :
  exists body,
    generateComparison (fun d => Json.string (DocumentInfo.url d))
      [withFiles; withNote] "Junior IT support engineer" = Sends body /\
    compareRoute body = CallsModel.
Proof.
  apply (proj2 (proj2 (comparison_request_passes_the_route
                         (fun d => Json.string (DocumentInfo.url d))
                         [withFiles; withNote] "Junior IT support engineer"))).
  - discriminate.
  - repeat constructor; discriminate.
  - simpl. lia.
Defined.

(** ** From the reply of the model to the stored scores *)

Section Analysis.

Lemma json_ind (P : Json.t -> Prop) :
  P Json.null -> (forall b, P (Json.boolean b)) ->
  (forall x, P (Json.number x)) -> (forall s, P (Json.string s)) ->
  (forall items, Forall P items -> P (Json.array items)) ->
  (forall fields, Forall (fun entry => P entry.2) fields ->
                  P (Json.object fields)) ->
  forall v, P v.
Proof.
  intros Hn Hb Hx Hs Ha Ho.
  fix IH 1.
  intros [|b|x|s|items|fields];
    [exact Hn|apply Hb|apply Hx|apply Hs| |].
  - apply Ha. induction items as [|item items IHitems]; constructor;
      [apply IH|exact IHitems].
  - apply Ho. induction fields as [|[key v] fields IHfields]; constructor;
      [apply IH|exact IHfields].
Qed.

Lemma ofJson_defined (v : Json.t) : Data.defined (ofJson v) = true.
Proof.
  induction v as [| | | |items IH|fields IH] using json_ind;
    try reflexivity; simpl.
  - induction IH as [|item items Hitem _ IHitems]; [reflexivity|].
    simpl. rewrite Hitem. exact IHitems.
  - induction IH as [|[key v] fields Hv _ IHfields]; [reflexivity|].
    simpl in *. rewrite Hv. exact IHfields.
Qed.

Lemma ofJson_truthy (v : Json.t) : Data.truthy (ofJson v) = Json.truthy v.
Proof. destruct v; reflexivity. Qed.

Lemma validated_scores (result : Json.t) (validated : ValidatedResult.t) :
  OpenAIRoute.validatedResult result = Some validated \/
  GeminiRoute.validatedResult result = Some validated ->
  ValidatedResult.suggestedScores validated =
  Json.orElse (Json.property result "suggestedScores") neutralScores.
Proof.
  unfold OpenAIRoute.validatedResult, GeminiRoute.validatedResult.
  intros [H|H]; destruct result; try discriminate H;
    injection H as <-; reflexivity.
Qed.

End Analysis.



(** ** The form for a new candidate *)

Section NewCandidate.

Lemma numbers_clean (fields : Fields) (scores : CategoryScores) :
  mapM scoreEntry fields = Some scores -> cleaned fields = fields.
Proof.
  revert scores. induction fields as [|[key v] fields IH]; intros scores H;
    [reflexivity|].
  cbn in H. destruct v; cbn in H; try discriminate H.
  destruct (mapM scoreEntry fields) as [rest|]; [|discriminate H].
  cbn. f_equal. apply (IH rest eq_refl).
Qed.

Lemma scoresOf_clean (v : Data.t) (scores : CategoryScores) :
  scoresOf v = Some scores ->
  scoresOf (removeDeeplyUndefined v) = Some scores.
Proof.
  destruct v as [| | | | | | |items|fields]; try discriminate;
    try (intros H; exact H).
  rewrite removeDeeplyUndefined_object. intros H.
  cbn [scoresOf] in *. rewrite (numbers_clean fields scores H). exact H.
Qed.

Lemma zero_scores_overall :
  scoresOf zeroScores = Some (sliderScores 0 0 0 0) /\
  calculateOverallScore (sliderScores 0 0 0 0) DEFAULT_WEIGHTS =
  calculateOverallScore [] DEFAULT_WEIGHTS.
Proof. split; vm_compute; reflexivity. Qed.

End NewCandidate.

(** X26. A candidate created through the form is stored with an
    overall score that agrees with the scores stored with it: it is
    [calculateOverallScore] of the form's scores under the default
    weights, computed when the form is sent. The time stamps the form
    adds are replaced by the service's clock, and the documents are
    stored as an object of four fields, a missing resume or cover
    letter as [null] and missing notes or transcripts as an empty
    array. *)
Theorem form_creates_consistent_candidate
    (db : Collection) (formData : Fields) (timestamp : number)
    (newId : string) (createdNow updatedNow : number)
    (scores : CategoryScores) :
  NoDup formData.*1 ->
  scoresOf (Data.get "scores" formData) = Some scores ->
  exists returned stored storedScores,
    handleSubmitNew db formData timestamp newId createdNow updatedNow =
      Some (returned, <[newId := stored]> db) /\
    Data.get "overallScore" stored =
      Data.number (calculateOverallScore scores DEFAULT_WEIGHTS) /\
    scoresOf (Data.get "scores" stored) = Some storedScores /\
    calculateOverallScore storedScores DEFAULT_WEIGHTS =
      calculateOverallScore scores DEFAULT_WEIGHTS /\
    Data.get "createdAt" stored = Data.number createdNow /\
    Data.get "updatedAt" stored = Data.number updatedNow /\
    Data.get "documents" stored =
      Data.object
        [("resume",
            removeDeeplyUndefined
              (orElse (documentsField formData "resume") Data.undefined));
         ("coverLetter",
            removeDeeplyUndefined
              (orElse (documentsField formData "coverLetter") Data.undefined));
         ("notes",
            removeDeeplyUndefined
              (orElse (documentsField formData "notes") (Data.array [])));
         ("transcripts",
            removeDeeplyUndefined
              (orElse (documentsField formData "transcripts") (Data.array [])))].
Proof.
  intros Hnodup Hscores. unfold handleSubmitNew. rewrite Hscores.
  cbn [mbind option_bind].
  set (sent := Data.set "overallScore" _ _).
  assert (Hsent : NoDup sent.*1).
  { unfold sent, safeFormData. do 4 apply set_keys. exact Hnodup. }
  assert (Hget : forall key,
            Data.get key sent =
            if String.eqb "overallScore" key
            then Data.number (calculateOverallScore scores DEFAULT_WEIGHTS)
            else if String.eqb "updatedAt" key then Data.number timestamp
            else if String.eqb "createdAt" key then Data.number timestamp
            else Data.get key (safeFormData formData)).
  { intros key. unfold sent. rewrite !get_set. reflexivity. }
  assert (Hhas : forall key,
            Data.has key sent =
            String.eqb "overallScore" key || String.eqb "updatedAt" key ||
            String.eqb "createdAt" key || String.eqb "documents" key ||
            Data.has key formData).
  { intros key. unfold sent, safeFormData. rewrite !has_set.
    rewrite !orb_assoc. reflexivity. }
  unfold createCandidate. rewrite removeDeeplyUndefined_object.
  set (stored := Data.set "updatedAt" _ _).
  assert (Hstored : forall key, Data.get key stored = _)
    by (intros key; apply (stored_fields sent createdNow updatedNow key Hsent)).
  assert (Hscore : exists storedScores,
            scoresOf (Data.get "scores" stored) = Some storedScores /\
            calculateOverallScore storedScores DEFAULT_WEIGHTS =
            calculateOverallScore scores DEFAULT_WEIGHTS).
  { rewrite Hstored, Hhas, Hget.
    change (String.eqb "updatedAt" "scores") with false.
    change (String.eqb "createdAt" "scores") with false.
    change (String.eqb "overallScore" "scores") with false.
    change (String.eqb "documents" "scores") with false.
    cbn [orb]. unfold safeFormData. rewrite get_set.
    change (String.eqb "documents" "scores") with false. cbv iota.
    destruct (Data.has "scores" formData) eqn:Hpresent.
    - exists scores. split; [apply scoresOf_clean, Hscores|reflexivity].
    - rewrite (get_absent _ _ Hpresent) in Hscores. injection Hscores as <-.
      exists (sliderScores 0 0 0 0). exact zero_scores_overall. }
  destruct Hscore as (storedScores & Hstoredscores & Hagree).
  exists (Data.set "id" (Data.string newId) stored), stored, storedScores.
  split; [reflexivity|].
  split.
  { rewrite Hstored, Hhas, Hget. reflexivity. }
  split; [exact Hstoredscores|]. split; [exact Hagree|].
  split; [rewrite Hstored; reflexivity|].
  split; [rewrite Hstored; reflexivity|].
  rewrite Hstored, Hhas, Hget.
  change (String.eqb "updatedAt" "documents") with false.
  change (String.eqb "createdAt" "documents") with false.
  change (String.eqb "overallScore" "documents") with false.
  rewrite String.eqb_refl, orb_true_r. cbn [orb]. cbv iota.
  unfold safeFormData. rewrite get_set, String.eqb_refl.
  rewrite removeDeeplyUndefined_object. reflexivity.
Qed.

Lemma form_creates_consistent_candidate_witness :
  exists returned stored storedScores,
    handleSubmitNew ∅
      [("name", Data.string "Ada");
       ("scores",
          Data.object [("technicalSkills", Data.number (ofZ 8));
                       ("communicationSkills", Data.number (ofZ 6));
                       ("experience", Data.number (ofZ 7));
                       ("culturalFit", Data.number (ofZ 9))]);
       ("documents",
          Data.object [("resume", Data.undefined);
                       ("coverLetter", Data.undefined);
                       ("notes", Data.array []);
                       ("transcripts", Data.array [])])]
      (ofZ 5000) "c1" (ofZ 5001) (ofZ 5002) =
      Some (returned, <["c1" := stored]> ∅) /\
    Data.get "overallScore" stored =
      Data.number (calculateOverallScore exampleScores DEFAULT_WEIGHTS) /\
    scoresOf (Data.get "scores" stored) = Some storedScores /\
    calculateOverallScore storedScores DEFAULT_WEIGHTS =
      calculateOverallScore exampleScores DEFAULT_WEIGHTS /\
    Data.get "createdAt" stored = Data.number (ofZ 5001) /\
    Data.get "updatedAt" stored = Data.number (ofZ 5002) /\
    Data.get "documents" stored = noDocuments.
Proof.
  apply (form_creates_consistent_candidate ∅
           [("name", Data.string "Ada");
            ("scores",
               Data.object [("technicalSkills", Data.number (ofZ 8));
                            ("communicationSkills", Data.number (ofZ 6));
                            ("experience", Data.number (ofZ 7));
                            ("culturalFit", Data.number (ofZ 9))]);
            ("documents",
               Data.object [("resume", Data.undefined);
                            ("coverLetter", Data.undefined);
                            ("notes", Data.array []);
                            ("transcripts", Data.array [])])]
           (ofZ 5000) "c1" (ofZ 5001) (ofZ 5002) exampleScores).
  - apply (bool_decide_unpack _). vm_compute. exact I.
  - reflexivity.
Defined.

(** ** The order of the categories *)

Section CategoryOrder.

Lemma alphabetical_checked :
  forallb (printsNearest (totalWeightOf alphabeticalOrder))
    (reachable alphabeticalOrder) = true.
Proof. vm_compute. reflexivity. Qed.

Lemma alphabetical_reached (t c e f : Z) :
  0 <= t <= 10 -> 0 <= c <= 10 -> 0 <= e <= 10 -> 0 <= f <= 10 ->
  (hundredths t c e f,
   (zero + ofZ c * weightOf "communicationSkills" +
    ofZ f * weightOf "culturalFit" +
    ofZ e * weightOf "experience" +
    ofZ t * weightOf "technicalSkills")%num) ∈ reachable alphabeticalOrder.
Proof.
  intros Ht Hc He Hf.
  replace (hundredths t c e f)
    with (0 + 25 * c + 10 * f + 25 * e + 40 * t) by (unfold hundredths; lia).
  unfold reachable. cbn [fold_left fst snd].
  do 4 (apply extend_elem; [|apply terms_elem; assumption]).
  apply list_elem_of_singleton. reflexivity.
Qed.

Lemma alphabetical_loop (t c e f : Z) :
  calculateOverallScore (alphabeticalScores t c e f) DEFAULT_WEIGHTS =
  (if (totalWeightOf alphabeticalOrder === zero)%num then zero
   else parseFloat
          (toFixed1
             ((zero + ofZ c * weightOf "communicationSkills" +
               ofZ f * weightOf "culturalFit" +
               ofZ e * weightOf "experience" +
               ofZ t * weightOf "technicalSkills") /
              totalWeightOf alphabeticalOrder)%num)).
Proof.
  unfold calculateOverallScore, alphabeticalScores. cbn [fold_left].
  rewrite (accumulate_default "communicationSkills" 25),
    (accumulate_default "culturalFit" 10),
    (accumulate_default "experience" 25),
    (accumulate_default "technicalSkills" 40)
    by (unfold formOrder; rewrite !elem_of_cons; tauto).
  reflexivity.
Qed.

Lemma alphabetical_overall (t c e f : Z) :
  0 <= t <= 10 -> 0 <= c <= 10 -> 0 <= e <= 10 -> 0 <= f <= 10 ->
  exists k : N,
    calculateOverallScore (alphabeticalScores t c e f) DEFAULT_WEIGHTS =
      parseFloat (FixedDecimal false k) /\
    Z.abs (10 * Z.of_N k - hundredths t c e f) <= 5.
Proof.
  intros Ht Hc He Hf. rewrite alphabetical_loop. apply printsNearest_spec.
  apply (proj1 (forallb_forall _ _) alphabetical_checked).
  apply (proj1 (list_elem_of_In _ _)). apply alphabetical_reached; assumption.
Qed.

End CategoryOrder.

(** X27. The order in which the scores object lists the four
    categories changes the overall score only when the exact weighted
    mean lies halfway between two tenths: for whole scores from 0 to 10
    the order of the form and the alphabetical order give the same
    overall score whenever the exact mean is not such a tie, and
    neighbouring tenths at most; for the scores 1, 0, 1, 9 (exact mean
    1.55) the order of the form gives 1.6 and the alphabetical order
    1.5. *)
Theorem category_order_matters_only_at_ties :
  (forall t c e f : Z,
     0 <= t <= 10 -> 0 <= c <= 10 -> 0 <= e <= 10 -> 0 <= f <= 10 ->
     exists k k' : N,
       calculateOverallScore (sliderScores t c e f) DEFAULT_WEIGHTS =
         parseFloat (FixedDecimal false k) /\
       calculateOverallScore (alphabeticalScores t c e f) DEFAULT_WEIGHTS =
         parseFloat (FixedDecimal false k') /\
       Z.abs (Z.of_N k - Z.of_N k') <= 1 /\
       (hundredths t c e f mod 10 <> 5 -> k = k')) /\
  calculateOverallScore (sliderScores 1 0 1 9) DEFAULT_WEIGHTS =
    parseFloat (FixedDecimal false 16) /\
  calculateOverallScore (alphabeticalScores 1 0 1 9) DEFAULT_WEIGHTS =
    parseFloat (FixedDecimal false 15).
Proof.
  split; [|split; vm_compute; reflexivity].
  intros t c e f Ht Hc He Hf.
  destruct (slider_overall t c e f Ht Hc He Hf) as (k & Hk & Hnear).
  destruct (alphabetical_overall t c e f Ht Hc He Hf) as (k' & Hk' & Hnear').
  exists k, k'. split; [exact Hk|]. split; [exact Hk'|].
  split; [lia|]. intros Htie. apply N2Z.inj.
  pose proof (Z.div_mod (hundredths t c e f) 10 ltac:(lia)) as Hdiv.
  pose proof (Z.mod_pos_bound (hundredths t c e f) 10 ltac:(lia)) as Hbound.
  lia.
Qed.

Lemma category_order_matters_only_at_ties_witness :
  exists k k' : N,
    calculateOverallScore (sliderScores 8 6 6 9) DEFAULT_WEIGHTS =
      parseFloat (FixedDecimal false k) /\
    calculateOverallScore (alphabeticalScores 8 6 6 9) DEFAULT_WEIGHTS =
      parseFloat (FixedDecimal false k') /\
    Z.abs (Z.of_N k - Z.of_N k') <= 1 /\
    (hundredths 8 6 6 9 mod 10 <> 5 -> k = k').
Proof.
  apply (proj1 category_order_matters_only_at_ties 8 6 6 9); lia.
Defined.
